(** * clinic-pwa: the dashboard client of [app.js]

    A shallow embedding of the page controllers of [src/app.js]
    ([HospitalApp], [HomePage], [refreshData]) and the properties of the
    data-orchestration and rendering layer.

    Modelling conventions.
    - A value produced by [JSON.parse] is a [JSValue].  Numbers are the
      integral ones that a double holds exactly and prints in plain
      decimal notation (status codes, lengths, epoch milliseconds: the
      integers of magnitude up to [2^53]); a [VNum n] stands for such a
      number.  Fractions and larger magnitudes, which print rounded or in
      exponent notation, are outside the model.  Strings are sequences of
      8-bit code units.
    - A JavaScript exception is a [Throw] in [Result]; a rejected promise
      of an [async] method is a [Throw] of the method's computation, and
      [await] is sequencing.
    - The page is a [World]: the elements that carry an [id] with their
      current content, the toasts appended to [document.body], the pending
      [setTimeout] callbacks and the clock.  The controllers are created
      on [DOMContentLoaded], so [document.body] exists.  Markup assigned
      to [innerHTML] is kept as the string that was assigned; styling
      ([style.cssText]) is not part of the model.
    - Time is a logical clock: a routine runs at one instant, and the
      callbacks of [setTimeout] run when the clock has reached their
      delay ([elapse]).
    - The promises given to [Promise.all] write to different render
      targets; they are run one after the other in the order of the
      array, which fixes one of the orders in which their toasts and
      console lines can appear.
    - What the browser and the deployment decide (whether [API_URL] is a
      valid URL and the message of the engine's [TypeError] when it is
      not, what the remote service answers, the time zone, the parsing of
      non-ISO date strings, locale formatting) is an [Env]. *)

From Stdlib Require Import ZArith Lia Ascii String List.
From stdpp Require Import base strings gmap list pretty.
Import ListNotations.
Open Scope Z_scope.
Set Warnings "-register-all".

(** ** Strings *)

Definition dq : string := String "034"%char EmptyString.
Definition nl : string := String "010"%char EmptyString.

Fixpoint spaces (n : nat) : string :=
  match n with
  | O => EmptyString
  | S n' => String " "%char (spaces n')
  end.

(** [s.split(sep)] for a one-character separator. *)
Fixpoint split (sep : ascii) (s : string) : list string :=
  match s with
  | EmptyString => [EmptyString]
  | String c s' =>
      if Ascii.eqb c sep then EmptyString :: split sep s'
      else match split sep s' with
           | [] => [String c EmptyString]
           | h :: t => String c h :: t
           end
  end.

(** [parts.join(sep)] on an array of strings. *)
Definition join (sep : string) (parts : list string) : string :=
  String.concat sep parts.

(** ** JavaScript values, errors and results *)

Inductive JSValue :=
| VUndef
| VNull
| VBool (b : bool)
| VNum (n : Z)
| VStr (s : string)
| VArr (items : list JSValue)
| VObj (fields : list (string * JSValue)).

Inductive ErrorKind := Error | TypeError | SyntaxError | RangeError.

Record JSError := mkError { err_kind : ErrorKind; err_message : string }.

Inductive Result (A : Type) :=
| Ok (a : A)
| Throw (e : JSError).
Arguments Ok {A} a.
Arguments Throw {A} e.

Definition rbind {A B} (r : Result A) (k : A -> Result B) : Result B :=
  match r with
  | Ok a => k a
  | Throw e => Throw e
  end.

Notation "'let?' x ':=' r 'in' k" := (rbind r (fun x => k))
  (at level 10, x name, r at level 100, k at level 200).

Fixpoint assoc {A} (k : string) (kvs : list (string * A)) : option A :=
  match kvs with
  | [] => None
  | (k', v) :: rest => if String.eqb k k' then Some v else assoc k rest
  end.

Definition nullish (v : JSValue) : bool :=
  match v with
  | VUndef | VNull => true
  | _ => false
  end.

Definition describe (v : JSValue) : string :=
  match v with
  | VNull => "null"
  | _ => "undefined"
  end.

Definition cannot_read (v : JSValue) (name : string) : JSError :=
  mkError TypeError
    ("Cannot read properties of " +:+ describe v +:+ " (reading '" +:+ name +:+ "')").

Definition not_a_function (name : string) : JSError :=
  mkError TypeError (name +:+ " is not a function").

(** [v.name] for the data properties the scripts read ([success],
    [message], [data], [length] and the record fields). *)
Definition Get (v : JSValue) (name : string) : Result JSValue :=
  match v with
  | VUndef | VNull => Throw (cannot_read v name)
  | VObj fields => Ok (default VUndef (assoc name fields))
  | VArr items =>
      Ok (if String.eqb name "length" then VNum (Z.of_nat (length items)) else VUndef)
  | VStr s =>
      Ok (if String.eqb name "length" then VNum (Z.of_nat (String.length s)) else VUndef)
  | VBool _ | VNum _ => Ok VUndef
  end.

(** [v?.name] *)
Definition OptGet (v : JSValue) (name : string) : Result JSValue :=
  if nullish v then Ok VUndef else Get v name.

Definition ToBoolean (v : JSValue) : bool :=
  match v with
  | VUndef | VNull => false
  | VBool b => b
  | VNum n => negb (n =? 0)
  | VStr s => negb (String.eqb s EmptyString)
  | VArr _ | VObj _ => true
  end.

(** [a === b] where one side is a primitive literal; two distinct objects
    are never identical. *)
Definition StrictEquals (a b : JSValue) : bool :=
  match a, b with
  | VUndef, VUndef => true
  | VNull, VNull => true
  | VBool x, VBool y => Bool.eqb x y
  | VNum x, VNum y => x =? y
  | VStr x, VStr y => String.eqb x y
  | _, _ => false
  end.

(** [a || b] *)
Definition LogicalOr (a b : JSValue) : JSValue :=
  if ToBoolean a then a else b.

(** [String(v)], the conversion applied by template literals.  An object
    parsed from JSON converts through [Object.prototype.toString] unless
    it has an own [toString] entry, which is never callable.  A number
    prints as its decimal digits, which is what [Number::toString] gives
    for the integers of the model (magnitude up to [2^53]). *)
Fixpoint ToString (v : JSValue) : Result string :=
  match v with
  | VUndef => Ok "undefined"
  | VNull => Ok "null"
  | VBool true => Ok "true"
  | VBool false => Ok "false"
  | VNum n => Ok (pretty n)
  | VStr s => Ok s
  | VArr items =>
      (fix elements (l : list JSValue) : Result string :=
         match l with
         | [] => Ok EmptyString
         | x :: rest =>
             let? sx := (if nullish x then Ok EmptyString else ToString x) in
             match rest with
             | [] => Ok sx
             | _ => let? sr := elements rest in Ok (sx +:+ "," +:+ sr)
             end
         end) items
  | VObj fields =>
      match assoc "toString" fields with
      | Some _ => Throw (mkError TypeError "Cannot convert object to primitive value")
      | None => Ok "[object Object]"
      end
  end.

(** The receiver of an [Array.prototype] method call. *)
Definition as_Array (v : JSValue) (method : string) : Result (list JSValue) :=
  match v with
  | VArr items => Ok items
  | VUndef | VNull => Throw (cannot_read v method)
  | _ => Throw (not_a_function method)
  end.

(** [v.split(sep)]: only strings have the method. *)
Definition String_split (v : JSValue) (sep : ascii) : Result (list string) :=
  match v with
  | VStr s => Ok (split sep s)
  | VUndef | VNull => Throw (cannot_read v "split")
  | _ => Throw (not_a_function "split")
  end.

(** ** Callbacks over array elements

    The callback of [Array.prototype.map] and [filter] receives a
    reference to the element object, which it could assign to.  The
    element is therefore threaded through the callback: a callback
    returns its value together with the element as it leaves it, and the
    array methods return the array as the pass leaves it. *)

Definition Callback (A : Type) := JSValue -> Result (A * JSValue).

Definition cb_ret {A} (a : A) : Callback A := fun item => Ok (a, item).

Definition cb_bind {A B} (c : Callback A) (k : A -> Callback B) : Callback B :=
  fun item =>
    match c item with
    | Ok (a, item') => k a item'
    | Throw e => Throw e
    end.

Definition cb_lift {A} (r : Result A) : Callback A :=
  fun item =>
    match r with
    | Ok a => Ok (a, item)
    | Throw e => Throw e
    end.

(** [item.name] inside a callback. *)
Definition item_get (name : string) : Callback JSValue :=
  fun item =>
    match Get item name with
    | Ok v => Ok (v, item)
    | Throw e => Throw e
    end.

Notation "'let*' x ':=' c 'in' k" := (cb_bind c (fun x => k))
  (at level 10, x name, c at level 100, k at level 200).

Fixpoint Array_map {B} (cb : Callback B) (items : list JSValue)
  : Result (list B * list JSValue) :=
  match items with
  | [] => Ok ([], [])
  | x :: rest =>
      match cb x with
      | Throw e => Throw e
      | Ok (b, x') =>
          match Array_map cb rest with
          | Throw e => Throw e
          | Ok (bs, rest') => Ok (b :: bs, x' :: rest')
          end
      end
  end.

Fixpoint Array_filter (cb : Callback bool) (items : list JSValue)
  : Result (list JSValue * list JSValue) :=
  match items with
  | [] => Ok ([], [])
  | x :: rest =>
      match cb x with
      | Throw e => Throw e
      | Ok (keep, x') =>
          match Array_filter cb rest with
          | Throw e => Throw e
          | Ok (kept, rest') =>
              Ok (if keep then x' :: kept else kept, x' :: rest')
          end
      end
  end.

(** ** Dates

    A [Date] holds a time value, milliseconds since the epoch in UTC, or
    [NaN] ([None]). *)

Definition msPerDay : Z := 86400000.
Definition maxTime : Z := 8640000000000000.

Definition TimeClip (t : Z) : option Z :=
  if Z.abs t <=? maxTime then Some t else None.

(** The proleptic Gregorian date of a day number counted from the epoch. *)
Definition civil_from_days (days : Z) : Z * Z * Z :=
  let z := days + 719468 in
  let era := z / 146097 in
  let doe := z - era * 146097 in
  let yoe := (doe - doe / 1460 + doe / 36524 - doe / 146096) / 365 in
  let doy := doe - (365 * yoe + yoe / 4 - yoe / 100) in
  let mp := (5 * doy + 2) / 153 in
  let d := doy - (153 * mp + 2) / 5 + 1 in
  let m := if mp <? 10 then mp + 3 else mp - 9 in
  let y := yoe + era * 400 in
  (if m <=? 2 then y + 1 else y, m, d).

Definition days_from_civil (y m d : Z) : Z :=
  let y' := if m <=? 2 then y - 1 else y in
  let era := y' / 400 in
  let yoe := y' - era * 400 in
  let doy := (153 * (if 2 <? m then m - 3 else m + 9) + 2) / 5 + d - 1 in
  let doe := yoe * 365 + yoe / 4 - yoe / 100 + doy in
  era * 146097 + doe - 719468.

Definition is_leap (y : Z) : bool :=
  ((y mod 4 =? 0) && negb (y mod 100 =? 0)) || (y mod 400 =? 0).

Definition days_in_month (y m : Z) : Z :=
  if m =? 2 then (if is_leap y then 29 else 28)
  else if (m =? 4) || (m =? 6) || (m =? 9) || (m =? 11) then 30
  else 31.

Fixpoint zeros (n : nat) : string :=
  match n with
  | O => EmptyString
  | S n' => String "0"%char (zeros n')
  end.

(** A non-negative number in decimal, padded with zeros to [width]. *)
Definition pad (width : nat) (n : Z) : string :=
  let s := pretty n in
  zeros (width - String.length s) +:+ s.

Definition year_string (y : Z) : string :=
  if (0 <=? y) && (y <=? 9999) then pad 4 y
  else (if y <? 0 then "-" else "+") +:+ pad 6 (Z.abs y).

(** [date.toISOString()] *)
Definition toISOString (date : option Z) : Result string :=
  match date with
  | None => Throw (mkError RangeError "Invalid time value")
  | Some t =>
      let '(y, m, d) := civil_from_days (t / msPerDay) in
      let r := t mod msPerDay in
      Ok (year_string y +:+ "-" +:+ pad 2 m +:+ "-" +:+ pad 2 d +:+ "T"
          +:+ pad 2 (r / 3600000) +:+ ":" +:+ pad 2 (r / 60000 mod 60) +:+ ":"
          +:+ pad 2 (r / 1000 mod 60) +:+ "." +:+ pad 3 (r mod 1000) +:+ "Z")
  end.

(** [date.toISOString().split('T')[0]] *)
Definition isoDay (date : option Z) : Result string :=
  let? iso := toISOString date in
  Ok (hd EmptyString (split "T"%char iso)).

Definition digit (c : ascii) : option Z :=
  let n := Z.of_nat (nat_of_ascii c) in
  if (48 <=? n) && (n <=? 57) then Some (n - 48) else None.

Fixpoint digits (s : string) (acc : Z) : option Z :=
  match s with
  | EmptyString => Some acc
  | String c s' =>
      match digit c with
      | Some d => digits s' (10 * acc + d)
      | None => None
      end
  end.

(** A field of exactly [width] decimal digits. *)
Definition field (width : nat) (s : string) : option Z :=
  if Nat.eqb (String.length s) width then digits s 0 else None.

Fixpoint strip_Z (s : string) : option string :=
  match s with
  | EmptyString => None
  | String c EmptyString => if Ascii.eqb c "Z"%char then Some EmptyString else None
  | String c s' => option_map (String c) (strip_Z s')
  end.

(** [YYYY-MM-DD] to its day number. *)
Definition parse_date_part (s : string) : option Z :=
  match split "-"%char s with
  | [ys; ms; ds] =>
      match field 4 ys, field 2 ms, field 2 ds with
      | Some y, Some m, Some d =>
          if (1 <=? m) && (m <=? 12) && (1 <=? d) && (d <=? days_in_month y m)
          then Some (days_from_civil y m d) else None
      | _, _, _ => None
      end
  | _ => None
  end.

(** [HH:mm:ss] or [HH:mm:ss.sss] to milliseconds within the day. *)
Definition parse_time_part (s : string) : option Z :=
  match split ":"%char s with
  | [hs; ms; rest] =>
      match split "."%char rest with
      | [ss] =>
          match field 2 hs, field 2 ms, field 2 ss with
          | Some h, Some m, Some sec =>
              if (h <=? 23) && (m <=? 59) && (sec <=? 59)
              then Some (h * 3600000 + m * 60000 + sec * 1000) else None
          | _, _, _ => None
          end
      | [ss; fs] =>
          match field 2 hs, field 2 ms, field 2 ss, field 3 fs with
          | Some h, Some m, Some sec, Some f =>
              if (h <=? 23) && (m <=? 59) && (sec <=? 59)
              then Some (h * 3600000 + m * 60000 + sec * 1000 + f) else None
          | _, _, _, _ => None
          end
      | _ => None
      end
  | _ => None
  end.

(** ** The page and its environment *)

Inductive Content :=
| InnerHTML (html : string)
| TextContent (text : string).

(** An element created by the scripts and appended to [document.body]. *)
Record Toast := mkToast {
  toast_node : nat;
  toast_class : string;
  toast_content : Content }.

(** A pending [setTimeout(() => toast.remove(), delay)]. *)
Record Timer := mkTimer {
  timer_due : Z;
  timer_node : nat }.

(** The page: the content of the elements that have an [id], the
    children the scripts appended to [document.body], the pending timers,
    the current time value, the identity of the next created element and
    the lines written to the console. *)
Record World := mkWorld {
  elements : gmap string Content;
  body : list Toast;
  timers : list Timer;
  clock : Z;
  next_node : nat;
  console : list string }.

(** What [response.json()] finds in the body: a JSON value, or text that
    does not parse (with the message of the [SyntaxError]). *)
Inductive Body :=
| Json (v : JSValue)
| NotJson (why : string).

Record Response := mkResponse {
  status : Z;
  json : Body }.

(** [response.ok] *)
Definition ok (r : Response) : bool :=
  (200 <=? status r) && (status r <=? 299).

Inductive FetchOutcome :=
| NetworkFailure (why : string)
| Responded (r : Response).

(** What lies outside the scripts: whether [new URL(API_URL)] succeeds
    (it does not for the placeholder the repository ships, it does for a
    deployed web-app URL), the answer of the service to a query, the
    offset of local time from UTC in minutes, the parsing of date strings
    outside the ISO forms, [toLocaleString], and the message of the
    [TypeError] that [new URL] throws for an invalid URL, which every
    engine words in its own way. *)
Record Env := mkEnv {
  API_URL_valid : bool;
  remote : list (string * string) -> FetchOutcome;
  zone_offset : Z;
  Date_parse_other : string -> option Z;
  toLocaleString : Z -> string;
  URL_error : string }.

(** ** Computations on the page *)

Definition M (A : Type) := World -> Result A * World.

Definition ret {A} (a : A) : M A := fun w => (Ok a, w).

Definition throw {A} (e : JSError) : M A := fun w => (Throw e, w).

Definition bind {A B} (m : M A) (k : A -> M B) : M B :=
  fun w =>
    match m w with
    | (Ok a, w') => k a w'
    | (Throw e, w') => (Throw e, w')
    end.

Definition lift {A} (r : Result A) : M A := fun w => (r, w).

Definition try_catch {A} (m : M A) (handler : JSError -> M A) : M A :=
  fun w =>
    match m w with
    | (Ok a, w') => (Ok a, w')
    | (Throw e, w') => handler e w'
    end.

Notation "x <- m ;; k" := (bind m (fun x => k))
  (at level 100, m at next level, right associativity).
Notation "m ;;; k" := (bind m (fun _ => k))
  (at level 100, right associativity).

(** [Promise.all]: every computation runs to its end, also after one of
    them has rejected; the result rejects with the first rejection. *)
Fixpoint Promise_all {A} (ms : list (M A)) : M (list A) :=
  match ms with
  | [] => ret []
  | m :: rest =>
      fun w =>
        let '(r, w1) := m w in
        let '(rs, w2) := Promise_all rest w1 in
        (match r, rs with
         | Ok a, Ok l => Ok (a :: l)
         | Throw e, _ => Throw e
         | Ok _, Throw e => Throw e
         end, w2)
  end.

Definition set_elements (f : gmap string Content -> gmap string Content) (w : World) : World :=
  mkWorld (f (elements w)) (body w) (timers w) (clock w) (next_node w) (console w).

Definition set_body (f : list Toast -> list Toast) (w : World) : World :=
  mkWorld (elements w) (f (body w)) (timers w) (clock w) (next_node w) (console w).

Definition set_timers (f : list Timer -> list Timer) (w : World) : World :=
  mkWorld (elements w) (body w) (f (timers w)) (clock w) (next_node w) (console w).

Definition set_clock (t : Z) (w : World) : World :=
  mkWorld (elements w) (body w) (timers w) t (next_node w) (console w).

(** [document.getElementById(id)]: the element, named by its id, or [null]. *)
Definition getElementById (id : string) : M (option string) :=
  fun w =>
    (Ok (match elements w !! id with Some _ => Some id | None => None end), w).

Definition cannot_set (name : string) : JSError :=
  mkError TypeError ("Cannot set properties of null (setting '" +:+ name +:+ "')").

(** [el.innerHTML = html] *)
Definition set_innerHTML (el : option string) (html : string) : M unit :=
  match el with
  | None => throw (cannot_set "innerHTML")
  | Some id => fun w => (Ok tt, set_elements (insert id (InnerHTML html)) w)
  end.

(** [el.textContent = v] *)
Definition set_textContent (el : option string) (v : JSValue) : M unit :=
  match el with
  | None => throw (cannot_set "textContent")
  | Some id =>
      text <- lift (if nullish v then Ok EmptyString else ToString v);;
      fun w => (Ok tt, set_elements (insert id (TextContent text)) w)
  end.

(** [console.log] and [console.error] *)
Definition console_log (line : string) : M unit :=
  fun w =>
    (Ok tt, mkWorld (elements w) (body w) (timers w) (clock w) (next_node w)
              (console w ++ [line])).

(** [document.createElement('div')] *)
Definition createElement : M nat :=
  fun w =>
    (Ok (next_node w),
     mkWorld (elements w) (body w) (timers w) (clock w) (S (next_node w)) (console w)).

(** [document.body.appendChild(toast)] *)
Definition appendChild (t : Toast) : M unit :=
  fun w => (Ok tt, set_body (fun b => b ++ [t]) w).

(** [setTimeout(() => toast.remove(), delay)] *)
Definition setTimeout_remove (node : nat) (delay : Z) : M unit :=
  fun w => (Ok tt, set_timers (fun ts => ts ++ [mkTimer (clock w + delay) node]) w).

(** [node.remove()]: detaches the node; nothing happens when it has no
    parent. *)
Definition Element_remove (node : nat) : M unit :=
  fun w =>
    (Ok tt, set_body (List.filter (fun t => negb (Nat.eqb (toast_node t) node))) w).

(** [new Date()] *)
Definition Date_now : M (option Z) := fun w => (Ok (Some (clock w)), w).

(** ** Markup written by the controllers *)

Definition div_class (cls inner : string) : string :=
  "<div class=" +:+ dq +:+ cls +:+ dq +:+ ">" +:+ inner +:+ "</div>".

Definition loading_html : string := div_class "loading" "Loading...".
Definition no_schedule_html : string := div_class "no-data" "No schedule for today".
Definition schedule_failed_html : string := div_class "error" "Failed to load schedule".
Definition no_on_call_html : string := div_class "no-data" "No on-call duty today".
Definition on_call_failed_html : string := div_class "error" "Failed to load on-call data".

(** The template literal of [showError]. *)
Definition error_toast_html (message : string) : string :=
  nl +:+ spaces 12 +:+ "<i class=" +:+ dq +:+ "fas fa-exclamation-circle" +:+ dq +:+ "></i>"
  +:+ nl +:+ spaces 12 +:+ "<span>" +:+ message +:+ "</span>"
  +:+ nl +:+ spaces 12 +:+ "<button onclick=" +:+ dq +:+ "this.parentElement.remove()" +:+ dq
  +:+ ">&times;</button>"
  +:+ nl +:+ spaces 8.

(** The template literal of the [map] callback of [loadTodaySchedule],
    with its four substitutions. *)
Definition schedule_item_html (clinic consultants badge status : string) : string :=
  nl +:+ spaces 16 +:+ "<div class=" +:+ dq +:+ "schedule-item" +:+ dq +:+ ">"
  +:+ nl +:+ spaces 20 +:+ "<div class=" +:+ dq +:+ "schedule-info" +:+ dq +:+ ">"
  +:+ nl +:+ spaces 24 +:+ "<h4>" +:+ clinic +:+ "</h4>"
  +:+ nl +:+ spaces 24 +:+ "<p>" +:+ consultants +:+ "...</p>"
  +:+ nl +:+ spaces 20 +:+ "</div>"
  +:+ nl +:+ spaces 20 +:+ "<span class=" +:+ dq +:+ "status-badge " +:+ badge +:+ dq +:+ ">"
  +:+ nl +:+ spaces 24 +:+ status
  +:+ nl +:+ spaces 20 +:+ "</span>"
  +:+ nl +:+ spaces 16 +:+ "</div>"
  +:+ nl +:+ spaces 12.

(** The template literal of the [map] callback of [loadOnCallToday]. *)
Definition call_item_html (consultant senior registrar : string) : string :=
  nl +:+ spaces 16 +:+ "<div class=" +:+ dq +:+ "call-item" +:+ dq +:+ ">"
  +:+ nl +:+ spaces 20 +:+ "<div class=" +:+ dq +:+ "call-info" +:+ dq +:+ ">"
  +:+ nl +:+ spaces 24 +:+ "<h4>" +:+ consultant +:+ "</h4>"
  +:+ nl +:+ spaces 24 +:+ "<p>Team: " +:+ senior +:+ ", " +:+ registrar +:+ "</p>"
  +:+ nl +:+ spaces 20 +:+ "</div>"
  +:+ nl +:+ spaces 16 +:+ "</div>"
  +:+ nl +:+ spaces 12.

(** [new Error(message)] *)
Definition new_Error (message : JSValue) : Result JSError :=
  match message with
  | VUndef => Ok (mkError Error EmptyString)
  | _ => let? text := ToString message in Ok (mkError Error text)
  end.

Inductive Page := GenericPage | Home.

Section Controllers.

Variable env : Env.

(** [Date.parse]: the ISO forms [YYYY-MM-DD] (UTC) and
    [YYYY-MM-DDTHH:mm:ss(.sss)] with [Z] (UTC) or without (local time);
    every other string is parsed as the implementation decides. *)
Definition Date_parse (s : string) : option Z :=
  match split "T"%char s with
  | [d] =>
      match parse_date_part d with
      | Some day => Some (day * msPerDay)
      | None => Date_parse_other env s
      end
  | [d; t] =>
      match parse_date_part d, strip_Z t with
      | Some day, Some t' =>
          match parse_time_part t' with
          | Some ms => Some (day * msPerDay + ms)
          | None => Date_parse_other env s
          end
      | Some day, None =>
          match parse_time_part t with
          | Some ms => Some (day * msPerDay + ms - zone_offset env * 60000)
          | None => Date_parse_other env s
          end
      | None, _ => Date_parse_other env s
      end
  | _ => Date_parse_other env s
  end.

Definition parsed_time (t : option Z) : option Z :=
  match t with
  | Some ms => TimeClip ms
  | None => None
  end.

(** [new Date(v)] *)
Definition new_Date (v : JSValue) : Result (option Z) :=
  match v with
  | VUndef => Ok None
  | VNull => Ok (Some 0)
  | VBool b => Ok (Some (if b then 1 else 0))
  | VNum n => Ok (TimeClip n)
  | VStr s => Ok (parsed_time (Date_parse s))
  | VArr _ | VObj _ => let? s := ToString v in Ok (parsed_time (Date_parse s))
  end.

(** [new Date().toISOString().split('T')[0]] *)
Definition today_iso : M string :=
  now <- Date_now;;
  lift (isoDay now).

(** *** HospitalApp *)

Definition showError (message : string) : M unit :=
  toast <- createElement;;
  appendChild (mkToast toast "error-toast" (InnerHTML (error_toast_html message)));;;
  setTimeout_remove toast 5000.

Definition new_URL : M unit :=
  if API_URL_valid env then ret tt else throw (mkError TypeError (URL_error env)).

Definition fetch (query : list (string * string)) : M Response :=
  match remote env query with
  | NetworkFailure why => throw (mkError TypeError why)
  | Responded r => ret r
  end.

Definition response_json (r : Response) : M JSValue :=
  match json r with
  | Json v => ret v
  | NotJson why => throw (mkError SyntaxError why)
  end.

(** The [try] block of [fetchFromAPI]. *)
Definition request (params : list (string * string)) : M JSValue :=
  new_URL;;;
  response <- fetch params;;
  if negb (ok response)
  then throw (mkError Error ("HTTP error! status: " +:+ pretty (status response)))
  else
    data <- response_json response;;
    success <- lift (Get data "success");;
    if negb (ToBoolean success)
    then
      message <- lift (Get data "message");;
      error <- lift (new_Error message);;
      throw error
    else lift (Get data "data").

(** The [catch] block of [fetchFromAPI]. *)
Definition request_failed (error : JSError) : M JSValue :=
  console_log ("API Error: " +:+ err_message error);;;
  showError ("Failed to load data: " +:+ err_message error);;;
  ret (VArr []).

Definition fetchFromAPI (endpoint : string) (params : list (string * string)) : M JSValue :=
  try_catch (request params) request_failed.

Definition showLoading (container : option string) : M unit :=
  match container with
  | Some _ => set_innerHTML container loading_html
  | None => ret tt
  end.

Definition updateLastUpdated : M unit :=
  lastUpdated <- getElementById "last-updated";;
  match lastUpdated with
  | Some _ =>
      now <- Date_now;;
      set_textContent lastUpdated (VStr (toLocaleString env (default 0 now)))
  | None => ret tt
  end.

(** *** HomePage *)

(** [x?.length || 0] *)
Definition count_of (x : JSValue) : Result JSValue :=
  let? len := OptGet x "length" in
  Ok (LogicalOr len (VNum 0)).

(** [n => n.Status === 'Pending'] *)
Definition is_pending : Callback bool :=
  let* status := item_get "Status" in
  cb_ret (StrictEquals status (VStr "Pending")).

(** [notifications?.filter(n => n.Status === 'Pending').length || 0] *)
Definition pending_count (notifications : JSValue) : Result JSValue :=
  if nullish notifications then Ok (LogicalOr VUndef (VNum 0))
  else
    let? items := as_Array notifications "filter" in
    let? kept := Array_filter is_pending items in
    Ok (LogicalOr (VNum (Z.of_nat (length (fst kept)))) (VNum 0)).

Definition write_count (id : string) (v : JSValue) : M unit :=
  el <- getElementById id;;
  set_textContent el v.

(** The four assignments of [loadStats], after the calls have settled. *)
Definition write_stats (results : list JSValue) : M unit :=
  let doctors := nth 0 results VUndef in
  let clinics := nth 1 results VUndef in
  let roster := nth 2 results VUndef in
  let notifications := nth 3 results VUndef in
  doctorCount <- lift (count_of doctors);;
  write_count "doctor-count" doctorCount;;;
  clinicCount <- lift (count_of clinics);;
  write_count "clinic-count" clinicCount;;;
  rosterCount <- lift (count_of roster);;
  write_count "roster-count" rosterCount;;;
  pendingNotifications <- lift (pending_count notifications);;
  write_count "notification-count" pendingNotifications.

Definition loadStats : M unit :=
  try_catch
    (results <- Promise_all
       [ fetchFromAPI "" [("operation", "getDoctors")];
         fetchFromAPI "" [("operation", "getClinics")];
         (today <- today_iso;;
          fetchFromAPI "" [("operation", "getRoster"); ("date", today)]);
         fetchFromAPI "" [("sheet", "Notifications")] ]%string;;
     write_stats results)
    (fun error => console_log ("Error loading stats: " +:+ err_message error)).

(** The [map] callback of [loadTodaySchedule]. *)
Definition schedule_item : Callback string :=
  let* clinic := item_get "Clinic" in
  let* clinic_text := cb_lift (ToString clinic) in
  let* consultants := item_get "Consultants" in
  let* shown :=
    cb_lift (if nullish consultants then ToString VUndef
             else let? names := String_split consultants ","%char in
                  Ok (join ", " (take 2 names))) in
  let* status := item_get "Status" in
  let badge := if StrictEquals status (VStr "Sent") then "badge-sent" else "badge-pending" in
  let* status' := item_get "Status" in
  let* status_text := cb_lift (ToString (LogicalOr status' (VStr "Pending"))) in
  cb_ret (schedule_item_html clinic_text shown badge status_text).

(** The rest of the [try] block of [loadTodaySchedule], once the roster
    has arrived. *)
Definition render_schedule (container : option string) (schedule : JSValue) : M unit :=
  len <- lift (Get schedule "length");;
  if StrictEquals len (VNum 0)
  then set_innerHTML container no_schedule_html
  else
    items <- lift (as_Array schedule "map");;
    rendered <- lift (Array_map schedule_item items);;
    set_innerHTML container (join "" (fst rendered)).

Definition loadTodaySchedule : M unit :=
  container <- getElementById "today-schedule";;
  showLoading container;;;
  try_catch
    (today <- today_iso;;
     schedule <- fetchFromAPI "" [("operation", "getRoster"); ("date", today)]%string;;
     render_schedule container schedule)
    (fun error => set_innerHTML container schedule_failed_html).

(** [new Date(item.Date).toISOString().split('T')[0] === today] *)
Definition is_today (today : string) : Callback bool :=
  let* date := item_get "Date" in
  let* itemDate := cb_lift (let? d := new_Date date in isoDay d) in
  cb_ret (String.eqb itemDate today).

(** The [map] callback of [loadOnCallToday]. *)
Definition call_item : Callback string :=
  let* consultant := item_get "ConsultantOnCall" in
  let* consultant_text := cb_lift (ToString consultant) in
  let* senior := item_get "SeniorRegistrarOnCall" in
  let* senior_text := cb_lift (ToString senior) in
  let* registrar := item_get "RegistrarOnCall" in
  let* registrar_text := cb_lift (ToString registrar) in
  cb_ret (call_item_html consultant_text senior_text registrar_text).

(** The rest of the [try] block of [loadOnCallToday], once the call
    roster has arrived and [today] is computed. *)
Definition render_on_call (container : option string) (callRoster : JSValue)
    (today : string) : M unit :=
  items <- lift (as_Array callRoster "filter");;
  filtered <- lift (Array_filter (is_today today) items);;
  let todayOnCall := fst filtered in
  if Nat.eqb (length todayOnCall) 0
  then set_innerHTML container no_on_call_html
  else
    rendered <- lift (Array_map call_item todayOnCall);;
    set_innerHTML container (join "" (fst rendered)).

Definition loadOnCallToday : M unit :=
  container <- getElementById "on-call-today";;
  showLoading container;;;
  try_catch
    (callRoster <- fetchFromAPI "" [("sheet", "CallRoster")]%string;;
     today <- today_iso;;
     render_on_call container callRoster today)
    (fun error => set_innerHTML container on_call_failed_html).

(** [loadData] of the base class and its override in [HomePage]. *)
Definition loadData (page : Page) : M unit :=
  match page with
  | GenericPage => console_log "Loading data..."
  | Home =>
      Promise_all [loadStats; loadTodaySchedule; loadOnCallToday];;;
      ret tt
  end.

(** The confirmation toast of [refreshData]. *)
Definition show_refreshed : M unit :=
  toast <- createElement;;
  appendChild (mkToast toast "" (TextContent "Data refreshed successfully!"));;;
  setTimeout_remove toast 3000.

(** [refreshData], for the controller held in [window.currentApp]. *)
Definition refreshData (app : Page) : M unit :=
  loadData app;;;
  updateLastUpdated;;;
  show_refreshed.

(** *** The event loop: user clicks and the passage of time *)

(** The [onclick] of a toast's close button: [this.parentElement.remove()]. *)
Definition dismiss (toast : nat) : M unit := Element_remove toast.

Fixpoint fire (due : list Timer) : M unit :=
  match due with
  | [] => ret tt
  | t :: rest => Element_remove (timer_node t);;; fire rest
  end.

(** [dt] milliseconds pass, then the callbacks whose delay has expired
    run. *)
Definition elapse (dt : Z) : M unit :=
  fun w =>
    let now := clock w + dt in
    let due := List.filter (fun t => timer_due t <=? now) (timers w) in
    let pending := List.filter (fun t => negb (timer_due t <=? now)) (timers w) in
    fire due (set_timers (fun _ => pending) (set_clock now w)).

End Controllers.

(** ** Events on the page *)

Inductive Event :=
| Click (toast : nat)
| Wait (dt : Z)
| Report (message : string).

Definition step (ev : Event) : M unit :=
  match ev with
  | Click toast => dismiss toast
  | Wait dt => elapse dt
  | Report message => showError message
  end.

Fixpoint run (evs : list Event) : M unit :=
  match evs with
  | [] => ret tt
  | ev :: rest => step ev;;; run rest
  end.

(** The time that passes during a sequence of events. *)
Fixpoint waited (evs : list Event) : Z :=
  match evs with
  | [] => 0
  | Wait dt :: rest => dt + waited rest
  | _ :: rest => waited rest
  end.

(** The node is a child of [document.body]. *)
Definition attached (node : nat) (w : World) : Prop :=
  In node (map toast_node (body w)).

(** ** Vocabulary of the properties *)

Definition succeeds {A} (r : Result A) : Prop := exists a, r = Ok a.

Definition contains (s part : string) : Prop :=
  exists before after, s = before +:+ part +:+ after.

(** The page after one failure has been reported: one more toast, its
    removal timer and one console line. *)
Definition reported (message : string) (w : World) : World :=
  mkWorld (elements w)
    (body w ++ [mkToast (next_node w) "error-toast"
                  (InnerHTML (error_toast_html ("Failed to load data: " +:+ message)))])
    (timers w ++ [mkTimer (clock w + 5000) (next_node w)])
    (clock w) (S (next_node w))
    (console w ++ ["API Error: " +:+ message]).

(** The ways a call fails: the failure classes of the API client, and the
    message each one carries. *)
Inductive Failure (env : Env) (params : list (string * string)) : string -> Prop :=
| invalid_url :
    API_URL_valid env = false ->
    Failure env params (URL_error env)
| transport_failure why :
    API_URL_valid env = true ->
    remote env params = NetworkFailure why ->
    Failure env params why
| status_failure r :
    API_URL_valid env = true ->
    remote env params = Responded r ->
    ok r = false ->
    Failure env params ("HTTP error! status: " +:+ pretty (status r))
| malformed_body r why :
    API_URL_valid env = true ->
    remote env params = Responded r ->
    ok r = true ->
    json r = NotJson why ->
    Failure env params why
| envelope_failure r envelope success message error :
    API_URL_valid env = true ->
    remote env params = Responded r ->
    ok r = true ->
    json r = Json envelope ->
    Get envelope "success" = Ok success ->
    ToBoolean success = false ->
    Get envelope "message" = Ok message ->
    new_Error message = Ok error ->
    Failure env params (err_message error).

(** The service answers the call with a success envelope carrying [data]. *)
Definition Delivers (env : Env) (params : list (string * string)) (data : JSValue) : Prop :=
  API_URL_valid env = true /\
  exists r envelope success,
    remote env params = Responded r /\ ok r = true /\ json r = Json envelope /\
    Get envelope "success" = Ok success /\ ToBoolean success = true /\
    Get envelope "data" = Ok data.

(** The call with these parameters returns [v], on every page. *)
Definition Yields (env : Env) (params : list (string * string)) (v : JSValue) : Prop :=
  forall w, fst (fetchFromAPI env "" params w) = Ok v.

(** A callback that leaves the element it is given as it found it. *)
Definition reads_only {A} (cb : Callback A) : Prop :=
  forall item a item', cb item = Ok (a, item') -> item' = item.

(** A computation that creates no render target. *)
Definition keeps_absent {A} (m : M A) : Prop :=
  forall w id, elements w !! id = None -> elements (snd (m w)) !! id = None.

(** The toast [n] is either still waiting for its timer, due at [T], or
    already detached. *)
Definition armed (n : nat) (T : Z) (w : World) : Prop :=
  (In (mkTimer T n) (timers w) /\ clock w < T) \/ ~ attached n w.

Definition passes (ev : Event) : Z :=
  match ev with
  | Wait dt => dt
  | _ => 0
  end.

(** A record whose [Status] is exactly the string [Pending]. *)
Definition status_is_pending (record : JSValue) : bool :=
  match record with
  | VObj fields =>
      match assoc "Status" fields with
      | Some (VStr s) => String.eqb s "Pending"
      | _ => false
      end
  | _ => false
  end.

(** A record that has no [Status] entry. *)
Definition status_absent (record : JSValue) : Prop :=
  exists fields, record = VObj fields /\ assoc "Status" fields = None.

(** The calendar day of a call-roster entry as the filter computes it:
    [new Date(item.Date).toISOString().split('T')[0]]. *)
Definition item_day (env : Env) (item : JSValue) : Result string :=
  let? date := Get item "Date" in
  let? d := new_Date env date in
  isoDay d.

Definition on_utc_day (env : Env) (today : string) (item : JSValue) : bool :=
  match item_day env item with
  | Ok day => String.eqb day today
  | Throw _ => false
  end.

(** The markup of one call-roster entry. *)
Definition call_item_text (item : JSValue) : string :=
  match call_item item with
  | Ok (html, _) => html
  | Throw _ => EmptyString
  end.

(** What the on-call target shows for a list of entries. *)
Definition on_call_markup (shown : list JSValue) : string :=
  match shown with
  | [] => no_on_call_html
  | _ => join "" (map call_item_text shown)
  end.

(** Following the specification's words: the calendar day of an instant
    at the local day boundary, and the entries of a call roster whose
    date falls on the current local day. *)
Definition spec_local_day (env : Env) (t : Z) : Z :=
  (t + zone_offset env * 60000) / msPerDay.

Definition spec_on_local_day (env : Env) (now : Z) (item : JSValue) : bool :=
  match Get item "Date" with
  | Ok date =>
      match new_Date env date with
      | Ok (Some t) => spec_local_day env t =? spec_local_day env now
      | _ => false
      end
  | Throw _ => false
  end.

Definition spec_on_call_today (env : Env) (now : Z) (roster : list JSValue) : list JSValue :=
  List.filter (spec_on_local_day env now) roster.

(** ** Sample services and pages *)

Definition envelope_of (data : JSValue) : JSValue :=
  VObj [("success", VBool true); ("data", data)]%string.

Definition answer (data : JSValue) : FetchOutcome :=
  Responded (mkResponse 200 (Json (envelope_of data))).

(** A deployed service that answers every call the same way. *)
Definition service (offset : Z) (reply : FetchOutcome) : Env :=
  mkEnv true (fun _ => reply) offset (fun _ => None) (fun _ => "now"%string) "Invalid URL".

(** A service with one table per sheet and operation. *)
Definition clinic_service (offset : Z) (roster callRoster notifications : JSValue) : Env :=
  mkEnv true
    (fun params =>
       match assoc "operation" params, assoc "sheet" params with
       | Some "getRoster"%string, _ => answer roster
       | _, Some "CallRoster"%string => answer callRoster
       | _, Some "Notifications"%string => answer notifications
       | _, _ => answer (VArr [])
       end)
    offset (fun _ => None) (fun _ => "now"%string) "Invalid URL".

(** The home page with every render target, at time [t]. *)
Definition dashboard (t : Z) : World :=
  mkWorld
    (list_to_map
       [("doctor-count", TextContent ""); ("clinic-count", TextContent "");
        ("roster-count", TextContent ""); ("notification-count", TextContent "");
        ("today-schedule", InnerHTML ""); ("on-call-today", InnerHTML "");
        ("last-updated", TextContent "")]%string)
    [] [] t 0 [].

(** The same page without the schedule target. *)
Definition dashboard_without_schedule (t : Z) : World :=
  set_elements (delete "today-schedule"%string) (dashboard t).

(** 2024-05-10T23:30:00Z, which is 00:30 on 2024-05-11 in Lagos (UTC+1). *)
Definition late_evening : Z := 1715383800000.

Definition ent_roster : JSValue :=
  VArr [VObj [("Clinic", VStr "ENT"); ("Consultants", VStr "A,B,C");
              ("Status", VStr "Sent")]%string].

Definition call_entry (date consultant : string) : JSValue :=
  VObj [("Date", VStr date); ("ConsultantOnCall", VStr consultant);
        ("SeniorRegistrarOnCall", VStr "SR"); ("RegistrarOnCall", VStr "R")]%string.

Definition two_day_roster : list JSValue :=
  [call_entry "2024-05-10" "Dr Ade"; call_entry "2024-05-11" "Dr Bello"].
(** ** Frames of the routines *)

Definition error_toast (t : Toast) : Prop := toast_class t = "error-toast"%string.

(** The page [w'] that a routine leaves when started on [w]: the clock is
    kept, only the render targets named in [ids] are written, no target
    is removed, and nothing but error toasts is appended to
    [document.body]. *)
Definition framed (ids : list string) (w w' : World) : Prop :=
  clock w' = clock w /\
  (forall id, ~ In id ids -> elements w' !! id = elements w !! id) /\
  (forall id, is_Some (elements w !! id) -> is_Some (elements w' !! id)) /\
  exists toasts, body w' = body w ++ toasts /\ Forall error_toast toasts.

Inductive frames (ids : list string) {A} (m : M A) : Prop :=
| frames_intro : (forall w, framed ids w (snd (m w))) -> frames ids m.

(** A computation that appends no toast and registers no timer. *)
Inductive silent {A} (m : M A) : Prop :=
| silent_intro :
    (forall w, body (snd (m w)) = body w /\ timers (snd (m w)) = timers w) -> silent m.

(** The ids of the four counters of [loadStats]. *)
Definition counters : list string :=
  ["doctor-count"; "clinic-count"; "roster-count"; "notification-count"]%string.

(** Rosters that [render_schedule] cannot render: a result without
    [length] ([undefined], [null]), and a sequence with an entry that is
    [null] or [undefined] or whose [Consultants] is neither a string nor
    absent. *)
Inductive Malformed_roster : JSValue -> Prop :=
| roster_nullish schedule :
    nullish schedule = true -> Malformed_roster schedule
| roster_with_hole items :
    Exists (fun item => nullish item = true) items -> Malformed_roster (VArr items)
| roster_with_odd_consultants items :
    Exists (fun item =>
              exists fields consultants,
                item = VObj fields /\ assoc "Consultants" fields = Some consultants /\
                nullish consultants = false /\
                (forall names, consultants <> VStr names))
           items ->
    Malformed_roster (VArr items).

(** The toast [n] is attached and every timer that will remove it is due
    at [T] or later. *)
Definition lingering (n : nat) (T : Z) (w : World) : Prop :=
  attached n w /\ (n < next_node w)%nat /\
  Forall (fun t => timer_node t = n -> T <= timer_due t) (timers w).

(** No pending timer names an element that does not exist yet. *)
Definition timers_known (w : World) : Prop :=
  Forall (fun t => (timer_node t < next_node w)%nat) (timers w).

(** The page [w'] shows [k] error toasts more than [w]. *)
Definition appended (k : nat) (w w' : World) : Prop :=
  exists toasts,
    body w' = body w ++ toasts /\ length toasts = k /\ Forall error_toast toasts.

(** ** The navigation menu

    [setupEventListeners] looks up the first [.menu-toggle] and the first
    [.nav-menu] once.  A page is described by whether the toggle exists
    and by the class list of the menu ([None] when there is no menu). *)

Record Nav := mkNav {
  menuToggle : bool;
  navMenu : option (gset string) }.

(** A click: the viewport width at that moment, whether the click reaches
    the toggle element, and whether its target lies inside an element of
    class [nav-menu] or [menu-toggle] ([e.target.closest]). *)
Record ClickEvent := mkClick {
  innerWidth : Z;
  on_menuToggle : bool;
  closest_nav_menu : bool;
  closest_menu_toggle : bool }.

(** [el.classList.toggle(token)] *)
Definition classList_toggle (el : option (gset string)) (token : string)
  : Result (option (gset string)) :=
  match el with
  | None => Throw (cannot_read VNull "classList")
  | Some classes =>
      Ok (Some (if decide (token ∈ classes) then classes ∖ {[token]} else classes ∪ {[token]}))
  end.

(** [el.classList.remove(token)] *)
Definition classList_remove (el : option (gset string)) (token : string)
  : Result (option (gset string)) :=
  match el with
  | None => Throw (cannot_read VNull "classList")
  | Some classes => Ok (Some (classes ∖ {[token]}))
  end.

(** The toggle listener is attached only [if (menuToggle && navMenu)]. *)
Definition toggle_listening (nav : Nav) : bool :=
  menuToggle nav && match navMenu nav with Some _ => true | None => false end.

(** The listener of the toggle. *)
Definition toggle_clicked (nav : Nav) : Result Nav :=
  let? menu := classList_toggle (navMenu nav) "active" in
  Ok (mkNav (menuToggle nav) menu).

(** The listener of the document. *)
Definition document_clicked (e : ClickEvent) (nav : Nav) : Result Nav :=
  if (innerWidth e <=? 768) && negb (closest_nav_menu e) && negb (closest_menu_toggle e)
     && match navMenu nav with Some _ => true | None => false end
  then
    let? menu := classList_remove (navMenu nav) "active" in
    Ok (mkNav (menuToggle nav) menu)
  else Ok nav.

(** One listener of a dispatch: an exception it throws is reported and
    does not keep the other listeners from running. *)
Definition listen (listener : Nav -> Result Nav) (state : Nav * list JSError)
  : Nav * list JSError :=
  match listener (fst state) with
  | Ok nav' => (nav', snd state)
  | Throw e => (fst state, snd state ++ [e])
  end.

(** The dispatch of a click: the toggle's listener when the click reaches
    it, then the document's. *)
Definition click (e : ClickEvent) (nav : Nav) : Nav * list JSError :=
  let at_toggle :=
    if toggle_listening nav && on_menuToggle e
    then listen toggle_clicked (nav, [])
    else (nav, []) in
  listen (document_clicked e) at_toggle.

Fixpoint clicks (es : list ClickEvent) (nav : Nav) : Nav * list JSError :=
  match es with
  | [] => (nav, [])
  | e :: rest =>
      let '(nav1, errors1) := click e nav in
      let '(nav2, errors2) := clicks rest nav1 in
      (nav2, errors1 ++ errors2)
  end.

(** ** The install prompt

    The state [setupInstallPrompt] closes over: the captured event, the
    [style.display] of the install button ([None] when the page has no
    such element), the click listeners added to the button, the handlers
    suspended at [await deferredPrompt.userChoice], the events whose
    default was prevented, the events [prompt()] was called on, and the
    console. *)

Record Install := mkInstall {
  deferredPrompt : option nat;
  installBtn : option string;
  click_listeners : nat;
  suspended : nat;
  prevented : list nat;
  prompted : list nat;
  install_log : list string }.

Inductive Signal :=
| BeforeInstallPrompt (e : nat)
| AppInstalled
| ButtonClick
| UserChoice (outcome : string).

(** The listener of [beforeinstallprompt]. *)
Definition on_beforeinstallprompt (e : nat) (s : Install) : Install :=
  match installBtn s with
  | Some _ =>
      mkInstall (Some e) (Some "flex"%string) (S (click_listeners s)) (suspended s)
        (prevented s ++ [e]) (prompted s) (install_log s)
  | None =>
      mkInstall (Some e) None (click_listeners s) (suspended s)
        (prevented s ++ [e]) (prompted s) (install_log s)
  end.

(** The listener of [appinstalled]. *)
Definition on_appinstalled (s : Install) : Install :=
  mkInstall None
    (match installBtn s with Some _ => Some "none"%string | None => None end)
    (click_listeners s) (suspended s) (prevented s) (prompted s)
    (install_log s ++ ["PWA installed"%string]).

(** A click on the install button: every listener calls
    [deferredPrompt.prompt()] and suspends at [await]; on a [null]
    reference each of them throws instead.  ([prompt()] itself is taken
    to return.) *)
Definition on_button_click (s : Install) : Result unit * Install :=
  match installBtn s, click_listeners s with
  | None, _ => (Ok tt, s)
  | Some _, O => (Ok tt, s)
  | Some _, S _ =>
      match deferredPrompt s with
      | None => (Throw (cannot_read VNull "prompt"), s)
      | Some e =>
          (Ok tt,
           mkInstall (deferredPrompt s) (installBtn s) (click_listeners s)
             (suspended s + click_listeners s) (prevented s)
             (prompted s ++ repeat e (click_listeners s)) (install_log s))
      end
  end.

(** The rest of one suspended click handler, resumed with the user's
    choice; each suspended handler resumes on its own.  (A handler exists
    only on a page that has the button.) *)
Definition on_user_choice (outcome : string) (s : Install) : Install :=
  match suspended s with
  | O => s
  | S waiting =>
      mkInstall None
        (match installBtn s with Some _ => Some "none"%string | None => None end)
        (click_listeners s) waiting (prevented s) (prompted s)
        (install_log s ++ ["User response to the install prompt: " +:+ outcome])
  end.

Definition signal (sig : Signal) (s : Install) : Result unit * Install :=
  match sig with
  | BeforeInstallPrompt e => (Ok tt, on_beforeinstallprompt e s)
  | AppInstalled => (Ok tt, on_appinstalled s)
  | ButtonClick => on_button_click s
  | UserChoice outcome => (Ok tt, on_user_choice outcome s)
  end.

(** The state after a sequence of signals. *)
Fixpoint after (sigs : list Signal) (s : Install) : Install :=
  match sigs with
  | [] => s
  | sig :: rest => after rest (snd (signal sig s))
  end.

(** The events of the [beforeinstallprompt] signals of a sequence. *)
Fixpoint offered (sigs : list Signal) : list nat :=
  match sigs with
  | [] => []
  | BeforeInstallPrompt e :: rest => e :: offered rest
  | _ :: rest => offered rest
  end.

(** ** Startup

    [init], with the listeners it registers on [window] and [document]
    kept by name beside the page. *)

Record Boot := mkBoot {
  page : World;
  registered : list string }.

Definition register (names : list string) (b : Boot) : Boot :=
  mkBoot (page b) (registered b ++ names).

(** [init]: [setupEventListeners], [await loadData()],
    [setupServiceWorker] (which listens for [load] when the browser has
    service workers), [setupInstallPrompt], [updateLastUpdated]. *)
Definition init (env : Env) (serviceWorker : bool) (app : Page) (b : Boot)
  : Result unit * Boot :=
  let b1 := register ["click"%string] b in
  match loadData env app (page b1) with
  | (Throw e, w1) => (Throw e, mkBoot w1 (registered b1))
  | (Ok _, w1) =>
      let b2 := register (if serviceWorker then ["load"%string] else []) (mkBoot w1 (registered b1)) in
      let b3 := register ["beforeinstallprompt"; "appinstalled"]%string b2 in
      match updateLastUpdated env (page b3) with
      | (r, w2) => (r, mkBoot w2 (registered b3))
      end
  end.

(** The controller the [DOMContentLoaded] listener creates for a path. *)
Definition controller_for (path : string) : Page :=
  if String.eqb path "/" then Home
  else if String.eqb path "/index.html" then Home
  else GenericPage.

Example split_commas : split ","%char "A,B,C" = ["A"; "B"; "C"]%string.
Proof. reflexivity. Qed.

Example split_empty : split ","%char "" = [""%string].
Proof. reflexivity. Qed.

Example ToString_array :
  ToString (VArr [VNum 1; VNull; VStr "x"]) = Ok "1,,x"%string.
Proof. reflexivity. Qed.

Example day_of_epoch : civil_from_days 0 = (1970, 1, 1).
Proof. reflexivity. Qed.

Example day_19854 : civil_from_days 19854 = (2024, 5, 11).
Proof. reflexivity. Qed.

Example days_2024_05_11 : days_from_civil 2024 5 11 = 19854.
Proof. reflexivity. Qed.

Example iso_example :
  toISOString (Some 1715383800000) = Ok "2024-05-10T23:30:00.000Z"%string.
Proof. vm_compute. reflexivity. Qed.

(** * Properties *)

(** ** Running computations *)

Lemma bind_ok {A B} (m : M A) (k : A -> M B) w a w' :
  m w = (Ok a, w') -> bind m k w = k a w'.
Proof. intros E. unfold bind. now rewrite E. Qed.

Lemma bind_throw {A B} (m : M A) (k : A -> M B) w e w' :
  m w = (Throw e, w') -> bind m k w = (Throw e, w').
Proof. intros E. unfold bind. now rewrite E. Qed.

Lemma try_catch_ok {A} (m : M A) h w a w' :
  m w = (Ok a, w') -> try_catch m h w = (Ok a, w').
Proof. intros E. unfold try_catch. now rewrite E. Qed.

Lemma try_catch_throw {A} (m : M A) h w e w' :
  m w = (Throw e, w') -> try_catch m h w = h e w'.
Proof. intros E. unfold try_catch. now rewrite E. Qed.

(** ** The API client *)

(** The [try] block does not touch the page, and its result does not
    depend on it. *)
Lemma request_pure env params :
  exists r, forall w, request env params w = (r, w).
Proof.
  unfold request, new_URL, fetch, response_json, bind, lift, throw, ret.
  destruct (API_URL_valid env); [|eauto].
  destruct (remote env params) as [why|r]; [eauto|].
  destruct (ok r); simpl; [|eauto].
  destruct (json r) as [data|why]; [|eauto].
  destruct (Get data "success") as [success|]; [|eauto].
  destruct (ToBoolean success); simpl; [eauto|].
  destruct (Get data "message") as [message|]; [|eauto].
  destruct (new_Error message); eauto.
Qed.

Lemma request_failed_run error w :
  request_failed error w = (Ok (VArr []), reported (err_message error) w).
Proof. reflexivity. Qed.

Lemma fetchFromAPI_cases env endpoint params :
  (exists v, forall w,
      request env params w = (Ok v, w) /\
      fetchFromAPI env endpoint params w = (Ok v, w)) \/
  (exists e, forall w,
      request env params w = (Throw e, w) /\
      fetchFromAPI env endpoint params w = (Ok (VArr []), reported (err_message e) w)).
Proof.
  destruct (request_pure env params) as [[v|e] Hr]; [left; exists v|right; exists e];
    intros w; split; auto; unfold fetchFromAPI.
  - now rewrite (try_catch_ok _ _ _ _ _ (Hr w)).
  - rewrite (try_catch_throw _ _ _ _ _ (Hr w)). apply request_failed_run.
Qed.

Lemma Failure_request env params message :
  Failure env params message ->
  exists e, err_message e = message /\ forall w, request env params w = (Throw e, w).
Proof.
  unfold request, new_URL, fetch, response_json, bind, lift, throw, ret.
  intros [Hurl|why Hurl Hnet|r Hurl Hnet Hok|r why Hurl Hnet Hok Hjson
         |r envelope success msg error Hurl Hnet Hok Hjson Hs Hb Hm He];
    rewrite Hurl; try rewrite Hnet; try rewrite Hok; simpl;
    try rewrite Hjson; try rewrite Hs; try rewrite Hb; simpl;
    try rewrite Hm; try rewrite He; eexists; split; try reflexivity; reflexivity.
Qed.

Lemma Delivers_request env params data :
  Delivers env params data -> forall w, request env params w = (Ok data, w).
Proof.
  intros (Hurl & r & envelope & success & Hnet & Hok & Hjson & Hs & Hb & Hd) w.
  unfold request, new_URL, fetch, response_json, bind, lift, throw, ret.
  now rewrite Hurl, Hnet, Hok, Hjson, Hs, Hb, Hd.
Qed.

Lemma fetchFromAPI_failure env endpoint params message w :
  Failure env params message ->
  fetchFromAPI env endpoint params w = (Ok (VArr []), reported message w).
Proof.
  intros (e & <- & Hr)%Failure_request. unfold fetchFromAPI.
  rewrite (try_catch_throw _ _ _ _ _ (Hr w)). apply request_failed_run.
Qed.

Lemma fetchFromAPI_delivers env endpoint params data w :
  Delivers env params data ->
  fetchFromAPI env endpoint params w = (Ok data, w).
Proof.
  intros Hd. unfold fetchFromAPI.
  now rewrite (try_catch_ok _ _ _ _ _ (Delivers_request _ _ _ Hd w)).
Qed.

Lemma Delivers_Yields env params data : Delivers env params data -> Yields env params data.
Proof. intros Hd w. now rewrite (fetchFromAPI_delivers _ _ _ _ _ Hd). Qed.

Lemma Failure_Yields env params message :
  Failure env params message -> Yields env params (VArr []).
Proof. intros Hf w. now rewrite (fetchFromAPI_failure _ _ _ _ _ Hf). Qed.

(** A call never rejects and leaves the render targets and the clock as
    they were. *)
Lemma fetchFromAPI_total env endpoint params w :
  exists v w',
    fetchFromAPI env endpoint params w = (Ok v, w') /\
    elements w' = elements w /\ clock w' = clock w.
Proof.
  destruct (fetchFromAPI_cases env endpoint params) as [[v H]|[e H]];
    destruct (H w) as [_ ->]; eauto.
Qed.

Lemma Yields_run env params v w :
  Yields env params v ->
  exists w', fetchFromAPI env "" params w = (Ok v, w') /\
             elements w' = elements w /\ clock w' = clock w.
Proof.
  intros Hy. destruct (fetchFromAPI_total env "" params w) as (v' & w' & E & He & Hc).
  specialize (Hy w). rewrite E in Hy. simpl in Hy. injection Hy as ->. eauto.
Qed.

(** C1 (as amended): a call never propagates an exception.  Either the
    page is left untouched and the call returns what the [try] block
    produced, or exactly one failure is reported and the call returns the
    empty sequence.  Every failure class (invalid URL, transport failure,
    non-success status, malformed body, envelope with a falsy [success])
    is reported and yields the empty sequence; a success envelope yields
    its [data] entry as it is, a sequence when the service sent one. *)
Theorem fetchFromAPI_fails_soft env endpoint params w :
  ((exists v, fetchFromAPI env endpoint params w = (Ok v, w)) \/
   (exists message,
       fetchFromAPI env endpoint params w = (Ok (VArr []), reported message w))) /\
  (forall message, Failure env params message ->
     fetchFromAPI env endpoint params w = (Ok (VArr []), reported message w)) /\
  (forall data, Delivers env params data ->
     fetchFromAPI env endpoint params w = (Ok data, w)).
Proof.
  split; [|split].
  - destruct (fetchFromAPI_cases env endpoint params) as [[v H]|[e H]];
      destruct (H w) as [_ E]; eauto.
  - intros message Hf. now apply fetchFromAPI_failure.
  - intros data Hd. now apply fetchFromAPI_delivers.
Qed.

(** C1, as stated, fails: a success envelope without a [data] entry makes
    the call return [undefined], which is not a sequence. *)
Lemma fetchFromAPI_not_always_a_sequence :
  fetchFromAPI (service 0 (Responded (mkResponse 200 (Json (VObj [("success", VBool true)]%string)))))
    "" [("operation", "getDoctors")]%string (dashboard 0)
  = (Ok VUndef, dashboard 0) /\
  ~ (forall env endpoint params w,
        exists items, fst (fetchFromAPI env endpoint params w) = Ok (VArr items)).
Proof.
  split; [reflexivity|].
  intros H.
  destruct (H (service 0 (Responded (mkResponse 200 (Json (VObj [("success", VBool true)]%string)))))
              ""%string [("operation", "getDoctors")]%string (dashboard 0)) as [items E].
  vm_compute in E. discriminate E.
Qed.

(** C4: a success-false envelope with message [X] produces exactly one
    notification, whose text contains [X], and the call returns the empty
    sequence. *)
Theorem envelope_failure_notifies env endpoint params w r envelope X :
  API_URL_valid env = true ->
  remote env params = Responded r ->
  ok r = true ->
  json r = Json envelope ->
  Get envelope "success" = Ok (VBool false) ->
  Get envelope "message" = Ok (VStr X) ->
  exists w' toast html,
    fetchFromAPI env endpoint params w = (Ok (VArr []), w') /\
    body w' = body w ++ [toast] /\
    toast_content toast = InnerHTML html /\
    contains html X.
Proof.
  intros Hurl Hnet Hok Hjson Hs Hm.
  assert (Hf : Failure env params X).
  { apply (envelope_failure env params r envelope (VBool false) (VStr X) (mkError Error X));
      auto. }
  exists (reported X w). eexists. eexists.
  split; [now apply fetchFromAPI_failure|].
  split; [reflexivity|]. split; [reflexivity|].
  exists (nl +:+ spaces 12 +:+ "<i class=" +:+ dq +:+ "fas fa-exclamation-circle" +:+ dq
          +:+ "></i>" +:+ nl +:+ spaces 12 +:+ "<span>Failed to load data: ")%string.
  exists ("</span>" +:+ nl +:+ spaces 12 +:+ "<button onclick=" +:+ dq
          +:+ "this.parentElement.remove()" +:+ dq +:+ ">&times;</button>"
          +:+ nl +:+ spaces 8)%string.
  reflexivity.
Qed.

Lemma envelope_failure_notifies_witness :
  exists w' toast html,
    fetchFromAPI
      (service 0 (Responded (mkResponse 200
         (Json (VObj [("success", VBool false); ("message", VStr "X")]%string)))))
      "" [("sheet", "Notifications")]%string (dashboard 0) = (Ok (VArr []), w') /\
    body w' = body (dashboard 0) ++ [toast] /\
    toast_content toast = InnerHTML html /\
    contains html "X".
Proof.
  apply (envelope_failure_notifies _ _ _ _
           (mkResponse 200 (Json (VObj [("success", VBool false); ("message", VStr "X")]%string)))
           (VObj [("success", VBool false); ("message", VStr "X")]%string));
    reflexivity.
Defined.

(** ** Text inside markup *)

Lemma append_assoc (a b c : string) : (a +:+ b) +:+ c = a +:+ (b +:+ c).
Proof.
  induction a as [|ch a IH]; [reflexivity|].
  change (String ch ((a +:+ b) +:+ c) = String ch (a +:+ (b +:+ c))).
  now rewrite IH.
Qed.

Lemma contains_here s after : contains (s +:+ after) s.
Proof. exists EmptyString, after. reflexivity. Qed.

Lemma contains_skip p s part : contains s part -> contains (p +:+ s) part.
Proof.
  intros (before & after & ->). exists (p +:+ before), after.
  now rewrite append_assoc.
Qed.

Lemma contains_prefix3 a b c rest : contains (a +:+ b +:+ c +:+ rest) (a +:+ b +:+ c).
Proof.
  exists EmptyString, rest. now rewrite !append_assoc.
Qed.


Ltac find_part :=
  repeat first [ apply contains_prefix3 | apply contains_here | apply contains_skip ].

Lemma schedule_item_title clinic shown badge status :
  contains (schedule_item_html clinic shown badge status) ("<h4>" +:+ clinic +:+ "</h4>").
Proof. unfold schedule_item_html. find_part. Qed.

Lemma schedule_item_subtitle clinic shown badge status :
  contains (schedule_item_html clinic shown badge status) ("<p>" +:+ shown +:+ "...</p>").
Proof. unfold schedule_item_html. find_part. Qed.


(** ** Render targets *)

Lemma getElementById_present id c w :
  elements w !! id = Some c -> getElementById id w = (Ok (Some id), w).
Proof. intros E. unfold getElementById. now rewrite E. Qed.

Lemma getElementById_absent id w :
  elements w !! id = None -> getElementById id w = (Ok None, w).
Proof. intros E. unfold getElementById. now rewrite E. Qed.

Lemma isoDay_total t : exists day, isoDay (Some t) = Ok day.
Proof.
  unfold isoDay, toISOString. destruct (civil_from_days (t / msPerDay)) as [[y m] d].
  simpl. eauto.
Qed.

Lemma today_iso_run w today :
  isoDay (Some (clock w)) = Ok today -> today_iso w = (Ok today, w).
Proof. intros E. unfold today_iso, Date_now, bind, lift. now rewrite E. Qed.

(** ** Callbacks that only read *)


Lemma schedule_item_reads_only : reads_only schedule_item.
Proof.
  intros item html item'.
  unfold schedule_item, cb_bind, item_get, cb_lift, cb_ret.
  destruct (Get item "Clinic") as [clinic|]; [|discriminate].
  destruct (ToString clinic); [|discriminate].
  destruct (Get item "Consultants") as [consultants|]; [|discriminate].
  destruct (if nullish consultants then _ else _); [|discriminate].
  destruct (Get item "Status") as [status|] eqn:Es; [|discriminate].
  rewrite ?Es.
  destruct (ToString (LogicalOr status (VStr "Pending"))); [|discriminate].
  now intros [= _ <-].
Qed.

Lemma call_item_reads_only : reads_only call_item.
Proof.
  intros item html item'.
  unfold call_item, cb_bind, item_get, cb_lift, cb_ret.
  destruct (Get item "ConsultantOnCall") as [a|]; [|discriminate].
  destruct (ToString a); [|discriminate].
  destruct (Get item "SeniorRegistrarOnCall") as [b|]; [|discriminate].
  destruct (ToString b); [|discriminate].
  destruct (Get item "RegistrarOnCall") as [c|]; [|discriminate].
  destruct (ToString c); [|discriminate].
  now intros [= _ <-].
Qed.

Lemma is_pending_reads_only : reads_only is_pending.
Proof.
  intros item b item'. unfold is_pending, cb_bind, item_get, cb_ret.
  destruct (Get item "Status"); [|discriminate]. now intros [= _ <-].
Qed.

Lemma is_today_reads_only env today : reads_only (is_today env today).
Proof.
  intros item b item'. unfold is_today, cb_bind, item_get, cb_lift, cb_ret.
  destruct (Get item "Date") as [date|]; [|discriminate].
  destruct (let? d := _ in _); [|discriminate].
  now intros [= _ <-].
Qed.

(** A pass of [map] with a callback that only reads leaves the array as
    it was, and pairs every element with its own image. *)
Lemma Array_map_reads_only {B} (cb : Callback B) items outs items' :
  reads_only cb ->
  Array_map cb items = Ok (outs, items') ->
  items' = items /\ Forall2 (fun item out => cb item = Ok (out, item)) items outs.
Proof.
  intros Hcb. revert outs items'.
  induction items as [|x rest IH]; intros outs items'; simpl.
  - intros [= <- <-]. split; [reflexivity|constructor].
  - destruct (cb x) as [[b x']|] eqn:Ex; [|discriminate].
    destruct (Array_map cb rest) as [[bs rest']|]; [|discriminate].
    intros [= <- <-].
    pose proof (Hcb _ _ _ Ex) as ->.
    destruct (IH bs rest' eq_refl) as [-> HF].
    split; [reflexivity|]. constructor; assumption.
Qed.

Lemma Array_filter_reads_only (cb : Callback bool) items kept items' :
  reads_only cb ->
  Array_filter cb items = Ok (kept, items') ->
  items' = items /\
  kept = List.filter (fun item => match cb item with Ok (b, _) => b | Throw _ => false end) items /\
  Forall (fun item => succeeds (cb item)) items.
Proof.
  intros Hcb. revert kept items'.
  induction items as [|x rest IH]; intros kept items'; simpl.
  - intros [= <- <-]. repeat split; constructor.
  - destruct (cb x) as [[b x']|] eqn:Ex; [|discriminate].
    destruct (Array_filter cb rest) as [[kept0 rest']|]; [|discriminate].
    intros [= <- <-].
    pose proof (Hcb _ _ _ Ex) as ->.
    destruct (IH kept0 rest' eq_refl) as (-> & -> & HF).
    repeat split.
    constructor; [|assumption]. rewrite Ex. now eexists.
Qed.

(** ** The schedule *)

Lemma render_schedule_absent schedule w :
  exists e, render_schedule None schedule w = (Throw e, w).
Proof.
  unfold render_schedule, bind, lift, set_innerHTML, throw.
  destruct (Get schedule "length") as [len|]; [|eauto].
  destruct (StrictEquals len (VNum 0)); [eauto|].
  destruct (as_Array schedule "map") as [items|]; [|eauto].
  destruct (Array_map schedule_item items); eauto.
Qed.

Lemma render_schedule_present id schedule :
  (exists html, forall w,
      render_schedule (Some id) schedule w
      = (Ok tt, set_elements (insert id (InnerHTML html)) w)) \/
  (exists e, forall w, render_schedule (Some id) schedule w = (Throw e, w)).
Proof.
  unfold render_schedule, bind, lift, set_innerHTML, throw.
  destruct (Get schedule "length") as [len|]; [|eauto].
  destruct (StrictEquals len (VNum 0)); [eauto|].
  destruct (as_Array schedule "map") as [items|]; [|eauto].
  destruct (Array_map schedule_item items); eauto.
Qed.

Lemma render_schedule_empty id schedule len w :
  Get schedule "length" = Ok len ->
  StrictEquals len (VNum 0) = true ->
  render_schedule (Some id) schedule w
  = (Ok tt, set_elements (insert id (InnerHTML no_schedule_html)) w).
Proof.
  intros Hl H0. unfold render_schedule, bind, lift, set_innerHTML.
  now rewrite Hl, H0.
Qed.

Lemma render_schedule_items id items htmls items' w :
  items <> [] ->
  Array_map schedule_item items = Ok (htmls, items') ->
  render_schedule (Some id) (VArr items) w
  = (Ok tt, set_elements (insert id (InnerHTML (join "" htmls))) w).
Proof.
  intros Hne Hmap. unfold render_schedule, bind, lift, set_innerHTML. simpl.
  destruct items as [|x rest]; [congruence|].
  simpl in *. now rewrite Hmap.
Qed.

(** With its target on the page, [loadTodaySchedule] settles with whatever
    [render_schedule] writes for the roster the call returned. *)
Lemma loadTodaySchedule_renders env w c today schedule html :
  elements w !! "today-schedule" = Some c ->
  isoDay (Some (clock w)) = Ok today ->
  Yields env [("operation", "getRoster"); ("date", today)]%string schedule ->
  (forall w1, render_schedule (Some "today-schedule"%string) schedule w1
              = (Ok tt, set_elements (insert "today-schedule"%string (InnerHTML html)) w1)) ->
  exists w', loadTodaySchedule env w = (Ok tt, w') /\
    elements w' = <["today-schedule"%string := InnerHTML html]> (elements w).
Proof.
  intros Hc Ht Hy Hr.
  unfold loadTodaySchedule.
  rewrite (bind_ok _ _ _ _ _ (getElementById_present _ _ _ Hc)).
  set (w1 := set_elements (insert "today-schedule"%string (InnerHTML loading_html)) w).
  assert (E1 : showLoading (Some "today-schedule"%string) w = (Ok tt, w1)) by reflexivity.
  rewrite (bind_ok _ _ _ _ _ E1).
  destruct (Yields_run env _ _ w1 Hy) as (w2 & E2 & Hel & Hck).
  eexists. split.
  - apply try_catch_ok.
    rewrite (bind_ok _ _ _ _ _ (today_iso_run w1 today Ht)).
    rewrite (bind_ok _ _ _ _ _ E2). apply Hr.
  - simpl. rewrite Hel. subst w1. simpl. apply insert_insert_eq.
Qed.

Lemma schedule_item_shape item html item' :
  schedule_item item = Ok (html, item') ->
  exists clinic shown badge status,
    html = schedule_item_html clinic shown badge status /\
    (status_absent item -> badge = "badge-pending"%string /\ status = "Pending"%string) /\
    (forall names, Get item "Consultants" = Ok (VStr names) ->
       shown = join ", " (take 2 (split ","%char names))).
Proof.
  unfold schedule_item, cb_bind, item_get, cb_lift, cb_ret.
  destruct (Get item "Clinic") as [clinic|]; [|discriminate].
  destruct (ToString clinic) as [clinic_text|]; [|discriminate].
  destruct (Get item "Consultants") as [consultants|] eqn:Ec; [|discriminate].
  destruct (if nullish consultants then _ else _) as [shown|] eqn:Eshown; [|discriminate].
  destruct (Get item "Status") as [status|] eqn:Es; [|discriminate].
  rewrite ?Es.
  destruct (ToString (LogicalOr status (VStr "Pending"))) as [status_text|] eqn:Et;
    [|discriminate].
  intros [= <- _].
  exists clinic_text, shown,
    (if StrictEquals status (VStr "Sent") then "badge-sent" else "badge-pending")%string,
    status_text.
  split; [reflexivity|]. split.
  - intros (fields & -> & Hnone). simpl in Es. rewrite Hnone in Es. simpl in Es.
    injection Es as <-. simpl in Et. injection Et as <-. split; reflexivity.
  - intros names [= ->]. simpl in Eshown. now injection Eshown as <-.
Qed.

(** C6: when the roster fetched for today is the empty sequence, the
    schedule target receives the single "no schedule" placeholder, which
    is not the rendering of an empty list and holds no schedule item. *)
Theorem empty_roster_placeholder env w c today :
  elements w !! "today-schedule" = Some c ->
  isoDay (Some (clock w)) = Ok today ->
  Yields env [("operation", "getRoster"); ("date", today)]%string (VArr []) ->
  exists w',
    loadTodaySchedule env w = (Ok tt, w') /\
    elements w' !! "today-schedule" = Some (InnerHTML no_schedule_html) /\
    no_schedule_html = div_class "no-data" "No schedule for today" /\
    no_schedule_html <> join "" [] /\
    String.index 0 "schedule-item" no_schedule_html = None.
Proof.
  intros Hc Ht Hy.
  destruct (loadTodaySchedule_renders env w c today (VArr []) no_schedule_html Hc Ht Hy)
    as (w' & E & Hel).
  { intros w1. now apply (render_schedule_empty _ _ (VNum 0)). }
  exists w'. split; [exact E|]. split.
  - rewrite Hel. apply lookup_insert_eq.
  - split; [reflexivity|]. split; [discriminate|reflexivity].
Qed.

Lemma empty_roster_placeholder_witness :
  exists w',
    loadTodaySchedule (clinic_service 60 (VArr []) (VArr []) (VArr [])) (dashboard late_evening)
    = (Ok tt, w') /\
    elements w' !! "today-schedule" = Some (InnerHTML no_schedule_html) /\
    no_schedule_html = div_class "no-data" "No schedule for today" /\
    no_schedule_html <> join "" [] /\
    String.index 0 "schedule-item" no_schedule_html = None.
Proof.
  apply (empty_roster_placeholder _ (dashboard late_evening) (InnerHTML "") "2024-05-10").
  - reflexivity.
  - vm_compute. reflexivity.
  - apply Delivers_Yields. split; [reflexivity|].
    eexists _, _, _. repeat split; reflexivity.
Defined.



Lemma loadTodaySchedule_items env w c today items htmls items' :
  elements w !! "today-schedule" = Some c ->
  isoDay (Some (clock w)) = Ok today ->
  Yields env [("operation", "getRoster"); ("date", today)]%string (VArr items) ->
  items <> [] ->
  Array_map schedule_item items = Ok (htmls, items') ->
  exists w',
    loadTodaySchedule env w = (Ok tt, w') /\
    elements w' !! "today-schedule" = Some (InnerHTML (join "" htmls)).
Proof.
  intros Hc Ht Hy Hne Hmap.
  destruct (loadTodaySchedule_renders env w c today (VArr items) (join "" htmls) Hc Ht Hy)
    as (w' & E & Hel).
  { intros w1. now apply (render_schedule_items _ _ _ items'). }
  exists w'. split; [exact E|]. rewrite Hel. apply lookup_insert_eq.
Qed.



(** C10: whenever the rendering pass of [loadTodaySchedule] completes,
    every entry's consultant line ends with the continuation marker
    ["..."], also when the entry names two consultants or fewer and the
    line shows all of them. *)
Theorem continuation_marker_unconditional env w c today items htmls items' :
  elements w !! "today-schedule" = Some c ->
  isoDay (Some (clock w)) = Ok today ->
  Yields env [("operation", "getRoster"); ("date", today)]%string (VArr items) ->
  items <> [] ->
  Array_map schedule_item items = Ok (htmls, items') ->
  (exists w',
      loadTodaySchedule env w = (Ok tt, w') /\
      elements w' !! "today-schedule" = Some (InnerHTML (join "" htmls))) /\
  Forall2
    (fun item html =>
       exists clinic shown badge status,
         html = schedule_item_html clinic shown badge status /\
         contains html ("<p>" +:+ shown +:+ "...</p>") /\
         forall names,
           Get item "Consultants" = Ok (VStr names) ->
           shown = join ", " (take 2 (split ","%char names)) /\
           ((length (split ","%char names) <= 2)%nat ->
            shown = join ", " (split ","%char names)))
    items htmls.
Proof.
  intros Hc Ht Hy Hne Hmap.
  split; [now apply (loadTodaySchedule_items env w c today items htmls items')|].
  destruct (Array_map_reads_only _ _ _ _ schedule_item_reads_only Hmap) as [-> HF].
  eapply Forall2_impl; [exact HF|].
  intros item html Hitem.
  destruct (schedule_item_shape _ _ _ Hitem) as (clinic & shown & badge & status & -> & _ & Hn).
  exists clinic, shown, badge, status.
  split; [reflexivity|]. split; [apply schedule_item_subtitle|].
  intros names Hnames. pose proof (Hn names Hnames) as ->.
  split; [reflexivity|]. intros Hlen. now rewrite take_ge.
Qed.

Lemma continuation_marker_unconditional_witness :
  let items := [VObj [("Clinic", VStr "Eye"); ("Consultants", VStr "A")]%string] in
  let htmls := [schedule_item_html "Eye" "A" "badge-pending" "Pending"] in
  (exists w',
      loadTodaySchedule (clinic_service 60 (VArr items) (VArr []) (VArr []))
        (dashboard late_evening) = (Ok tt, w') /\
      elements w' !! "today-schedule" = Some (InnerHTML (join "" htmls))) /\
  Forall2
    (fun item html =>
       exists clinic shown badge status,
         html = schedule_item_html clinic shown badge status /\
         contains html ("<p>" +:+ shown +:+ "...</p>") /\
         forall names,
           Get item "Consultants" = Ok (VStr names) ->
           shown = join ", " (take 2 (split ","%char names)) /\
           ((length (split ","%char names) <= 2)%nat ->
            shown = join ", " (split ","%char names)))
    items htmls.
Proof.
  apply (continuation_marker_unconditional
           (clinic_service 60
              (VArr [VObj [("Clinic", VStr "Eye"); ("Consultants", VStr "A")]%string])
              (VArr []) (VArr []))
           (dashboard late_evening) (InnerHTML "") "2024-05-10" _ _
           [VObj [("Clinic", VStr "Eye"); ("Consultants", VStr "A")]%string]).
  - reflexivity.
  - vm_compute. reflexivity.
  - apply Delivers_Yields. split; [reflexivity|].
    eexists _, _, _. repeat split; reflexivity.
  - discriminate.
  - reflexivity.
Defined.

Example one_consultant_still_marked :
  schedule_item (VObj [("Clinic", VStr "Eye"); ("Consultants", VStr "A")]%string)
  = Ok (schedule_item_html "Eye" "A" "badge-pending" "Pending",
        VObj [("Clinic", VStr "Eye"); ("Consultants", VStr "A")]%string).
Proof. reflexivity. Qed.

(** ** The on-call roster *)

Lemma is_today_item_day env today item :
  is_today env today item =
  match item_day env item with
  | Ok day => Ok (String.eqb day today, item)
  | Throw e => Throw e
  end.
Proof.
  unfold is_today, item_day, cb_bind, item_get, cb_lift, cb_ret, rbind.
  destruct (Get item "Date") as [date|]; [|reflexivity].
  destruct (new_Date env date) as [d|]; [|reflexivity].
  now destruct (isoDay d).
Qed.

Lemma Array_filter_is_today env today roster :
  Forall (fun item => succeeds (item_day env item)) roster ->
  Array_filter (is_today env today) roster
  = Ok (List.filter (on_utc_day env today) roster, roster).
Proof.
  induction 1 as [|item rest [day Hday] _ IH]; [reflexivity|].
  simpl. rewrite is_today_item_day, IH. unfold on_utc_day. rewrite Hday.
  now destruct (String.eqb day today).
Qed.

Lemma Array_map_call_item shown :
  Forall (fun item => succeeds (call_item item)) shown ->
  Array_map call_item shown = Ok (map call_item_text shown, shown).
Proof.
  induction 1 as [|item rest [[html item'] Hitem] _ IH]; [reflexivity|].
  simpl. rewrite IH. unfold call_item_text.
  pose proof (call_item_reads_only _ _ _ Hitem) as ->. now rewrite Hitem.
Qed.

Lemma List_filter_sublist {A} (f : A -> bool) (l : list A) : sublist (List.filter f l) l.
Proof.
  induction l as [|x l IH]; simpl; [constructor|].
  destruct (f x); now constructor.
Qed.

Lemma render_on_call_absent env callRoster today w :
  exists e, render_on_call env None callRoster today w = (Throw e, w).
Proof.
  unfold render_on_call, bind, lift, set_innerHTML, throw.
  destruct (as_Array callRoster "filter") as [items|]; [|eauto].
  destruct (Array_filter (is_today env today) items) as [[kept items']|]; [|eauto].
  simpl. destruct (Nat.eqb (length kept) 0); [eauto|].
  destruct (Array_map call_item kept); eauto.
Qed.

Lemma render_on_call_present env id callRoster today :
  (exists html, forall w,
      render_on_call env (Some id) callRoster today w
      = (Ok tt, set_elements (insert id (InnerHTML html)) w)) \/
  (exists e, forall w, render_on_call env (Some id) callRoster today w = (Throw e, w)).
Proof.
  unfold render_on_call, bind, lift, set_innerHTML, throw.
  destruct (as_Array callRoster "filter") as [items|]; [|eauto].
  destruct (Array_filter (is_today env today) items) as [[kept items']|]; [|eauto].
  simpl. destruct (Nat.eqb (length kept) 0); [eauto|].
  destruct (Array_map call_item kept); eauto.
Qed.

Lemma render_on_call_filtered env id roster today w :
  Forall (fun item => succeeds (item_day env item)) roster ->
  Forall (fun item => succeeds (call_item item)) (List.filter (on_utc_day env today) roster) ->
  render_on_call env (Some id) (VArr roster) today w
  = (Ok tt,
     set_elements
       (insert id (InnerHTML (on_call_markup (List.filter (on_utc_day env today) roster)))) w).
Proof.
  intros Hdays Hitems.
  unfold render_on_call, bind, lift, set_innerHTML. simpl.
  rewrite (Array_filter_is_today env today roster Hdays). simpl.
  destruct (List.filter (on_utc_day env today) roster) as [|x shown] eqn:Ef; [reflexivity|].
  change (Nat.eqb (length (x :: shown)) 0) with false. cbv iota.
  now rewrite (Array_map_call_item _ Hitems).
Qed.

(** X23: what [loadOnCallToday] shows.  With the target on the page,
    when every entry of the call roster carries a date that parses and
    every entry to be shown renders, the target holds exactly the entries
    whose date, as the date part of its UTC timestamp, equals the date
    part of the current UTC timestamp, in the order of the roster (or the
    placeholder when there is none). *)
Theorem on_call_shows_entries_of_utc_day env w c today roster :
  elements w !! "on-call-today" = Some c ->
  isoDay (Some (clock w)) = Ok today ->
  Yields env [("sheet", "CallRoster")]%string (VArr roster) ->
  Forall (fun item => succeeds (item_day env item)) roster ->
  Forall (fun item => succeeds (call_item item)) (List.filter (on_utc_day env today) roster) ->
  exists w' shown,
    loadOnCallToday env w = (Ok tt, w') /\
    elements w' !! "on-call-today" = Some (InnerHTML (on_call_markup shown)) /\
    shown = List.filter (on_utc_day env today) roster /\
    (forall item, In item shown <-> In item roster /\ item_day env item = Ok today) /\
    sublist shown roster.
Proof.
  intros Hc Ht Hy Hdays Hitems.
  unfold loadOnCallToday.
  rewrite (bind_ok _ _ _ _ _ (getElementById_present _ _ _ Hc)).
  set (w1 := set_elements (insert "on-call-today"%string (InnerHTML loading_html)) w).
  assert (E1 : showLoading (Some "on-call-today"%string) w = (Ok tt, w1)) by reflexivity.
  rewrite (bind_ok _ _ _ _ _ E1).
  destruct (Yields_run env _ _ w1 Hy) as (w2 & E2 & Hel & Hck).
  assert (Ht2 : isoDay (Some (clock w2)) = Ok today) by now rewrite Hck.
  eexists. exists (List.filter (on_utc_day env today) roster). split.
  - apply try_catch_ok.
    rewrite (bind_ok _ _ _ _ _ E2).
    rewrite (bind_ok _ _ _ _ _ (today_iso_run w2 today Ht2)).
    now apply render_on_call_filtered.
  - split; [simpl; apply lookup_insert_eq|]. split; [reflexivity|]. split.
    + intros item. rewrite filter_In. unfold on_utc_day.
      destruct (item_day env item) as [day|e].
      * rewrite String.eqb_eq. split; intros [Hin Heq]; (split; [exact Hin|]); congruence.
      * split; intros [Hin Heq]; discriminate.
    + apply List_filter_sublist.
Qed.

Lemma on_call_shows_entries_of_utc_day_witness :
  exists w' shown,
    loadOnCallToday (clinic_service 60 (VArr []) (VArr two_day_roster) (VArr []))
      (dashboard late_evening) = (Ok tt, w') /\
    elements w' !! "on-call-today" = Some (InnerHTML (on_call_markup shown)) /\
    shown = List.filter
              (on_utc_day (clinic_service 60 (VArr []) (VArr two_day_roster) (VArr []))
                 "2024-05-10") two_day_roster /\
    (forall item, In item shown <->
       In item two_day_roster /\
       item_day (clinic_service 60 (VArr []) (VArr two_day_roster) (VArr [])) item
       = Ok "2024-05-10"%string) /\
    sublist shown two_day_roster.
Proof.
  apply (on_call_shows_entries_of_utc_day _ (dashboard late_evening) (InnerHTML "")).
  - reflexivity.
  - vm_compute. reflexivity.
  - apply Delivers_Yields. split; [reflexivity|].
    eexists _, _, _. repeat split; reflexivity.
  - repeat constructor; eexists; vm_compute; reflexivity.
  - vm_compute. repeat constructor. eexists. vm_compute. reflexivity.
Defined.

(** C3: the code departs from the claim.  At 2024-05-10T23:30:00Z in
    Lagos (UTC+1) it is half an hour after midnight and the local day is
    2024-05-11, so the entries of the current local day are the one dated
    2024-05-11.  [loadOnCallToday] shows the entry dated 2024-05-10 and
    not the one dated 2024-05-11: both sides of its comparison are the
    date part of a UTC timestamp. *)
Lemma on_call_day_is_not_the_local_day :
  let env := clinic_service 60 (VArr []) (VArr two_day_roster) (VArr []) in
  spec_local_day env late_evening = 19854 /\
  civil_from_days 19854 = (2024, 5, 11) /\
  spec_on_call_today env late_evening two_day_roster = [call_entry "2024-05-11" "Dr Bello"] /\
  elements (snd (loadOnCallToday env (dashboard late_evening))) !! "on-call-today"
  = Some (InnerHTML (on_call_markup [call_entry "2024-05-10" "Dr Ade"])) /\
  on_call_markup [call_entry "2024-05-10" "Dr Ade"]
  <> on_call_markup (spec_on_call_today env late_evening two_day_roster).
Proof.
  cbv zeta. repeat split; try (vm_compute; reflexivity).
  apply String.eqb_neq. vm_compute. reflexivity.
Qed.

(** One entry whose date does not parse makes [toISOString] throw, and
    the routine shows its failure message instead of the roster. *)
Example unparseable_date_fails_the_roster :
  elements
    (snd (loadOnCallToday
            (clinic_service 60 (VArr [])
               (VArr [call_entry "2024-05-10" "Dr Ade"; call_entry "soon" "Dr Bello"])
               (VArr []))
            (dashboard late_evening))) !! "on-call-today"
  = Some (InnerHTML on_call_failed_html).
Proof. vm_compute. reflexivity. Qed.

(** ** The counters *)

Lemma is_pending_status item :
  nullish item = false ->
  is_pending item = Ok (status_is_pending item, item).
Proof.
  unfold is_pending, cb_bind, item_get, cb_ret.
  destruct item as [| |b|n|s|items|fields]; try discriminate; intros _; simpl.
  - reflexivity.
  - reflexivity.
  - now destruct (String.eqb "Status" "length").
  - now destruct (String.eqb "Status" "length").
  - destruct (assoc "Status" fields) as [[| |b|n|s|items|fields']|]; reflexivity.
Qed.

Lemma Array_filter_is_pending records :
  Forall (fun record => nullish record = false) records ->
  Array_filter is_pending records = Ok (List.filter status_is_pending records, records).
Proof.
  induction 1 as [|record rest Hrecord _ IH]; [reflexivity|].
  simpl. rewrite (is_pending_status _ Hrecord), IH.
  now destruct (status_is_pending record).
Qed.

Lemma LogicalOr_count n : LogicalOr (VNum (Z.of_nat n)) (VNum 0) = VNum (Z.of_nat n).
Proof. destruct n; reflexivity. Qed.

Lemma pending_count_records records :
  Forall (fun record => nullish record = false) records ->
  pending_count (VArr records)
  = Ok (VNum (Z.of_nat (length (List.filter status_is_pending records)))).
Proof.
  intros H. unfold pending_count. simpl.
  rewrite (Array_filter_is_pending _ H). simpl. now rewrite LogicalOr_count.
Qed.

Lemma count_of_sequence items :
  count_of (VArr items) = Ok (VNum (Z.of_nat (length items))).
Proof. unfold count_of. simpl. now rewrite LogicalOr_count. Qed.

Lemma write_count_number id n w :
  is_Some (elements w !! id) ->
  write_count id (VNum n) w
  = (Ok tt, set_elements (insert id (TextContent (pretty n))) w).
Proof.
  intros [c Hc]. unfold write_count.
  now rewrite (bind_ok _ _ _ _ _ (getElementById_present _ _ _ Hc)).
Qed.

Lemma Promise_all_stats env w today doctors clinics roster records :
  isoDay (Some (clock w)) = Ok today ->
  Yields env [("operation", "getDoctors")]%string doctors ->
  Yields env [("operation", "getClinics")]%string clinics ->
  Yields env [("operation", "getRoster"); ("date", today)]%string roster ->
  Yields env [("sheet", "Notifications")]%string records ->
  exists w',
    Promise_all
      [ fetchFromAPI env "" [("operation", "getDoctors")];
        fetchFromAPI env "" [("operation", "getClinics")];
        (today <- today_iso;;
         fetchFromAPI env "" [("operation", "getRoster"); ("date", today)]);
        fetchFromAPI env "" [("sheet", "Notifications")] ]%string w
    = (Ok [doctors; clinics; roster; records], w') /\
    elements w' = elements w.
Proof.
  intros Ht Hd Hc Hr Hn.
  destruct (Yields_run env _ _ w Hd) as (w1 & E1 & Hel1 & Hck1).
  destruct (Yields_run env _ _ w1 Hc) as (w2 & E2 & Hel2 & Hck2).
  destruct (Yields_run env _ _ w2 Hr) as (w3 & E3 & Hel3 & Hck3).
  destruct (Yields_run env _ _ w3 Hn) as (w4 & E4 & Hel4 & Hck4).
  assert (Ht2 : isoDay (Some (clock w2)) = Ok today) by now rewrite Hck2, Hck1.
  exists w4. split; [|congruence].
  cbn [Promise_all]. rewrite E1, E2.
  rewrite (bind_ok _ _ _ _ _ (today_iso_run w2 today Ht2)), E3, E4.
  reflexivity.
Qed.

Lemma is_Some_insert (m : gmap string Content) i j x :
  is_Some (m !! j) -> is_Some (<[i:=x]> m !! j).
Proof. intros H. apply lookup_insert_is_Some'. now right. Qed.

Lemma bind_lift_ok {A B} (a : A) (k : A -> M B) w : bind (lift (Ok a)) k w = k a w.
Proof. reflexivity. Qed.

(** C5: with the four counters on the page and the four calls returning
    sequences, the notification counter receives the number of
    notification records whose [Status] is exactly the string [Pending]. *)
Theorem notification_count_is_pending_count env w today doctors clinics roster records :
  is_Some (elements w !! "doctor-count") ->
  is_Some (elements w !! "clinic-count") ->
  is_Some (elements w !! "roster-count") ->
  is_Some (elements w !! "notification-count") ->
  isoDay (Some (clock w)) = Ok today ->
  Yields env [("operation", "getDoctors")]%string (VArr doctors) ->
  Yields env [("operation", "getClinics")]%string (VArr clinics) ->
  Yields env [("operation", "getRoster"); ("date", today)]%string (VArr roster) ->
  Yields env [("sheet", "Notifications")]%string (VArr records) ->
  Forall (fun record => nullish record = false) records ->
  exists w',
    loadStats env w = (Ok tt, w') /\
    elements w' !! "notification-count"
    = Some (TextContent (pretty (Z.of_nat (length (List.filter status_is_pending records))))).
Proof.
  intros Hdc Hcc Hrc Hnc Ht Hd Hc Hr Hn Hrecords.
  destruct (Promise_all_stats env w today _ _ _ _ Ht Hd Hc Hr Hn) as (w0 & E0 & Hel0).
  unfold loadStats. eexists. split.
  - apply try_catch_ok. rewrite (bind_ok _ _ _ _ _ E0).
    unfold write_stats. cbn [nth].
    rewrite !count_of_sequence, (pending_count_records _ Hrecords).
    assert (H1 : is_Some (elements w0 !! "doctor-count")) by now rewrite Hel0.
    rewrite bind_lift_ok, (bind_ok _ _ _ _ _ (write_count_number _ _ _ H1)).
    set (w1 := set_elements _ w0).
    assert (H2 : is_Some (elements w1 !! "clinic-count"))
      by (subst w1; simpl; rewrite Hel0; now apply is_Some_insert).
    rewrite bind_lift_ok, (bind_ok _ _ _ _ _ (write_count_number _ _ _ H2)).
    set (w2 := set_elements _ w1).
    assert (H3 : is_Some (elements w2 !! "roster-count"))
      by (subst w2 w1; simpl; rewrite Hel0; now do 2 apply is_Some_insert).
    rewrite bind_lift_ok, (bind_ok _ _ _ _ _ (write_count_number _ _ _ H3)).
    set (w3 := set_elements _ w2).
    assert (H4 : is_Some (elements w3 !! "notification-count"))
      by (subst w3 w2 w1; simpl; rewrite Hel0; now do 3 apply is_Some_insert).
    rewrite bind_lift_ok. apply (write_count_number _ _ _ H4).
  - simpl. apply lookup_insert_eq.
Qed.

Lemma notification_count_is_pending_count_witness :
  let records :=
    [VObj [("Status", VStr "Pending")]; VObj [("Status", VStr "pending")];
     VObj [("Status", VStr "Sent")]; VObj [("Title", VStr "no status")];
     VObj [("Status", VStr "Pending")]]%string in
  exists w',
    loadStats (clinic_service 60 (VArr []) (VArr []) (VArr records)) (dashboard late_evening)
    = (Ok tt, w') /\
    elements w' !! "notification-count"
    = Some (TextContent (pretty (Z.of_nat (length (List.filter status_is_pending records))))).
Proof.
  apply (notification_count_is_pending_count _ (dashboard late_evening) "2024-05-10" [] [] []).
  - vm_compute. eauto.
  - vm_compute. eauto.
  - vm_compute. eauto.
  - vm_compute. eauto.
  - vm_compute. reflexivity.
  - apply Delivers_Yields. split; [reflexivity|].
    eexists _, _, _. repeat split; reflexivity.
  - apply Delivers_Yields. split; [reflexivity|].
    eexists _, _, _. repeat split; reflexivity.
  - apply Delivers_Yields. split; [reflexivity|].
    eexists _, _, _. repeat split; reflexivity.
  - apply Delivers_Yields. split; [reflexivity|].
    eexists _, _, _. repeat split; reflexivity.
  - repeat constructor.
Defined.

Example pending_is_case_sensitive :
  List.filter status_is_pending
    [VObj [("Status", VStr "Pending")]; VObj [("Status", VStr "pending")];
     VObj [("Status", VStr "PENDING")]; VObj [("Status", VNull)]; VObj []]%string
  = [VObj [("Status", VStr "Pending")]%string].
Proof. reflexivity. Qed.

(** ** Containment of failures *)

(** [loadStats] never rejects. *)
Lemma loadStats_total env w : exists w', loadStats env w = (Ok tt, w').
Proof.
  unfold loadStats, try_catch.
  match goal with
  | |- context [match ?m w with _ => _ end] => destruct (m w) as [[[]|e] w']
  end; [eauto|].
  unfold console_log. eauto.
Qed.


Lemma keeps_absent_lift {A} (r : Result A) : keeps_absent (lift r).
Proof. intros w id H. exact H. Qed.

Lemma keeps_absent_bind {A B} (m : M A) (k : A -> M B) :
  keeps_absent m -> (forall a, keeps_absent (k a)) -> keeps_absent (bind m k).
Proof.
  intros Hm Hk w id H. unfold bind. specialize (Hm w id H).
  destruct (m w) as [[a|e] w1]; simpl in *; [now apply Hk|exact Hm].
Qed.

Lemma keeps_absent_try_catch {A} (m : M A) h :
  keeps_absent m -> (forall e, keeps_absent (h e)) -> keeps_absent (try_catch m h).
Proof.
  intros Hm Hh w id H. unfold try_catch. specialize (Hm w id H).
  destruct (m w) as [[a|e] w1]; simpl in *; [exact Hm|now apply Hh].
Qed.

Lemma keeps_absent_Promise_all {A} (ms : list (M A)) :
  Forall keeps_absent ms -> keeps_absent (Promise_all ms).
Proof.
  induction 1 as [|m rest Hm _ IH]; intros w id H; [exact H|].
  cbn [Promise_all]. specialize (Hm w id H).
  destruct (m w) as [r w1]. specialize (IH w1 id Hm).
  destruct (Promise_all rest w1) as [rs w2]. exact IH.
Qed.

Lemma keeps_absent_fetchFromAPI env endpoint params :
  keeps_absent (fetchFromAPI env endpoint params).
Proof.
  intros w id H.
  destruct (fetchFromAPI_total env endpoint params w) as (v & w' & E & He & _).
  rewrite E. simpl. now rewrite He.
Qed.

Lemma keeps_absent_write_count id v : keeps_absent (write_count id v).
Proof.
  intros w k H. unfold write_count, getElementById, bind, set_textContent, lift, throw.
  destruct (elements w !! id) as [c|] eqn:E; [|exact H].
  destruct (if nullish v then _ else _); simpl; [|exact H].
  rewrite lookup_insert_ne; [exact H|]. intros ->. congruence.
Qed.

Lemma keeps_absent_loadStats env : keeps_absent (loadStats env).
Proof.
  unfold loadStats, write_stats.
  apply keeps_absent_try_catch; [|intros e w id H; exact H].
  apply keeps_absent_bind.
  - apply keeps_absent_Promise_all.
    repeat constructor; try apply keeps_absent_fetchFromAPI.
    apply keeps_absent_bind; [intros w id H; exact H|].
    intros today. apply keeps_absent_fetchFromAPI.
  - intros results.
    repeat first [ apply keeps_absent_write_count
                 | apply keeps_absent_bind; [first [apply keeps_absent_lift
                                                   | apply keeps_absent_write_count]|intros ?] ].
Qed.

(** Without its render target [loadTodaySchedule] rejects, whatever the
    service answers: the assignment in its [catch] block throws. *)
Lemma loadTodaySchedule_absent env w :
  elements w !! "today-schedule" = None ->
  exists w', loadTodaySchedule env w = (Throw (cannot_set "innerHTML"), w').
Proof.
  intros Hc. unfold loadTodaySchedule.
  rewrite (bind_ok _ _ _ _ _ (getElementById_absent _ _ Hc)).
  assert (E1 : showLoading None w = (Ok tt, w)) by reflexivity.
  rewrite (bind_ok _ _ _ _ _ E1).
  destruct (isoDay_total (clock w)) as [today Ht].
  destruct (fetchFromAPI_total env "" [("operation", "getRoster"); ("date", today)]%string w)
    as (schedule & w2 & E2 & _).
  destruct (render_schedule_absent schedule w2) as [e E3].
  exists w2. erewrite try_catch_throw; [reflexivity|].
  rewrite (bind_ok _ _ _ _ _ (today_iso_run w today Ht)).
  rewrite (bind_ok _ _ _ _ _ E2). exact E3.
Qed.

Lemma loadOnCallToday_absent env w :
  elements w !! "on-call-today" = None ->
  exists w', loadOnCallToday env w = (Throw (cannot_set "innerHTML"), w').
Proof.
  intros Hc. unfold loadOnCallToday.
  rewrite (bind_ok _ _ _ _ _ (getElementById_absent _ _ Hc)).
  assert (E1 : showLoading None w = (Ok tt, w)) by reflexivity.
  rewrite (bind_ok _ _ _ _ _ E1).
  destruct (fetchFromAPI_total env "" [("sheet", "CallRoster")]%string w)
    as (callRoster & w2 & E2 & _ & Hck).
  destruct (isoDay_total (clock w2)) as [today Ht].
  destruct (render_on_call_absent env callRoster today w2) as [e E3].
  exists w2. erewrite try_catch_throw; [reflexivity|].
  rewrite (bind_ok _ _ _ _ _ E2).
  rewrite (bind_ok _ _ _ _ _ (today_iso_run w2 today Ht)). exact E3.
Qed.

(** With its render target on the page [loadTodaySchedule] never rejects:
    it writes the schedule, the placeholder or the failure message. *)
Lemma loadTodaySchedule_present env w c :
  elements w !! "today-schedule" = Some c ->
  exists w' html,
    loadTodaySchedule env w = (Ok tt, w') /\
    elements w' = <["today-schedule"%string := InnerHTML html]> (elements w).
Proof.
  intros Hc. unfold loadTodaySchedule.
  rewrite (bind_ok _ _ _ _ _ (getElementById_present _ _ _ Hc)).
  set (w1 := set_elements (insert "today-schedule"%string (InnerHTML loading_html)) w).
  assert (E1 : showLoading (Some "today-schedule"%string) w = (Ok tt, w1)) by reflexivity.
  rewrite (bind_ok _ _ _ _ _ E1).
  destruct (isoDay_total (clock w1)) as [today Ht].
  destruct (fetchFromAPI_total env "" [("operation", "getRoster"); ("date", today)]%string w1)
    as (schedule & w2 & E2 & Hel & _).
  destruct (render_schedule_present "today-schedule" schedule) as [[html Hr]|[e Hr]].
  - eexists. exists html. split.
    + apply try_catch_ok.
      rewrite (bind_ok _ _ _ _ _ (today_iso_run w1 today Ht)).
      rewrite (bind_ok _ _ _ _ _ E2). apply Hr.
    + simpl. rewrite Hel. apply insert_insert_eq.
  - eexists. exists schedule_failed_html. split.
    + erewrite try_catch_throw; [reflexivity|].
      rewrite (bind_ok _ _ _ _ _ (today_iso_run w1 today Ht)).
      rewrite (bind_ok _ _ _ _ _ E2). apply Hr.
    + simpl. rewrite Hel. apply insert_insert_eq.
Qed.

Lemma loadOnCallToday_present env w c :
  elements w !! "on-call-today" = Some c ->
  exists w' html,
    loadOnCallToday env w = (Ok tt, w') /\
    elements w' = <["on-call-today"%string := InnerHTML html]> (elements w).
Proof.
  intros Hc. unfold loadOnCallToday.
  rewrite (bind_ok _ _ _ _ _ (getElementById_present _ _ _ Hc)).
  set (w1 := set_elements (insert "on-call-today"%string (InnerHTML loading_html)) w).
  assert (E1 : showLoading (Some "on-call-today"%string) w = (Ok tt, w1)) by reflexivity.
  rewrite (bind_ok _ _ _ _ _ E1).
  destruct (fetchFromAPI_total env "" [("sheet", "CallRoster")]%string w1)
    as (callRoster & w2 & E2 & Hel & _).
  destruct (isoDay_total (clock w2)) as [today Ht].
  destruct (render_on_call_present env "on-call-today" callRoster today) as [[html Hr]|[e Hr]].
  - eexists. exists html. split.
    + apply try_catch_ok.
      rewrite (bind_ok _ _ _ _ _ E2).
      rewrite (bind_ok _ _ _ _ _ (today_iso_run w2 today Ht)). apply Hr.
    + simpl. rewrite Hel. apply insert_insert_eq.
  - eexists. exists on_call_failed_html. split.
    + erewrite try_catch_throw; [reflexivity|].
      rewrite (bind_ok _ _ _ _ _ E2).
      rewrite (bind_ok _ _ _ _ _ (today_iso_run w2 today Ht)). apply Hr.
    + simpl. rewrite Hel. apply insert_insert_eq.
Qed.

(** The refresh of the home page rejects as soon as the schedule target
    is missing. *)
Lemma loadData_rejects_without_schedule_target env w :
  elements w !! "today-schedule" = None ->
  exists w', loadData env Home w = (Throw (cannot_set "innerHTML"), w').
Proof.
  intros Hc. unfold loadData. cbn [Promise_all].
  destruct (loadStats_total env w) as [w1 E1].
  pose proof (keeps_absent_loadStats env w _ Hc) as Hc1. rewrite E1 in Hc1. simpl in Hc1.
  destruct (loadTodaySchedule_absent env w1 Hc1) as [w2 E2].
  unfold bind at 1. rewrite E1, E2.
  destruct (loadOnCallToday env w2) as [r3 w3]. destruct r3; eauto.
Qed.

(** C2 fails on the code: on the home page without the [today-schedule]
    element, [loadTodaySchedule] rejects, and with it [loadData] and the
    refresh, which then neither updates the timestamp nor confirms. *)
Theorem missing_schedule_target_rejects_refresh :
  let env := clinic_service 60 ent_roster (VArr two_day_roster) (VArr []) in
  let w := dashboard_without_schedule late_evening in
  fst (loadTodaySchedule env w) = Throw (cannot_set "innerHTML") /\
  fst (loadData env Home w) = Throw (cannot_set "innerHTML") /\
  fst (refreshData env Home w) = Throw (cannot_set "innerHTML") /\
  elements (snd (refreshData env Home w)) !! "last-updated" = Some (TextContent "") /\
  body (snd (refreshData env Home w)) = [].
Proof. cbv zeta. repeat split; vm_compute; reflexivity. Qed.

(** ** Notifications and their timers *)

Lemma attached_remove n k w :
  attached n (set_body (List.filter (fun t => negb (Nat.eqb (toast_node t) k))) w)
  <-> attached n w /\ n <> k.
Proof.
  unfold attached. simpl. rewrite !in_map_iff. split.
  - intros (t & <- & Hin). apply filter_In in Hin as [Hin Hne].
    apply negb_true_iff, Nat.eqb_neq in Hne. eauto.
  - intros [(t & <- & Hin) Hne]. exists t. split; [reflexivity|].
    apply filter_In. split; [exact Hin|]. now apply negb_true_iff, Nat.eqb_neq.
Qed.

Lemma attached_append n t w :
  attached n (set_body (fun b => b ++ [t]) w) <-> attached n w \/ n = toast_node t.
Proof.
  unfold attached. simpl. rewrite map_app, in_app_iff. simpl. intuition.
Qed.

(** Running due callbacks never throws; it detaches their toasts and
    nothing else. *)
Lemma fire_spec due w :
  exists w',
    fire due w = (Ok tt, w') /\
    timers w' = timers w /\ clock w' = clock w /\ next_node w' = next_node w /\
    forall n, attached n w' <-> attached n w /\ ~ In n (map timer_node due).
Proof.
  revert w. induction due as [|t rest IH]; intros w.
  - exists w. repeat split; try reflexivity; tauto.
  - set (w1 := set_body (List.filter (fun x => negb (Nat.eqb (toast_node x) (timer_node t)))) w).
    destruct (IH w1) as (w' & E & Ht & Hc & Hn & Hatt).
    exists w'. split; [|split; [exact Ht|split; [exact Hc|split; [exact Hn|]]]].
    + cbn [fire]. unfold bind. now change (Element_remove (timer_node t) w) with (Ok tt, w1).
    + intros n. rewrite Hatt. unfold w1. rewrite attached_remove. simpl. intuition.
Qed.


Lemma step_spec ev w :
  exists w',
    step ev w = (Ok tt, w') /\
    clock w' = clock w + passes ev /\
    (next_node w <= next_node w')%nat /\
    (forall n, (n < next_node w)%nat -> ~ attached n w -> ~ attached n w') /\
    (forall n T, (n < next_node w)%nat -> armed n T w -> armed n T w') /\
    (forall k, ev = Click k -> ~ attached k w').
Proof.
  destruct ev as [k|dt|message].
  - eexists. split; [reflexivity|]. simpl. split; [lia|]. split; [lia|].
    split; [|split].
    + intros n _ Hgone H. apply attached_remove in H. tauto.
    + intros n T _ [Hp|Hgone]; [left; exact Hp|right].
      intros H. apply attached_remove in H. tauto.
    + intros k' [= <-] H. apply attached_remove in H. tauto.
  - cbn [step]. unfold elapse.
    set (now := clock w + dt).
    set (due := List.filter (fun t => timer_due t <=? now) (timers w)).
    set (pending := List.filter (fun t => negb (timer_due t <=? now)) (timers w)).
    destruct (fire_spec due (set_timers (fun _ => pending) (set_clock now w)))
      as (w' & E & Ht & Hc & Hn & Hatt).
    exists w'. split; [exact E|]. simpl in *. split; [rewrite Hc; reflexivity|].
    split; [rewrite Hn; lia|].
    split; [|split].
    + intros n _ Hgone H. apply Hatt in H. tauto.
    + intros n T _ [[Hin Hlt]|Hgone].
      * destruct (Z.leb_spec T now) as [Hdue|Hlater].
        -- right. intros H. apply Hatt in H as [_ Hnot]. apply Hnot.
           apply in_map_iff. exists (mkTimer T n). split; [reflexivity|].
           apply filter_In. split; [exact Hin|]. simpl. now apply Z.leb_le.
        -- left. rewrite Ht, Hc. split; [|exact Hlater].
           apply filter_In. split; [exact Hin|]. simpl.
           apply negb_true_iff, Z.leb_gt. exact Hlater.
      * right. intros H. apply Hatt in H. tauto.
    + discriminate.
  - eexists. split; [reflexivity|]. simpl. split; [lia|]. split; [lia|].
    split; [|split].
    + intros n Hlt Hgone H.
      apply (attached_append n (mkToast (next_node w) "error-toast" _)
               (mkWorld (elements w) (body w) (timers w) (clock w) (S (next_node w)) (console w)))
        in H.
      simpl in H. destruct H as [H| ->]; [now apply Hgone|lia].
    + intros n T Hlt [[Hin Hck]|Hgone].
      * left. simpl. split; [|exact Hck]. apply in_app_iff. now left.
      * right. intros H.
        apply (attached_append n (mkToast (next_node w) "error-toast" _)
                 (mkWorld (elements w) (body w) (timers w) (clock w) (S (next_node w)) (console w)))
          in H.
        simpl in H. destruct H as [H| ->]; [now apply Hgone|lia].
    + discriminate.
Qed.







Example dismissed_toast_timer_is_harmless :
  let w1 := snd (showError "offline" (dashboard 0)) in
  let w2 := snd (run [Wait 1000; Click 0] w1) in
  body w1 <> [] /\ body w2 = [] /\ timers w2 = [mkTimer 5000 0] /\
  run [Wait 4000] w2
  = (Ok tt, mkWorld (elements w2) [] [] 5000 1 []).
Proof. cbv zeta. repeat split; try discriminate; vm_compute; reflexivity. Qed.

(** * Further properties of the controllers *)

(** ** Frames *)

Lemma framed_refl ids w : framed ids w w.
Proof.
  repeat split; auto. exists []. split; [now rewrite app_nil_r|constructor].
Qed.

Lemma framed_trans ids w1 w2 w3 : framed ids w1 w2 -> framed ids w2 w3 -> framed ids w1 w3.
Proof.
  intros (Hc & He & Hp & toasts & Hb & Ht) (Hc' & He' & Hp' & toasts' & Hb' & Ht').
  split; [congruence|]. split; [|split].
  - intros id Hid. rewrite He', He; auto.
  - intros id Hid. auto.
  - exists (toasts ++ toasts'). split; [now rewrite Hb', Hb, app_assoc|].
    now apply Forall_app.
Qed.

Lemma framed_weaken ids ids' w w' :
  (forall id, In id ids -> In id ids') -> framed ids w w' -> framed ids' w w'.
Proof. intros Hsub (Hc & He & Hp & Ht). repeat split; auto. Qed.

Lemma frames_unchanged {A} (m : M A) ids :
  (forall w, snd (m w) = w) -> frames ids m.
Proof. intros H. constructor. intros w. rewrite H. apply framed_refl. Qed.

Lemma frames_weaken {A} (m : M A) ids ids' :
  (forall id, In id ids -> In id ids') -> frames ids m -> frames ids' m.
Proof. intros Hsub [Hm]. constructor. intros w. eapply framed_weaken; eauto. Qed.

Lemma frames_bind {A B} ids (m : M A) (k : A -> M B) :
  frames ids m -> (forall a, frames ids (k a)) -> frames ids (bind m k).
Proof.
  intros [Hm] Hk. constructor. intros w. unfold bind. specialize (Hm w).
  destruct (m w) as [[a|e] w1]; simpl in *; [|exact Hm].
  destruct (Hk a) as [Hka]. eapply framed_trans; [exact Hm|apply Hka].
Qed.

Lemma frames_try_catch {A} ids (m : M A) h :
  frames ids m -> (forall e, frames ids (h e)) -> frames ids (try_catch m h).
Proof.
  intros [Hm] Hh. constructor. intros w. unfold try_catch. specialize (Hm w).
  destruct (m w) as [[a|e] w1]; simpl in *; [exact Hm|].
  destruct (Hh e) as [Hhe]. eapply framed_trans; [exact Hm|apply Hhe].
Qed.

Lemma frames_Promise_all {A} ids (ms : list (M A)) :
  Forall (frames ids) ms -> frames ids (Promise_all ms).
Proof.
  induction 1 as [|m rest [Hm] _ [IH]]; [now apply frames_unchanged|].
  constructor. intros w. cbn [Promise_all]. specialize (Hm w).
  destruct (m w) as [r w1]. specialize (IH w1).
  destruct (Promise_all rest w1) as [rs w2]. simpl in *.
  eapply framed_trans; eassumption.
Qed.

Lemma frames_fetchFromAPI env endpoint params ids :
  frames ids (fetchFromAPI env endpoint params).
Proof.
  constructor. intros w.
  destruct (fetchFromAPI_cases env endpoint params) as [[v H]|[e H]];
    destruct (H w) as [_ ->]; simpl; [apply framed_refl|].
  repeat split; auto. eexists. split; [reflexivity|]. now repeat constructor.
Qed.

Lemma framed_insert ids id c w :
  In id ids -> framed ids w (set_elements (insert id c) w).
Proof.
  intros Hin. split; [reflexivity|]. split; [|split].
  - intros k Hk. simpl. apply lookup_insert_ne. intros <-. now apply Hk.
  - intros k Hk. simpl. apply lookup_insert_is_Some'. now right.
  - exists []. split; [simpl; now rewrite app_nil_r|constructor].
Qed.

Lemma frames_set_innerHTML ids el html :
  (forall id, el = Some id -> In id ids) -> frames ids (set_innerHTML el html).
Proof.
  intros Hel. destruct el as [id|]; [|now apply frames_unchanged].
  constructor. intros w. simpl. apply framed_insert. now apply Hel.
Qed.

Lemma frames_write_count ids id v : In id ids -> frames ids (write_count id v).
Proof.
  intros Hin. constructor. intros w.
  unfold write_count, getElementById, bind, set_textContent, lift, throw.
  destruct (elements w !! id) as [c|] eqn:E; [|apply framed_refl].
  destruct (if nullish v then _ else _); simpl; [|apply framed_refl].
  now apply framed_insert.
Qed.

Lemma frames_console_log ids line : frames ids (console_log line).
Proof.
  constructor. intros w. simpl. repeat split; auto.
  exists []. split; [now rewrite app_nil_r|constructor].
Qed.

Lemma frames_lift {A} ids (r : Result A) : frames ids (lift r).
Proof. now apply frames_unchanged. Qed.

Lemma frames_today_iso ids : frames ids today_iso.
Proof. now apply frames_unchanged. Qed.

Lemma frames_loadStats env : frames counters (loadStats env).
Proof.
  unfold loadStats, write_stats.
  apply frames_try_catch; [|intros e; apply frames_console_log].
  apply frames_bind.
  - apply frames_Promise_all.
    repeat first [apply List.Forall_nil | apply List.Forall_cons];
      try apply frames_fetchFromAPI.
    apply frames_bind; [apply frames_today_iso|].
    intros today. apply frames_fetchFromAPI.
  - intros results.
    apply frames_bind; [apply frames_lift|]. intros ?.
    apply frames_bind; [apply frames_write_count; unfold counters; simpl; tauto|]. intros ?.
    apply frames_bind; [apply frames_lift|]. intros ?.
    apply frames_bind; [apply frames_write_count; unfold counters; simpl; tauto|]. intros ?.
    apply frames_bind; [apply frames_lift|]. intros ?.
    apply frames_bind; [apply frames_write_count; unfold counters; simpl; tauto|]. intros ?.
    apply frames_bind; [apply frames_lift|]. intros ?.
    apply frames_write_count; unfold counters; simpl; tauto.
Qed.

Lemma frames_showLoading ids el :
  (forall id, el = Some id -> In id ids) -> frames ids (showLoading el).
Proof.
  intros Hel. destruct el as [id|]; [|now apply frames_unchanged].
  now apply frames_set_innerHTML.
Qed.

Lemma frames_render_schedule ids el schedule :
  (forall id, el = Some id -> In id ids) -> frames ids (render_schedule el schedule).
Proof.
  intros Hel. unfold render_schedule.
  apply frames_bind; [apply frames_lift|]. intros len.
  destruct (StrictEquals len (VNum 0)); [now apply frames_set_innerHTML|].
  apply frames_bind; [apply frames_lift|]. intros items.
  apply frames_bind; [apply frames_lift|]. intros rendered.
  now apply frames_set_innerHTML.
Qed.

Lemma frames_render_on_call env ids el callRoster today :
  (forall id, el = Some id -> In id ids) ->
  frames ids (render_on_call env el callRoster today).
Proof.
  intros Hel. unfold render_on_call.
  apply frames_bind; [apply frames_lift|]. intros items.
  apply frames_bind; [apply frames_lift|]. intros filtered.
  destruct (Nat.eqb (length (fst filtered)) 0); [now apply frames_set_innerHTML|].
  apply frames_bind; [apply frames_lift|]. intros rendered.
  now apply frames_set_innerHTML.
Qed.

Lemma frames_with_element {A} ids id (k : option string -> M A) :
  (forall el, (forall id', el = Some id' -> id' = id) -> frames ids (k el)) ->
  frames ids (bind (getElementById id) k).
Proof.
  intros Hk. constructor. intros w. unfold bind, getElementById.
  destruct (elements w !! id) eqn:E.
  - destruct (Hk (Some id)) as [H]; [now intros id' [= <-]|]. apply H.
  - destruct (Hk None) as [H]; [discriminate|]. apply H.
Qed.

Lemma frames_loadTodaySchedule env : frames ["today-schedule"%string] (loadTodaySchedule env).
Proof.
  unfold loadTodaySchedule. apply frames_with_element. intros el Hel.
  assert (Hin : forall id, el = Some id -> In id ["today-schedule"%string])
    by (intros id H; left; symmetry; now apply Hel).
  apply frames_bind; [now apply frames_showLoading|]. intros _.
  apply frames_try_catch; [|intros e; now apply frames_set_innerHTML].
  apply frames_bind; [apply frames_today_iso|]. intros today.
  apply frames_bind; [apply frames_fetchFromAPI|]. intros schedule.
  now apply frames_render_schedule.
Qed.

Lemma frames_loadOnCallToday env : frames ["on-call-today"%string] (loadOnCallToday env).
Proof.
  unfold loadOnCallToday. apply frames_with_element. intros el Hel.
  assert (Hin : forall id, el = Some id -> In id ["on-call-today"%string])
    by (intros id H; left; symmetry; now apply Hel).
  apply frames_bind; [now apply frames_showLoading|]. intros _.
  apply frames_try_catch; [|intros e; now apply frames_set_innerHTML].
  apply frames_bind; [apply frames_fetchFromAPI|]. intros callRoster.
  apply frames_bind; [apply frames_today_iso|]. intros today.
  now apply frames_render_on_call.
Qed.

Lemma frames_loadData env app :
  frames (counters ++ ["today-schedule"; "on-call-today"]%string) (loadData env app).
Proof.
  destruct app; [apply frames_console_log|].
  unfold loadData. apply frames_bind; [|intros _; now apply frames_unchanged].
  apply frames_Promise_all. repeat first [apply List.Forall_nil | apply List.Forall_cons].
  - eapply frames_weaken; [|apply frames_loadStats]. intros id H. apply in_app_iff. now left.
  - eapply frames_weaken; [|apply frames_loadTodaySchedule].
    intros id [<-|[]]. apply in_app_iff. right. now left.
  - eapply frames_weaken; [|apply frames_loadOnCallToday].
    intros id [<-|[]]. apply in_app_iff. right. right. now left.
Qed.

(** ** Every routine keeps to its own targets *)

(** X10: no routine writes outside its own render targets.
    [loadTodaySchedule] leaves every element but [today-schedule] as it
    was and [loadOnCallToday] every element but [on-call-today]; the whole
    [loadData] of the home page touches only the four counters and the two
    lists, removes no element, keeps the clock and appends nothing to the
    body but error toasts. *)
Theorem routines_write_only_their_own_targets env w :
  (forall id, id <> "today-schedule"%string ->
     elements (snd (loadTodaySchedule env w)) !! id = elements w !! id) /\
  (forall id, id <> "on-call-today"%string ->
     elements (snd (loadOnCallToday env w)) !! id = elements w !! id) /\
  (forall id, ~ In id (counters ++ ["today-schedule"; "on-call-today"]%string) ->
     elements (snd (loadData env Home w)) !! id = elements w !! id) /\
  (forall id, is_Some (elements w !! id) ->
     is_Some (elements (snd (loadData env Home w)) !! id)) /\
  clock (snd (loadData env Home w)) = clock w /\
  exists toasts,
    body (snd (loadData env Home w)) = body w ++ toasts /\ Forall error_toast toasts.
Proof.
  destruct (frames_loadTodaySchedule env) as [F1].
  destruct (frames_loadOnCallToday env) as [F2].
  destruct (frames_loadData env Home) as [F3].
  destruct (F1 w) as (_ & He1 & _). destruct (F2 w) as (_ & He2 & _).
  destruct (F3 w) as (Hc3 & He3 & Hp3 & Ht3).
  split; [|split; [|split; [|split; [|split]]]]; try assumption.
  - intros id Hid. apply He1. simpl. intros [H|[]]. now apply Hid.
  - intros id Hid. apply He2. simpl. intros [H|[]]. now apply Hid.
Qed.

(** ** Containment in [loadStats] *)

(** X1: [loadStats] never rejects, whatever the service answers and
    whichever targets exist; it keeps the clock, leaves every element
    other than the four counters as it was, neither creates nor removes an
    element, and appends nothing but error toasts. *)
Theorem loadStats_is_contained env w :
  exists w',
    loadStats env w = (Ok tt, w') /\
    clock w' = clock w /\
    (forall id, ~ In id counters -> elements w' !! id = elements w !! id) /\
    (forall id, is_Some (elements w' !! id) <-> is_Some (elements w !! id)) /\
    exists toasts, body w' = body w ++ toasts /\ Forall error_toast toasts.
Proof.
  destruct (loadStats_total env w) as [w' E]. exists w'. split; [exact E|].
  destruct (frames_loadStats env) as [H]. specialize (H w). rewrite E in H.
  destruct H as (Hc & He & Hp & Ht). simpl in *.
  split; [exact Hc|]. split; [exact He|]. split; [|exact Ht].
  intros id. split; [|apply Hp].
  intros Hsome. destruct (elements w !! id) eqn:Eid; [eauto|].
  pose proof (keeps_absent_loadStats env w id Eid) as Habs.
  rewrite E in Habs. simpl in Habs. rewrite Habs in Hsome. now destruct Hsome.
Qed.

(** ** Refresh *)

Lemma updateLastUpdated_run env w :
  updateLastUpdated env w
  = (Ok tt,
     match elements w !! "last-updated" with
     | Some _ =>
         set_elements
           (insert "last-updated"%string (TextContent (toLocaleString env (clock w)))) w
     | None => w
     end).
Proof.
  unfold updateLastUpdated, bind, getElementById.
  destruct (elements w !! "last-updated"); reflexivity.
Qed.

(** X12: the refresh of a page with the base controller makes no call to
    the service: it always completes, writes one console line, updates
    the timestamp when its element exists and touches no other element,
    and appends the confirmation toast with its 3000 timer. *)
Theorem generic_refresh_makes_no_call env w :
  exists w',
    refreshData env GenericPage w = (Ok tt, w') /\
    console w' = console w ++ ["Loading data..."%string] /\
    body w'
    = body w ++ [mkToast (next_node w) "" (TextContent "Data refreshed successfully!")] /\
    timers w' = timers w ++ [mkTimer (clock w + 3000) (next_node w)] /\
    elements w' !! "last-updated"
    = (fun _ => TextContent (toLocaleString env (clock w))) <$> elements w !! "last-updated" /\
    (forall id, id <> "last-updated"%string -> elements w' !! id = elements w !! id).
Proof.
  unfold refreshData, loadData.
  set (w1 := mkWorld (elements w) (body w) (timers w) (clock w) (next_node w)
               (console w ++ ["Loading data..."%string])).
  assert (E1 : console_log "Loading data..." w = (Ok tt, w1)) by reflexivity.
  rewrite (bind_ok _ _ _ _ _ E1).
  rewrite (bind_ok _ _ _ _ _ (updateLastUpdated_run env w1)).
  eexists. split; [reflexivity|].
  subst w1. simpl. destruct (elements w !! "last-updated") eqn:E; simpl.
  - repeat split; try reflexivity.
    + now rewrite lookup_insert_eq.
    + intros id Hid. now apply lookup_insert_ne.
  - repeat split; try reflexivity. now rewrite E.
Qed.

Lemma loadData_home_resolves env w :
  is_Some (elements w !! "today-schedule") ->
  is_Some (elements w !! "on-call-today") ->
  exists w', loadData env Home w = (Ok tt, w').
Proof.
  intros Hts Hoc. unfold loadData. cbn [Promise_all].
  destruct (loadStats_total env w) as [w1 E1].
  destruct (frames_loadStats env) as [F1]. specialize (F1 w). rewrite E1 in F1.
  destruct F1 as (_ & _ & Hp1 & _). simpl in Hp1.
  destruct (Hp1 _ Hts) as [c1 Hts1].
  destruct (loadTodaySchedule_present env w1 c1 Hts1) as (w2 & html & E2 & Hel2).
  assert (Hoc2 : is_Some (elements w2 !! "on-call-today")).
  { rewrite Hel2. apply lookup_insert_is_Some'. right. now apply Hp1. }
  destruct Hoc2 as [c2 Hoc2].
  destruct (loadOnCallToday_present env w2 c2 Hoc2) as (w3 & html' & E3 & _).
  exists w3. unfold bind at 1. now rewrite E1, E2, E3.
Qed.

(** X11: with the two list targets on the page the refresh of the home
    page always completes, whatever the service answers and whether or
    not the counters exist: it ends by writing the current time to the
    timestamp element, when there is one, and by appending the
    confirmation toast. *)
Theorem home_refresh_completes env w :
  is_Some (elements w !! "today-schedule") ->
  is_Some (elements w !! "on-call-today") ->
  fst (loadData env Home w) = Ok tt /\
  exists w' n,
    refreshData env Home w = (Ok tt, w') /\
    last (body w') = Some (mkToast n "" (TextContent "Data refreshed successfully!")) /\
    last (timers w') = Some (mkTimer (clock w + 3000) n) /\
    (is_Some (elements w !! "last-updated") ->
     elements w' !! "last-updated" = Some (TextContent (toLocaleString env (clock w)))).
Proof.
  intros Hts Hoc.
  destruct (loadData_home_resolves env w Hts Hoc) as [w1 E1].
  split; [now rewrite E1|].
  destruct (frames_loadData env Home) as [F]. specialize (F w). rewrite E1 in F.
  destruct F as (Hc & He & Hp & _). simpl in *.
  unfold refreshData.
  rewrite (bind_ok _ _ _ _ _ E1).
  rewrite (bind_ok _ _ _ _ _ (updateLastUpdated_run env w1)).
  eexists. eexists. split; [reflexivity|].
  destruct (elements w1 !! "last-updated") as [c|] eqn:E; simpl.
  - split; [apply last_snoc|]. split; [rewrite Hc; apply last_snoc|].
    intros _. rewrite Hc. apply lookup_insert_eq.
  - split; [apply last_snoc|]. split; [rewrite Hc; apply last_snoc|].
    intros Hlu. apply Hp in Hlu. rewrite E in Hlu. now destruct Hlu.
Qed.

Lemma home_refresh_completes_witness :
  fst (loadData (service 60 (NetworkFailure "offline")) Home (dashboard late_evening)) = Ok tt /\
  exists w' n,
    refreshData (service 60 (NetworkFailure "offline")) Home (dashboard late_evening)
    = (Ok tt, w') /\
    last (body w') = Some (mkToast n "" (TextContent "Data refreshed successfully!")) /\
    last (timers w') = Some (mkTimer (clock (dashboard late_evening) + 3000) n) /\
    (is_Some (elements (dashboard late_evening) !! "last-updated") ->
     elements w' !! "last-updated"
     = Some (TextContent
               (toLocaleString (service 60 (NetworkFailure "offline"))
                  (clock (dashboard late_evening))))).
Proof.
  apply home_refresh_completes; vm_compute; eauto.
Defined.

(** ** Notifications come from failed calls only *)

Lemma silent_unchanged {A} (m : M A) : (forall w, snd (m w) = w) -> silent m.
Proof. intros H. constructor. intros w. now rewrite H. Qed.

Lemma silent_bind {A B} (m : M A) (k : A -> M B) :
  silent m -> (forall a, silent (k a)) -> silent (bind m k).
Proof.
  intros [Hm] Hk. constructor. intros w. unfold bind. specialize (Hm w).
  destruct (m w) as [[a|e] w1]; simpl in *; [|exact Hm].
  destruct (Hk a) as [Hka]. specialize (Hka w1). destruct Hm, Hka. split; congruence.
Qed.

Lemma silent_try_catch {A} (m : M A) h :
  silent m -> (forall e, silent (h e)) -> silent (try_catch m h).
Proof.
  intros [Hm] Hh. constructor. intros w. unfold try_catch. specialize (Hm w).
  destruct (m w) as [[a|e] w1]; simpl in *; [exact Hm|].
  destruct (Hh e) as [Hhe]. specialize (Hhe w1). destruct Hm, Hhe. split; congruence.
Qed.

Lemma silent_Promise_all {A} (ms : list (M A)) :
  Forall silent ms -> silent (Promise_all ms).
Proof.
  induction 1 as [|m rest [Hm] _ [IH]]; [now apply silent_unchanged|].
  constructor. intros w. cbn [Promise_all]. specialize (Hm w).
  destruct (m w) as [r w1]. specialize (IH w1).
  destruct (Promise_all rest w1) as [rs w2]. simpl in *.
  destruct Hm, IH. split; congruence.
Qed.

Lemma silent_set_innerHTML el html : silent (set_innerHTML el html).
Proof. constructor. intros w. now destruct el. Qed.

Lemma silent_write_count id v : silent (write_count id v).
Proof.
  constructor. intros w.
  unfold write_count, getElementById, bind, set_textContent, lift, throw.
  destruct (elements w !! id); [|now split].
  destruct (if nullish v then _ else _); now split.
Qed.

Lemma silent_console_log line : silent (console_log line).
Proof. constructor. intros w. now split. Qed.

Lemma silent_lift {A} (r : Result A) : silent (lift r).
Proof. now apply silent_unchanged. Qed.

Lemma silent_today_iso : silent today_iso.
Proof. now apply silent_unchanged. Qed.

Lemma silent_fetchFromAPI env endpoint params :
  (exists data, Delivers env params data) -> silent (fetchFromAPI env endpoint params).
Proof.
  intros [data Hd]. apply silent_unchanged. intros w.
  now rewrite (fetchFromAPI_delivers _ _ _ _ _ Hd).
Qed.

Lemma silent_with_element {A} id (k : option string -> M A) :
  (forall el, silent (k el)) -> silent (bind (getElementById id) k).
Proof. intros Hk. apply silent_bind; [now apply silent_unchanged|exact Hk]. Qed.

Lemma silent_loadData env app :
  (forall params, exists data, Delivers env params data) -> silent (loadData env app).
Proof.
  intros Hd. destruct app; [apply silent_console_log|].
  unfold loadData. apply silent_bind; [|intros _; now apply silent_unchanged].
  apply silent_Promise_all.
  repeat first [apply List.Forall_nil | apply List.Forall_cons].
  - unfold loadStats, write_stats.
    apply silent_try_catch; [|intros e; apply silent_console_log].
    apply silent_bind.
    + apply silent_Promise_all.
      repeat first [apply List.Forall_nil | apply List.Forall_cons];
        try (apply silent_fetchFromAPI; apply Hd).
      apply silent_bind; [apply silent_today_iso|].
      intros today. apply silent_fetchFromAPI, Hd.
    + intros results.
      apply silent_bind; [apply silent_lift|]. intros ?.
      apply silent_bind; [apply silent_write_count|]. intros ?.
      apply silent_bind; [apply silent_lift|]. intros ?.
      apply silent_bind; [apply silent_write_count|]. intros ?.
      apply silent_bind; [apply silent_lift|]. intros ?.
      apply silent_bind; [apply silent_write_count|]. intros ?.
      apply silent_bind; [apply silent_lift|]. intros ?.
      apply silent_write_count.
  - unfold loadTodaySchedule. apply silent_with_element. intros el.
    apply silent_bind; [destruct el; [apply silent_set_innerHTML|now apply silent_unchanged]|].
    intros _. apply silent_try_catch; [|intros e; apply silent_set_innerHTML].
    apply silent_bind; [apply silent_today_iso|]. intros today.
    apply silent_bind; [apply silent_fetchFromAPI, Hd|]. intros schedule.
    unfold render_schedule.
    apply silent_bind; [apply silent_lift|]. intros len.
    destruct (StrictEquals len (VNum 0)); [apply silent_set_innerHTML|].
    apply silent_bind; [apply silent_lift|]. intros items.
    apply silent_bind; [apply silent_lift|]. intros rendered.
    apply silent_set_innerHTML.
  - unfold loadOnCallToday. apply silent_with_element. intros el.
    apply silent_bind; [destruct el; [apply silent_set_innerHTML|now apply silent_unchanged]|].
    intros _. apply silent_try_catch; [|intros e; apply silent_set_innerHTML].
    apply silent_bind; [apply silent_fetchFromAPI, Hd|]. intros callRoster.
    apply silent_bind; [apply silent_today_iso|]. intros today.
    unfold render_on_call.
    apply silent_bind; [apply silent_lift|]. intros items.
    apply silent_bind; [apply silent_lift|]. intros filtered.
    destruct (Nat.eqb (length (fst filtered)) 0); [apply silent_set_innerHTML|].
    apply silent_bind; [apply silent_lift|]. intros rendered.
    apply silent_set_innerHTML.
Qed.

(** X5: when the service answers every call with a success envelope,
    [loadData] appends no toast and registers no timer, whatever the
    envelopes carry and whichever targets exist: a failure while
    rendering is never notified. *)
Theorem no_notification_without_failed_call env app w :
  (forall params, exists data, Delivers env params data) ->
  body (snd (loadData env app w)) = body w /\
  timers (snd (loadData env app w)) = timers w.
Proof. intros Hd. destruct (silent_loadData env app Hd) as [H]. apply H. Qed.

Lemma no_notification_without_failed_call_witness :
  body (snd (loadData (service 60 (answer VNull)) Home (dashboard late_evening)))
  = body (dashboard late_evening) /\
  timers (snd (loadData (service 60 (answer VNull)) Home (dashboard late_evening)))
  = timers (dashboard late_evening).
Proof.
  apply no_notification_without_failed_call.
  intros params. exists VNull. split; [reflexivity|].
  eexists _, _, _. repeat split; reflexivity.
Defined.

Example malformed_data_shows_placeholders_silently :
  let w' := snd (loadData (service 60 (answer VNull)) Home (dashboard late_evening)) in
  elements w' !! "today-schedule" = Some (InnerHTML schedule_failed_html) /\
  elements w' !! "on-call-today" = Some (InnerHTML on_call_failed_html) /\
  elements w' !! "doctor-count" = Some (TextContent "0") /\
  body w' = [].
Proof. cbv zeta. repeat split; vm_compute; reflexivity. Qed.

(** ** What the counters show *)

Lemma write_stats_sequences doctors clinics roster records w :
  (forall id, In id counters -> is_Some (elements w !! id)) ->
  Forall (fun record => nullish record = false) records ->
  write_stats [VArr doctors; VArr clinics; VArr roster; VArr records] w
  = (Ok tt,
     set_elements
       (fun els =>
          <["notification-count"%string :=
              TextContent (pretty (Z.of_nat (length (List.filter status_is_pending records))))]>
            (<["roster-count"%string := TextContent (pretty (Z.of_nat (length roster)))]>
               (<["clinic-count"%string := TextContent (pretty (Z.of_nat (length clinics)))]>
                  (<["doctor-count"%string := TextContent (pretty (Z.of_nat (length doctors)))]>
                     els)))) w).
Proof.
  intros Hall Hrecords.
  assert (Hdc := Hall "doctor-count"%string). assert (Hcc := Hall "clinic-count"%string).
  assert (Hrc := Hall "roster-count"%string).
  assert (Hnc := Hall "notification-count"%string).
  unfold counters in *. simpl in Hdc, Hcc, Hrc, Hnc.
  unfold write_stats. cbn [nth].
  rewrite !count_of_sequence, (pending_count_records _ Hrecords).
  assert (H1 : is_Some (elements w !! "doctor-count")) by tauto.
  rewrite bind_lift_ok, (bind_ok _ _ _ _ _ (write_count_number _ _ _ H1)).
  set (w1 := set_elements _ w).
  assert (H2 : is_Some (elements w1 !! "clinic-count"))
    by (subst w1; simpl; apply is_Some_insert; tauto).
  rewrite bind_lift_ok, (bind_ok _ _ _ _ _ (write_count_number _ _ _ H2)).
  set (w2 := set_elements _ w1).
  assert (H3 : is_Some (elements w2 !! "roster-count"))
    by (subst w2 w1; simpl; do 2 apply is_Some_insert; tauto).
  rewrite bind_lift_ok, (bind_ok _ _ _ _ _ (write_count_number _ _ _ H3)).
  set (w3 := set_elements _ w2).
  assert (H4 : is_Some (elements w3 !! "notification-count"))
    by (subst w3 w2 w1; simpl; do 3 apply is_Some_insert; tauto).
  rewrite bind_lift_ok, (write_count_number _ _ _ H4). reflexivity.
Qed.

(** X2: with the four counters on the page and the four calls returning
    sequences, [loadStats] writes the lengths of the doctors, the
    clinics and the roster to their counters and leaves every element
    other than the four counters as it was. *)
Theorem loadStats_shows_the_lengths env w today doctors clinics roster records :
  (forall id, In id counters -> is_Some (elements w !! id)) ->
  isoDay (Some (clock w)) = Ok today ->
  Yields env [("operation", "getDoctors")]%string (VArr doctors) ->
  Yields env [("operation", "getClinics")]%string (VArr clinics) ->
  Yields env [("operation", "getRoster"); ("date", today)]%string (VArr roster) ->
  Yields env [("sheet", "Notifications")]%string (VArr records) ->
  Forall (fun record => nullish record = false) records ->
  exists w',
    loadStats env w = (Ok tt, w') /\
    elements w' !! "doctor-count" = Some (TextContent (pretty (Z.of_nat (length doctors)))) /\
    elements w' !! "clinic-count" = Some (TextContent (pretty (Z.of_nat (length clinics)))) /\
    elements w' !! "roster-count" = Some (TextContent (pretty (Z.of_nat (length roster)))) /\
    (forall id, ~ In id counters -> elements w' !! id = elements w !! id).
Proof.
  intros Hall Ht Hd Hc Hr Hn Hrecords.
  destruct (Promise_all_stats env w today _ _ _ _ Ht Hd Hc Hr Hn) as (w0 & E0 & Hel0).
  assert (Hall0 : forall id, In id counters -> is_Some (elements w0 !! id))
    by (intros id Hid; rewrite Hel0; now apply Hall).
  unfold loadStats. eexists. split.
  - apply try_catch_ok. rewrite (bind_ok _ _ _ _ _ E0).
    apply (write_stats_sequences _ _ _ _ _ Hall0 Hrecords).
  - simpl. rewrite Hel0. repeat split.
    + now rewrite !lookup_insert_ne, lookup_insert_eq by discriminate.
    + now rewrite !lookup_insert_ne, lookup_insert_eq by discriminate.
    + now rewrite !lookup_insert_ne, lookup_insert_eq by discriminate.
    + intros id Hid. unfold counters in Hid. simpl in Hid.
      rewrite !lookup_insert_ne; [reflexivity|intros <-; tauto..].
Qed.

Lemma loadStats_shows_the_lengths_witness :
  exists w',
    loadStats
      (clinic_service 60 ent_roster (VArr []) (VArr [VObj [("Status", VStr "Pending")]%string]))
      (dashboard late_evening) = (Ok tt, w') /\
    elements w' !! "doctor-count" = Some (TextContent (pretty (Z.of_nat (length (@nil JSValue))))) /\
    elements w' !! "clinic-count" = Some (TextContent (pretty (Z.of_nat (length (@nil JSValue))))) /\
    elements w' !! "roster-count"
    = Some (TextContent (pretty (Z.of_nat (length
         [VObj [("Clinic", VStr "ENT"); ("Consultants", VStr "A,B,C");
                ("Status", VStr "Sent")]%string])))) /\
    (forall id, ~ In id counters ->
       elements w' !! id = elements (dashboard late_evening) !! id).
Proof.
  apply (loadStats_shows_the_lengths _ (dashboard late_evening) "2024-05-10" [] []
           [VObj [("Clinic", VStr "ENT"); ("Consultants", VStr "A,B,C");
                  ("Status", VStr "Sent")]%string]
           [VObj [("Status", VStr "Pending")]%string]).
  - intros id Hid. unfold counters in Hid. simpl in Hid.
    destruct Hid as [<-|[<-|[<-|[<-|[]]]]]; vm_compute; eauto.
  - vm_compute. reflexivity.
  - apply Delivers_Yields. split; [reflexivity|].
    eexists _, _, _. repeat split; reflexivity.
  - apply Delivers_Yields. split; [reflexivity|].
    eexists _, _, _. repeat split; reflexivity.
  - apply Delivers_Yields. split; [reflexivity|].
    eexists _, _, _. repeat split; reflexivity.
  - apply Delivers_Yields. split; [reflexivity|].
    eexists _, _, _. repeat split; reflexivity.
  - repeat constructor.
Defined.

Lemma count_of_total v : exists n, count_of v = Ok n.
Proof.
  unfold count_of, OptGet. destruct v; simpl; eauto.
Qed.

Lemma Promise_all_stats_total env w :
  exists results w0,
    Promise_all
      [ fetchFromAPI env "" [("operation", "getDoctors")];
        fetchFromAPI env "" [("operation", "getClinics")];
        (today <- today_iso;;
         fetchFromAPI env "" [("operation", "getRoster"); ("date", today)]);
        fetchFromAPI env "" [("sheet", "Notifications")] ]%string w
    = (Ok results, w0) /\
    elements w0 = elements w.
Proof.
  destruct (fetchFromAPI_total env "" [("operation", "getDoctors")]%string w)
    as (v1 & w1 & E1 & Hel1 & Hck1).
  destruct (fetchFromAPI_total env "" [("operation", "getClinics")]%string w1)
    as (v2 & w2 & E2 & Hel2 & Hck2).
  destruct (isoDay_total (clock w2)) as [today Ht].
  destruct (fetchFromAPI_total env "" [("operation", "getRoster"); ("date", today)]%string w2)
    as (v3 & w3 & E3 & Hel3 & Hck3).
  destruct (fetchFromAPI_total env "" [("sheet", "Notifications")]%string w3)
    as (v4 & w4 & E4 & Hel4 & Hck4).
  exists [v1; v2; v3; v4], w4. split; [|congruence].
  cbn [Promise_all]. rewrite E1, E2.
  rewrite (bind_ok _ _ _ _ _ (today_iso_run w2 today Ht)), E3, E4.
  reflexivity.
Qed.

(** X3: when the first counter, [doctor-count], is not on the page,
    [loadStats] writes none of the counters, also not those that exist: the
    first assignment throws, the [catch] block logs it, and the routine
    completes with every element as it was. *)
Theorem missing_first_counter_stops_all_counters env w :
  elements w !! "doctor-count" = None ->
  exists w',
    loadStats env w = (Ok tt, w') /\
    elements w' = elements w /\
    last (console w')
    = Some ("Error loading stats: Cannot set properties of null (setting 'textContent')"%string).
Proof.
  intros Hdc.
  destruct (Promise_all_stats_total env w) as (results & w0 & E0 & Hel0).
  destruct (count_of_total (nth 0 results VUndef)) as [n Hn].
  unfold loadStats. eexists. split.
  - erewrite try_catch_throw; [reflexivity|].
    rewrite (bind_ok _ _ _ _ _ E0). unfold write_stats.
    rewrite Hn, bind_lift_ok.
    apply bind_throw. unfold write_count.
    rewrite <- Hel0 in Hdc.
    now rewrite (bind_ok _ _ _ _ _ (getElementById_absent _ _ Hdc)).
  - simpl. split; [exact Hel0|]. apply last_snoc.
Qed.

Lemma missing_first_counter_stops_all_counters_witness :
  exists w',
    loadStats (clinic_service 60 ent_roster (VArr []) (VArr []))
      (set_elements (delete "doctor-count"%string) (dashboard late_evening)) = (Ok tt, w') /\
    elements w'
    = elements (set_elements (delete "doctor-count"%string) (dashboard late_evening)) /\
    last (console w')
    = Some ("Error loading stats: Cannot set properties of null (setting 'textContent')"%string).
Proof.
  apply missing_first_counter_stops_all_counters. vm_compute. reflexivity.
Defined.

(** ** An unreachable service *)

Lemma appended_refl w : appended 0 w w.
Proof. exists []. split; [now rewrite app_nil_r|]. split; [reflexivity|constructor]. Qed.

Lemma appended_trans j k w1 w2 w3 :
  appended j w1 w2 -> appended k w2 w3 -> appended (j + k) w1 w3.
Proof.
  intros (t1 & Hb1 & Hl1 & Hf1) (t2 & Hb2 & Hl2 & Hf2).
  exists (t1 ++ t2). split; [now rewrite Hb2, Hb1, app_assoc|].
  split; [rewrite length_app; lia|now apply Forall_app].
Qed.

Lemma appended_reported message w : appended 1 w (reported message w).
Proof. eexists. split; [reflexivity|]. split; [reflexivity|]. now repeat constructor. Qed.

Lemma appended_same_body k w w' w'' : appended k w w' -> body w'' = body w' -> appended k w w''.
Proof. intros (t & Hb & Hl & Hf) E. exists t. now rewrite E. Qed.

Lemma failing_call env params w :
  (forall params, exists message, Failure env params message) ->
  exists w',
    fetchFromAPI env "" params w = (Ok (VArr []), w') /\
    elements w' = elements w /\ clock w' = clock w /\ appended 1 w w'.
Proof.
  intros Hfail. destruct (Hfail params) as [message Hf].
  exists (reported message w). split; [now apply fetchFromAPI_failure|].
  split; [reflexivity|]. split; [reflexivity|apply appended_reported].
Qed.

Lemma loadStats_all_fail env w :
  (forall params, exists message, Failure env params message) ->
  (forall id, In id counters -> is_Some (elements w !! id)) ->
  exists w',
    loadStats env w = (Ok tt, w') /\ clock w' = clock w /\
    elements w'
    = <["notification-count"%string := TextContent "0"]>
        (<["roster-count"%string := TextContent "0"]>
           (<["clinic-count"%string := TextContent "0"]>
              (<["doctor-count"%string := TextContent "0"]> (elements w)))) /\
    appended 4 w w'.
Proof.
  intros Hfail Hall.
  destruct (failing_call env [("operation", "getDoctors")]%string w Hfail)
    as (w1 & E1 & Hel1 & Hck1 & Ha1).
  destruct (failing_call env [("operation", "getClinics")]%string w1 Hfail)
    as (w2 & E2 & Hel2 & Hck2 & Ha2).
  destruct (isoDay_total (clock w2)) as [today Ht].
  destruct (failing_call env [("operation", "getRoster"); ("date", today)]%string w2 Hfail)
    as (w3 & E3 & Hel3 & Hck3 & Ha3).
  destruct (failing_call env [("sheet", "Notifications")]%string w3 Hfail)
    as (w4 & E4 & Hel4 & Hck4 & Ha4).
  assert (Hall4 : forall id, In id counters -> is_Some (elements w4 !! id)).
  { intros id Hid. rewrite Hel4, Hel3, Hel2, Hel1. now apply Hall. }
  unfold loadStats. eexists. split; [|split; [|split]].
  - apply try_catch_ok. erewrite bind_ok.
    + apply (write_stats_sequences [] [] [] [] w4 Hall4). constructor.
    + cbn [Promise_all]. rewrite E1, E2.
      rewrite (bind_ok _ _ _ _ _ (today_iso_run w2 today Ht)), E3, E4. reflexivity.
  - simpl. congruence.
  - simpl. now rewrite Hel4, Hel3, Hel2, Hel1.
  - apply (appended_same_body 4 w w4); [|reflexivity].
    apply (appended_trans 3 1 w w3 w4); [|exact Ha4].
    apply (appended_trans 2 1 w w2 w3); [|exact Ha3].
    apply (appended_trans 1 1 w w1 w2); assumption.
Qed.

Lemma loadTodaySchedule_all_fail env w :
  (forall params, exists message, Failure env params message) ->
  is_Some (elements w !! "today-schedule") ->
  exists w',
    loadTodaySchedule env w = (Ok tt, w') /\ clock w' = clock w /\
    elements w' = <["today-schedule"%string := InnerHTML no_schedule_html]> (elements w) /\
    appended 1 w w'.
Proof.
  intros Hfail [c Hc]. unfold loadTodaySchedule.
  rewrite (bind_ok _ _ _ _ _ (getElementById_present _ _ _ Hc)).
  set (w1 := set_elements (insert "today-schedule"%string (InnerHTML loading_html)) w).
  assert (E1 : showLoading (Some "today-schedule"%string) w = (Ok tt, w1)) by reflexivity.
  rewrite (bind_ok _ _ _ _ _ E1).
  destruct (isoDay_total (clock w1)) as [today Ht].
  destruct (failing_call env [("operation", "getRoster"); ("date", today)]%string w1 Hfail)
    as (w2 & E2 & Hel2 & Hck2 & Ha2).
  eexists. split; [|split; [|split]].
  - apply try_catch_ok.
    rewrite (bind_ok _ _ _ _ _ (today_iso_run w1 today Ht)).
    rewrite (bind_ok _ _ _ _ _ E2).
    now apply (render_schedule_empty _ _ (VNum 0)).
  - simpl. now rewrite Hck2.
  - simpl. rewrite Hel2. apply insert_insert_eq.
  - apply (appended_same_body 1 w w2); [|reflexivity].
    destruct Ha2 as (t & Hb & Hl & Hf). exists t. now rewrite Hb.
Qed.

Lemma loadOnCallToday_all_fail env w :
  (forall params, exists message, Failure env params message) ->
  is_Some (elements w !! "on-call-today") ->
  exists w',
    loadOnCallToday env w = (Ok tt, w') /\ clock w' = clock w /\
    elements w' = <["on-call-today"%string := InnerHTML no_on_call_html]> (elements w) /\
    appended 1 w w'.
Proof.
  intros Hfail [c Hc]. unfold loadOnCallToday.
  rewrite (bind_ok _ _ _ _ _ (getElementById_present _ _ _ Hc)).
  set (w1 := set_elements (insert "on-call-today"%string (InnerHTML loading_html)) w).
  assert (E1 : showLoading (Some "on-call-today"%string) w = (Ok tt, w1)) by reflexivity.
  rewrite (bind_ok _ _ _ _ _ E1).
  destruct (failing_call env [("sheet", "CallRoster")]%string w1 Hfail)
    as (w2 & E2 & Hel2 & Hck2 & Ha2).
  destruct (isoDay_total (clock w2)) as [today Ht].
  eexists. split; [|split; [|split]].
  - apply try_catch_ok.
    rewrite (bind_ok _ _ _ _ _ E2).
    rewrite (bind_ok _ _ _ _ _ (today_iso_run w2 today Ht)).
    apply (render_on_call_filtered env "on-call-today" [] today w2); constructor.
  - simpl. now rewrite Hck2.
  - simpl. rewrite Hel2. apply insert_insert_eq.
  - apply (appended_same_body 1 w w2); [|reflexivity].
    destruct Ha2 as (t & Hb & Hl & Hf). exists t. now rewrite Hb.
Qed.

(** X4: when every call fails (the service is unreachable, or [API_URL]
    is still the placeholder), the refresh of a complete home page still
    completes: the four counters show [0], the schedule and the on-call
    list show their "no data" placeholders rather than a failure message,
    and six error toasts are appended, one for each call. *)
Theorem unreachable_service_shows_an_empty_dashboard env w :
  (forall params, exists message, Failure env params message) ->
  (forall id, In id (counters ++ ["today-schedule"; "on-call-today"]%string) ->
              is_Some (elements w !! id)) ->
  exists w',
    loadData env Home w = (Ok tt, w') /\
    (forall id, In id counters -> elements w' !! id = Some (TextContent "0")) /\
    elements w' !! "today-schedule" = Some (InnerHTML no_schedule_html) /\
    elements w' !! "on-call-today" = Some (InnerHTML no_on_call_html) /\
    appended 6 w w'.
Proof.
  intros Hfail Hall.
  assert (Hcounters : forall id, In id counters -> is_Some (elements w !! id))
    by (intros id Hid; apply Hall, in_app_iff; now left).
  destruct (loadStats_all_fail env w Hfail Hcounters) as (w1 & E1 & Hck1 & Hel1 & Ha1).
  assert (Hts : is_Some (elements w1 !! "today-schedule")).
  { rewrite Hel1. do 4 apply is_Some_insert. apply Hall, in_app_iff. right. now left. }
  destruct (loadTodaySchedule_all_fail env w1 Hfail Hts) as (w2 & E2 & Hck2 & Hel2 & Ha2).
  assert (Hoc : is_Some (elements w2 !! "on-call-today")).
  { rewrite Hel2, Hel1. do 5 apply is_Some_insert.
    apply Hall, in_app_iff. right. right. now left. }
  destruct (loadOnCallToday_all_fail env w2 Hfail Hoc) as (w3 & E3 & Hck3 & Hel3 & Ha3).
  exists w3. split; [|split; [|split; [|split]]].
  - unfold loadData. cbn [Promise_all]. unfold bind at 1. now rewrite E1, E2, E3.
  - intros id Hid. rewrite Hel3, Hel2, Hel1. unfold counters in Hid. simpl in Hid.
    destruct Hid as [<-|[<-|[<-|[<-|[]]]]];
      now rewrite !lookup_insert_ne, lookup_insert_eq by discriminate.
  - rewrite Hel3, Hel2. now rewrite lookup_insert_ne, lookup_insert_eq by discriminate.
  - rewrite Hel3. apply lookup_insert_eq.
  - apply (appended_trans 5 1 w w2 w3); [|exact Ha3].
    apply (appended_trans 4 1 w w1 w2); assumption.
Qed.

Lemma unreachable_service_shows_an_empty_dashboard_witness :
  exists w',
    loadData (mkEnv false (fun _ => NetworkFailure "never asked") 60 (fun _ => None)
                (fun _ => "now"%string) "Failed to construct 'URL': Invalid URL")
      Home (dashboard late_evening) = (Ok tt, w') /\
    (forall id, In id counters -> elements w' !! id = Some (TextContent "0")) /\
    elements w' !! "today-schedule" = Some (InnerHTML no_schedule_html) /\
    elements w' !! "on-call-today" = Some (InnerHTML no_on_call_html) /\
    appended 6 (dashboard late_evening) w'.
Proof.
  apply unreachable_service_shows_an_empty_dashboard.
  - intros params. eexists. now apply invalid_url.
  - intros id Hid. unfold counters in Hid. simpl in Hid.
    destruct Hid as [<-|[<-|[<-|[<-|[<-|[<-|[]]]]]]]; vm_compute; eauto.
Defined.

(** ** Rosters that cannot be rendered *)

Lemma Array_map_throws {B} (cb : Callback B) items :
  Exists (fun item => exists e, cb item = Throw e) items ->
  exists e, Array_map cb items = Throw e.
Proof.
  induction 1 as [item rest [e He]|item rest _ [e IH]]; simpl.
  - rewrite He. eauto.
  - destruct (cb item) as [[b item']|e']; [|eauto]. rewrite IH. eauto.
Qed.

Lemma Array_filter_throws (cb : Callback bool) items :
  Exists (fun item => exists e, cb item = Throw e) items ->
  exists e, Array_filter cb items = Throw e.
Proof.
  induction 1 as [item rest [e He]|item rest _ [e IH]]; simpl.
  - rewrite He. eauto.
  - destruct (cb item) as [[b item']|e']; [|eauto]. rewrite IH. eauto.
Qed.

Lemma schedule_item_hole item :
  nullish item = true -> exists e, schedule_item item = Throw e.
Proof. destruct item; try discriminate; intros _; eexists; reflexivity. Qed.

Lemma schedule_item_odd_consultants fields consultants :
  assoc "Consultants" fields = Some consultants ->
  nullish consultants = false ->
  (forall names, consultants <> VStr names) ->
  exists e, schedule_item (VObj fields) = Throw e.
Proof.
  intros Hc Hn Hs. unfold schedule_item, cb_bind, item_get, cb_lift, cb_ret. simpl.
  destruct (ToString (default VUndef (assoc "Clinic" fields))); [|eauto].
  simpl. rewrite Hc. simpl. rewrite Hn.
  destruct consultants; try discriminate; simpl; eauto.
  now destruct (Hs s).
Qed.

Lemma render_schedule_unrenderable id items w :
  Exists (fun item => exists e, schedule_item item = Throw e) items ->
  exists e, render_schedule (Some id) (VArr items) w = (Throw e, w).
Proof.
  intros Hex. destruct (Array_map_throws _ _ Hex) as [e He].
  destruct items as [|x rest]; [inversion Hex|].
  unfold render_schedule, bind, lift. simpl. simpl in He. rewrite He. eauto.
Qed.

Lemma render_schedule_malformed id schedule :
  Malformed_roster schedule ->
  forall w, exists e, render_schedule (Some id) schedule w = (Throw e, w).
Proof.
  intros Hbad w. destruct Hbad as [schedule Hn|items Hex|items Hex].
  - unfold render_schedule, bind, lift.
    destruct schedule; try discriminate; simpl; eauto.
  - apply render_schedule_unrenderable. eapply Exists_impl; [exact Hex|].
    intros item. apply schedule_item_hole.
  - apply render_schedule_unrenderable. eapply Exists_impl; [exact Hex|].
    intros item (fields & consultants & -> & Hc & Hn & Hs).
    now apply (schedule_item_odd_consultants fields consultants).
Qed.

(** X6: when the roster the call returns cannot be rendered (it is
    [undefined] or [null], as for a success envelope without [data], or
    one of its entries is [null] or has a [Consultants] that is not a
    string), the schedule target shows the failure placeholder and none of
    the entries, and the routine completes. *)
Theorem malformed_roster_shows_the_failure_placeholder env w c today schedule :
  elements w !! "today-schedule" = Some c ->
  isoDay (Some (clock w)) = Ok today ->
  Yields env [("operation", "getRoster"); ("date", today)]%string schedule ->
  Malformed_roster schedule ->
  exists w',
    loadTodaySchedule env w = (Ok tt, w') /\
    elements w' = <["today-schedule"%string := InnerHTML schedule_failed_html]> (elements w).
Proof.
  intros Hc Ht Hy Hbad. unfold loadTodaySchedule.
  rewrite (bind_ok _ _ _ _ _ (getElementById_present _ _ _ Hc)).
  set (w1 := set_elements (insert "today-schedule"%string (InnerHTML loading_html)) w).
  assert (E1 : showLoading (Some "today-schedule"%string) w = (Ok tt, w1)) by reflexivity.
  rewrite (bind_ok _ _ _ _ _ E1).
  destruct (Yields_run env _ _ w1 Hy) as (w2 & E2 & Hel & Hck).
  destruct (render_schedule_malformed "today-schedule" schedule Hbad w2) as [e E3].
  eexists. split.
  - erewrite try_catch_throw; [reflexivity|].
    rewrite (bind_ok _ _ _ _ _ (today_iso_run w1 today Ht)).
    rewrite (bind_ok _ _ _ _ _ E2). exact E3.
  - simpl. rewrite Hel. apply insert_insert_eq.
Qed.

Lemma malformed_roster_shows_the_failure_placeholder_witness :
  exists w',
    loadTodaySchedule
      (clinic_service 60
         (VArr [VObj [("Clinic", VStr "ENT"); ("Consultants", VStr "A,B")]%string; VNull])
         (VArr []) (VArr []))
      (dashboard late_evening) = (Ok tt, w') /\
    elements w'
    = <["today-schedule"%string := InnerHTML schedule_failed_html]>
        (elements (dashboard late_evening)).
Proof.
  apply (malformed_roster_shows_the_failure_placeholder _ _ (InnerHTML "") "2024-05-10"
           (VArr [VObj [("Clinic", VStr "ENT"); ("Consultants", VStr "A,B")]%string; VNull])).
  - reflexivity.
  - vm_compute. reflexivity.
  - apply Delivers_Yields. split; [reflexivity|].
    eexists _, _, _. repeat split; reflexivity.
  - apply roster_with_hole. apply Exists_cons_tl. now apply Exists_cons_hd.
Defined.

Lemma is_today_throws env today item :
  (exists e, item_day env item = Throw e) -> exists e, is_today env today item = Throw e.
Proof. intros [e He]. rewrite is_today_item_day, He. eauto. Qed.

Lemma item_day_without_date env fields :
  assoc "Date" fields = None -> exists e, item_day env (VObj fields) = Throw e.
Proof. intros H. unfold item_day. simpl. rewrite H. simpl. eauto. Qed.

(** X7: one entry of the call roster whose date cannot be turned into
    an ISO day (a missing or unparseable [Date], a [null] entry) hides the
    whole roster: the on-call target shows the failure placeholder, also
    when other entries are dated today, and the routine completes. *)
Theorem one_bad_date_hides_the_call_roster env w c today roster :
  elements w !! "on-call-today" = Some c ->
  isoDay (Some (clock w)) = Ok today ->
  Yields env [("sheet", "CallRoster")]%string (VArr roster) ->
  Exists (fun item => exists e, item_day env item = Throw e) roster ->
  exists w',
    loadOnCallToday env w = (Ok tt, w') /\
    elements w' = <["on-call-today"%string := InnerHTML on_call_failed_html]> (elements w).
Proof.
  intros Hc Ht Hy Hbad. unfold loadOnCallToday.
  rewrite (bind_ok _ _ _ _ _ (getElementById_present _ _ _ Hc)).
  set (w1 := set_elements (insert "on-call-today"%string (InnerHTML loading_html)) w).
  assert (E1 : showLoading (Some "on-call-today"%string) w = (Ok tt, w1)) by reflexivity.
  rewrite (bind_ok _ _ _ _ _ E1).
  destruct (Yields_run env _ _ w1 Hy) as (w2 & E2 & Hel & Hck).
  assert (Ht2 : isoDay (Some (clock w2)) = Ok today) by now rewrite Hck.
  destruct (Array_filter_throws (is_today env today) roster) as [e He].
  { eapply Exists_impl; [exact Hbad|]. intros item. apply is_today_throws. }
  eexists. split.
  - erewrite try_catch_throw; [reflexivity|].
    rewrite (bind_ok _ _ _ _ _ E2).
    rewrite (bind_ok _ _ _ _ _ (today_iso_run w2 today Ht2)).
    unfold render_on_call, bind, lift. simpl. rewrite He. reflexivity.
  - simpl. rewrite Hel. apply insert_insert_eq.
Qed.

Lemma one_bad_date_hides_the_call_roster_witness :
  exists w',
    loadOnCallToday
      (clinic_service 60 (VArr [])
         (VArr [call_entry "2024-05-10" "Dr Ade"; VObj [("ConsultantOnCall", VStr "Dr Bello")]%string])
         (VArr []))
      (dashboard late_evening) = (Ok tt, w') /\
    elements w'
    = <["on-call-today"%string := InnerHTML on_call_failed_html]>
        (elements (dashboard late_evening)).
Proof.
  apply (one_bad_date_hides_the_call_roster _ _ (InnerHTML "") "2024-05-10"
           [call_entry "2024-05-10" "Dr Ade"; VObj [("ConsultantOnCall", VStr "Dr Bello")]%string]).
  - reflexivity.
  - vm_compute. reflexivity.
  - apply Delivers_Yields. split; [reflexivity|].
    eexists _, _, _. repeat split; reflexivity.
  - apply Exists_cons_tl. apply Exists_cons_hd. now apply item_day_without_date.
Defined.

(** ** What an entry shows *)

(** X8: how the status of a roster record is shown.  A [Status] that
    is absent, [null], [false], [0] or the empty string is shown as
    [Pending]; any other text is shown as it is.  The badge has the class
    [badge-sent] for the string [Sent] exactly and [badge-pending] for
    every other value, [sent] and [SENT] included. *)
Theorem status_badge_of_a_record fields html item' :
  schedule_item (VObj fields) = Ok (html, item') ->
  exists clinic shown badge text,
    html = schedule_item_html clinic shown badge text /\
    (badge = "badge-sent"%string <-> assoc "Status" fields = Some (VStr "Sent")) /\
    (badge = "badge-sent"%string \/ badge = "badge-pending"%string) /\
    (ToBoolean (default VUndef (assoc "Status" fields)) = false -> text = "Pending"%string) /\
    (forall s, assoc "Status" fields = Some (VStr s) -> s <> ""%string -> text = s).
Proof.
  unfold schedule_item, cb_bind, item_get, cb_lift, cb_ret. simpl.
  destruct (ToString (default VUndef (assoc "Clinic" fields))) as [clinic|]; [|discriminate].
  simpl.
  destruct (if nullish (default VUndef (assoc "Consultants" fields)) then _ else _)
    as [shown|]; [|discriminate].
  simpl. set (status := default VUndef (assoc "Status" fields)).
  destruct (ToString (LogicalOr status (VStr "Pending"))) as [text|] eqn:Et; [|discriminate].
  intros [= <- _]. exists clinic, shown. eexists. exists text.
  split; [reflexivity|]. split; [|split; [|split]].
  - subst status. destruct (assoc "Status" fields) as [[| |b|n|s|l|f]|]; simpl;
      try (split; [discriminate|discriminate]).
    destruct (String.eqb_spec s "Sent") as [->|Hne]; simpl.
    + split; reflexivity.
    + split; [discriminate|]. intros [= ->]. now destruct Hne.
  - destruct (StrictEquals status (VStr "Sent")); auto.
  - intros Hfalsy. unfold LogicalOr in Et. rewrite Hfalsy in Et. now injection Et as <-.
  - intros s Hs Hne. subst status. rewrite Hs in Et. unfold LogicalOr in Et. simpl in Et.
    destruct (String.eqb s "") eqn:E; [apply String.eqb_eq in E; contradiction|].
    simpl in Et. now injection Et as <-.
Qed.

Lemma status_badge_of_a_record_witness :
  exists clinic shown badge text,
    schedule_item_html "ENT" "A" "badge-pending" "sent"
    = schedule_item_html clinic shown badge text /\
    (badge = "badge-sent"%string <->
     assoc "Status" [("Clinic", VStr "ENT"); ("Consultants", VStr "A"); ("Status", VStr "sent")]%string
     = Some (VStr "Sent")) /\
    (badge = "badge-sent"%string \/ badge = "badge-pending"%string) /\
    (ToBoolean
       (default VUndef
          (assoc "Status"
             [("Clinic", VStr "ENT"); ("Consultants", VStr "A"); ("Status", VStr "sent")]%string))
     = false -> text = "Pending"%string) /\
    (forall s,
        assoc "Status" [("Clinic", VStr "ENT"); ("Consultants", VStr "A"); ("Status", VStr "sent")]%string
        = Some (VStr s) -> s <> ""%string -> text = s).
Proof.
  apply (status_badge_of_a_record
           [("Clinic", VStr "ENT"); ("Consultants", VStr "A"); ("Status", VStr "sent")]%string
           _ (VObj [("Clinic", VStr "ENT"); ("Consultants", VStr "A"); ("Status", VStr "sent")]%string)).
  reflexivity.
Defined.

Lemma call_item_html_team consultant senior registrar :
  contains (call_item_html consultant senior registrar)
    ("<p>Team: " +:+ senior +:+ ", " +:+ registrar +:+ "</p>").
Proof.
  unfold call_item_html. do 21 apply contains_skip.
  exists EmptyString, (nl +:+ spaces 20 +:+ "</div>" +:+ nl +:+ spaces 16 +:+ "</div>"
                       +:+ nl +:+ spaces 12).
  now rewrite !append_assoc.
Qed.

(** X9: a field that a record lacks is printed as the text
    [undefined].  A roster record without [Consultants] shows the line
    [undefined...] and one without [Clinic] the title [undefined]; a
    call-roster record without its registrars shows
    [Team: undefined, undefined]. *)
Theorem missing_fields_are_printed_as_undefined fields :
  (forall html item',
      schedule_item (VObj fields) = Ok (html, item') ->
      (assoc "Consultants" fields = None -> contains html "<p>undefined...</p>") /\
      (assoc "Clinic" fields = None -> contains html "<h4>undefined</h4>")) /\
  (forall html item',
      call_item (VObj fields) = Ok (html, item') ->
      assoc "SeniorRegistrarOnCall" fields = None ->
      assoc "RegistrarOnCall" fields = None ->
      contains html "<p>Team: undefined, undefined</p>").
Proof.
  split.
  - intros html item'.
    unfold schedule_item, cb_bind, item_get, cb_lift, cb_ret. simpl.
    destruct (ToString (default VUndef (assoc "Clinic" fields))) as [clinic|] eqn:Ec;
      [|discriminate].
    simpl.
    destruct (if nullish (default VUndef (assoc "Consultants" fields)) then _ else _)
      as [shown|] eqn:Es; [|discriminate].
    simpl.
    destruct (ToString (LogicalOr _ (VStr "Pending"))) as [text|]; [|discriminate].
    intros [= <- _]. split.
    + intros Hnone. rewrite Hnone in Es. simpl in Es. injection Es as <-.
      apply (schedule_item_subtitle clinic "undefined").
    + intros Hnone. rewrite Hnone in Ec. simpl in Ec. injection Ec as <-.
      apply (schedule_item_title "undefined").
  - intros html item'.
    unfold call_item, cb_bind, item_get, cb_lift, cb_ret. simpl.
    destruct (ToString (default VUndef (assoc "ConsultantOnCall" fields))) as [a|];
      [|discriminate].
    simpl. intros H Hs Hr. rewrite Hs in H. simpl in H. rewrite Hr in H. simpl in H.
    injection H as <- _.
    apply (call_item_html_team a "undefined" "undefined").
Qed.

Example record_with_a_status_only :
  schedule_item (VObj [("Status", VStr "Sent")]%string)
  = Ok (schedule_item_html "undefined" "undefined" "badge-sent" "Sent",
        VObj [("Status", VStr "Sent")]%string) /\
  call_item (VObj [("ConsultantOnCall", VStr "Dr Ade")]%string)
  = Ok (call_item_html "Dr Ade" "undefined" "undefined",
        VObj [("ConsultantOnCall", VStr "Dr Ade")]%string).
Proof. split; reflexivity. Qed.

(** ** Notifications stay until their time *)

Lemma waited_cons ev rest : waited (ev :: rest) = passes ev + waited rest.
Proof. destruct ev; simpl; lia. Qed.

Lemma waited_nonneg evs : Forall (fun ev => 0 <= passes ev) evs -> 0 <= waited evs.
Proof.
  induction 1 as [|ev rest Hev _ IH]; [simpl; lia|]. rewrite waited_cons. lia.
Qed.

Lemma step_lingering n T ev w :
  lingering n T w ->
  ev <> Click n ->
  clock w + passes ev < T ->
  lingering n T (snd (step ev w)).
Proof.
  intros (Hatt & Hlt & Htimers) Hev Hclock.
  destruct ev as [k|dt|message].
  - simpl. split; [|split; assumption].
    apply attached_remove. split; [exact Hatt|]. intros <-. now apply Hev.
  - cbn [step]. unfold elapse. simpl in Hclock.
    set (now := clock w + dt) in *.
    set (due := List.filter (fun t => timer_due t <=? now) (timers w)).
    set (pending := List.filter (fun t => negb (timer_due t <=? now)) (timers w)).
    destruct (fire_spec due (set_timers (fun _ => pending) (set_clock now w)))
      as (w' & E & Ht & Hc & Hn & Hatt').
    rewrite E. simpl in *. split; [|split].
    + apply Hatt'. split; [exact Hatt|].
      intros Hin. apply in_map_iff in Hin as (t & Hnode & Hin).
      apply filter_In in Hin as [Hin Hdue]. apply Z.leb_le in Hdue.
      rewrite Forall_forall in Htimers.
      specialize (Htimers t). rewrite <- list_elem_of_In in Hin.
      specialize (Htimers Hin Hnode). lia.
    + now rewrite Hn.
    + rewrite Ht. rewrite Forall_forall in *. intros t Hin.
      apply Htimers. rewrite list_elem_of_In in *. apply filter_In in Hin. tauto.
  - simpl. split; [|split].
    + unfold attached. simpl. rewrite map_app, in_app_iff. now left.
    + simpl. lia.
    + simpl. apply Forall_app. split; [exact Htimers|].
      constructor; [|constructor]. simpl. lia.
Qed.

Lemma run_lingering n T evs w :
  lingering n T w ->
  ~ In (Click n) evs ->
  Forall (fun ev => 0 <= passes ev) evs ->
  clock w + waited evs < T ->
  lingering n T (snd (run evs w)).
Proof.
  revert w. induction evs as [|ev rest IH]; intros w Hl Hclick Hpos Hclock; [exact Hl|].
  rewrite waited_cons in Hclock.
  apply Forall_cons in Hpos as [Hev Hrest].
  pose proof (waited_nonneg rest Hrest) as Hw.
  destruct (step_spec ev w) as (w1 & E1 & Hc1 & _).
  cbn [run]. rewrite (bind_ok _ _ _ _ _ E1).
  apply IH.
  - replace w1 with (snd (step ev w)) by now rewrite E1.
    apply step_lingering; [exact Hl| |lia].
    intros ->. apply Hclick. now left.
  - intros Hin. apply Hclick. now right.
  - exact Hrest.
  - rewrite Hc1. lia.
Qed.

(** X13: a notification is not removed early.  An error toast stays
    attached while fewer than 5000 time units have passed, and the refresh
    confirmation while fewer than 3000 have passed, whatever other toasts
    are reported, dismissed or expire meanwhile, unless its own close
    button is clicked. *)
Theorem notifications_stay_until_their_timeout w evs :
  timers_known w ->
  Forall (fun ev => 0 <= passes ev) evs ->
  ~ In (Click (next_node w)) evs ->
  (forall message,
      waited evs < 5000 ->
      attached (next_node w) (snd (run evs (snd (showError message w))))) /\
  (waited evs < 3000 ->
   attached (next_node w) (snd (run evs (snd (show_refreshed w))))).
Proof.
  intros Hknown Hpos Hclick.
  assert (Hold : forall T, Forall (fun t => timer_node t = next_node w -> T <= timer_due t)
                             (timers w)).
  { intros T. unfold timers_known in Hknown. rewrite Forall_forall in *.
    intros t Hin Hnode. specialize (Hknown t Hin). lia. }
  split.
  - intros message Hw.
    apply (run_lingering (next_node w) (clock w + 5000)); try assumption.
    + split; [|split].
      * unfold attached. simpl. rewrite map_app, in_app_iff. right. now left.
      * simpl. lia.
      * simpl. apply Forall_app. split; [apply Hold|].
        constructor; [|constructor]. simpl. lia.
    + simpl. lia.
  - intros Hw.
    apply (run_lingering (next_node w) (clock w + 3000)); try assumption.
    + split; [|split].
      * unfold attached. simpl. rewrite map_app, in_app_iff. right. now left.
      * simpl. lia.
      * simpl. apply Forall_app. split; [apply Hold|].
        constructor; [|constructor]. simpl. lia.
    + simpl. lia.
Qed.

Lemma notifications_stay_until_their_timeout_witness :
  (forall message,
      waited [Wait 2000; Report "offline"; Click 5; Wait 2999] < 5000 ->
      attached (next_node (dashboard 0))
        (snd (run [Wait 2000; Report "offline"; Click 5; Wait 2999]
                (snd (showError message (dashboard 0)))))) /\
  (waited [Wait 2000; Report "offline"; Click 5; Wait 2999] < 3000 ->
   attached (next_node (dashboard 0))
     (snd (run [Wait 2000; Report "offline"; Click 5; Wait 2999]
             (snd (show_refreshed (dashboard 0)))))).
Proof.
  apply notifications_stay_until_their_timeout.
  - constructor.
  - repeat constructor; simpl; lia.
  - simpl. intros [H|[H|[H|[H|[]]]]]; discriminate H.
Defined.

(** ** The navigation menu *)

#[local] Set Warnings "-clear-no-such-hyp".

Lemma click_result e nav :
  exists nav',
    click e nav = (nav', []) /\
    menuToggle nav' = menuToggle nav /\
    match navMenu nav, navMenu nav' with
    | None, None => True
    | Some classes, Some classes' =>
        forall token, token <> "active"%string -> token ∈ classes' <-> token ∈ classes
    | _, _ => False
    end.
Proof.
  unfold click, toggle_listening, listen, toggle_clicked, document_clicked.
  destruct nav as [toggle [classes|]]; simpl.
  - destruct toggle, (on_menuToggle e), (innerWidth e <=? 768), (closest_nav_menu e),
      (closest_menu_toggle e); simpl;
      eexists; (split; [reflexivity|]); (split; [reflexivity|]); simpl;
      intros token Hne; try case_decide; set_solver.
  - destruct toggle, (on_menuToggle e), (innerWidth e <=? 768), (closest_nav_menu e),
      (closest_menu_toggle e); simpl; eexists; (split; [reflexivity|]); now split.
Qed.

(** X14: the click listeners of [setupEventListeners] never throw, with
    or without the menu and its toggle; over any sequence of clicks a page
    without a menu stays as it is, and on a page with a menu no class
    other than [active] is ever added to or removed from it. *)
Theorem menu_clicks_are_safe es nav :
  exists nav',
    clicks es nav = (nav', []) /\
    menuToggle nav' = menuToggle nav /\
    match navMenu nav, navMenu nav' with
    | None, None => True
    | Some classes, Some classes' =>
        forall token, token <> "active"%string -> token ∈ classes' <-> token ∈ classes
    | _, _ => False
    end.
Proof.
  revert nav. induction es as [|e rest IH]; intros nav.
  - exists nav. simpl. repeat split. destruct (navMenu nav); [tauto|exact I].
  - destruct (click_result e nav) as (nav1 & E1 & Ht1 & Hm1).
    destruct (IH nav1) as (nav2 & E2 & Ht2 & Hm2).
    exists nav2. simpl. rewrite E1, E2. split; [reflexivity|]. split; [congruence|].
    destruct (navMenu nav), (navMenu nav1), (navMenu nav2); try tauto.
    intros token Hne. rewrite (Hm2 token Hne). now apply Hm1.
Qed.

(** X15: what closes the menu.  On a viewport of 768 or less a click
    whose target is outside every [.nav-menu] and [.menu-toggle] leaves
    the menu without the class [active]; a click that does not reach the
    toggle and is on a wider viewport, or inside the menu or a toggle,
    changes nothing. *)
Theorem outside_click_closes_the_menu_on_narrow_viewports e nav classes :
  navMenu nav = Some classes ->
  (innerWidth e <= 768 -> closest_nav_menu e = false -> closest_menu_toggle e = false ->
   exists classes',
     navMenu (fst (click e nav)) = Some classes' /\ "active"%string ∉ classes') /\
  (on_menuToggle e = false ->
   768 < innerWidth e \/ closest_nav_menu e = true \/ closest_menu_toggle e = true ->
   click e nav = (nav, [])).
Proof.
  intros Hmenu. destruct nav as [toggle menu]. simpl in Hmenu. subst menu.
  unfold click, toggle_listening, listen, toggle_clicked, document_clicked. simpl. split.
  - intros Hw Hnav Htoggle. apply Z.leb_le in Hw. rewrite Hw, Hnav, Htoggle.
    destruct toggle, (on_menuToggle e); simpl; eexists; (split; [reflexivity|]); set_solver.
  - intros Hon Hcases. rewrite Hon.
    destruct Hcases as [Hw|[Hnav|Htoggle]].
    + apply Z.leb_gt in Hw. rewrite Hw. now destruct toggle.
    + rewrite Hnav. destruct toggle, (innerWidth e <=? 768); reflexivity.
    + rewrite Htoggle.
      destruct toggle, (innerWidth e <=? 768), (closest_nav_menu e); reflexivity.
Qed.

Lemma outside_click_closes_the_menu_on_narrow_viewports_witness :
  (375 <= 768 -> false = false -> false = false ->
   exists classes',
     navMenu (fst (click (mkClick 375 false false false)
                     (mkNav true (Some ({["nav-menu"; "active"]}%string : gset string)))))
     = Some classes' /\ "active"%string ∉ classes') /\
  (false = false ->
   768 < 375 \/ false = true \/ false = true ->
   click (mkClick 375 false false false)
     (mkNav true (Some ({["nav-menu"; "active"]}%string : gset string)))
   = (mkNav true (Some ({["nav-menu"; "active"]}%string : gset string)), [])).
Proof.
  apply (outside_click_closes_the_menu_on_narrow_viewports (mkClick 375 false false false)
           (mkNav true (Some ({["nav-menu"; "active"]}%string : gset string)))
           ({["nav-menu"; "active"]}%string : gset string)).
  reflexivity.
Defined.

(** X16: the toggle.  On a page with both the toggle and the menu, a
    click on the toggle flips the class [active] of the menu at every
    viewport width, and a second such click restores the classes the menu
    had. *)
Theorem toggle_click_flips_the_menu e e' toggle_classes :
  on_menuToggle e = true -> closest_menu_toggle e = true ->
  on_menuToggle e' = true -> closest_menu_toggle e' = true ->
  let nav := mkNav true (Some toggle_classes) in
  exists classes',
    click e nav = (mkNav true (Some classes'), []) /\
    ("active"%string ∈ classes' <-> "active"%string ∉ toggle_classes) /\
    click e' (mkNav true (Some classes')) = (nav, []).
Proof.
  intros Hon Hcl Hon' Hcl' nav. subst nav.
  unfold click, toggle_listening, listen, toggle_clicked, document_clicked. simpl.
  rewrite Hon, Hcl, Hon', Hcl'.
  destruct (innerWidth e <=? 768), (closest_nav_menu e), (innerWidth e' <=? 768),
    (closest_nav_menu e'); simpl;
    (eexists; split; [reflexivity|]; split;
     [ case_decide; set_solver
     | do 2 f_equal; f_equal;
       case_decide as Hin; case_decide as Hin'; try set_solver;
       apply set_eq; intros x; destruct (decide (x = "active"%string)); set_solver ]).
Qed.


Lemma toggle_click_flips_the_menu_witness :
  exists classes',
    click (mkClick 375 true false true)
      (mkNav true (Some ({["nav-menu"]}%string : gset string)))
    = (mkNav true (Some classes'), []) /\
    ("active"%string ∈ classes' <-> "active"%string ∉ ({["nav-menu"]}%string : gset string)) /\
    click (mkClick 1280 true true true) (mkNav true (Some classes'))
    = (mkNav true (Some ({["nav-menu"]}%string : gset string)), []).
Proof.
  apply (toggle_click_flips_the_menu (mkClick 375 true false true) (mkClick 1280 true true true)
           ({["nav-menu"]}%string : gset string)); reflexivity.
Defined.

(** ** The install prompt *)

Lemma signal_keeps_the_button sig s :
  is_Some (installBtn (snd (signal sig s))) <-> is_Some (installBtn s).
Proof.
  destruct sig as [e| | |outcome]; simpl.
  - unfold on_beforeinstallprompt. destruct (installBtn s) eqn:E; simpl; rewrite ?E;
      split; intros [x Hx]; try discriminate; eauto.
  - destruct (installBtn s); simpl; split; intros [x Hx]; try discriminate; eauto.
  - unfold on_button_click.
    destruct (installBtn s) eqn:E, (click_listeners s), (deferredPrompt s); simpl;
      now rewrite ?E.
  - unfold on_user_choice. destruct (suspended s); [reflexivity|].
    destruct (installBtn s); simpl; split; intros [x Hx]; try discriminate; eauto.
Qed.

Lemma signal_keeps_shown_captured sig s :
  (installBtn s = Some "flex"%string -> is_Some (deferredPrompt s)) ->
  installBtn (snd (signal sig s)) = Some "flex"%string ->
  is_Some (deferredPrompt (snd (signal sig s))).
Proof.
  intros Hinv. destruct sig as [e| | |outcome]; simpl.
  - unfold on_beforeinstallprompt. destruct (installBtn s); simpl; eauto.
  - destruct (installBtn s); discriminate.
  - unfold on_button_click.
    destruct (installBtn s) eqn:E, (click_listeners s), (deferredPrompt s) eqn:Ed; simpl;
      rewrite ?E, ?Ed; try discriminate; intros H; try (now apply Hinv); eauto.
  - unfold on_user_choice. destruct (suspended s); [exact Hinv|].
    simpl. destruct (installBtn s); discriminate.
Qed.

(** X17: the install button is shown only while an install event is
    held.  From a state in which that is so (such as the initial one, with
    nothing captured and the button not shown) and after any sequence of
    [beforeinstallprompt], [appinstalled], clicks and user choices: if the
    button is displayed as [flex] then [deferredPrompt] holds an event, and
    a click on the button does not fail on a [null] reference. *)
Theorem shown_install_button_holds_a_prompt sigs s0 :
  (installBtn s0 = Some "flex"%string -> is_Some (deferredPrompt s0)) ->
  installBtn (after sigs s0) = Some "flex"%string ->
  is_Some (deferredPrompt (after sigs s0)) /\
  fst (signal ButtonClick (after sigs s0)) = Ok tt.
Proof.
  revert s0. induction sigs as [|sig rest IH]; intros s0 Hinv Hshown; simpl in *.
  - destruct (Hinv Hshown) as [e He]. split; [eauto|].
    unfold on_button_click. rewrite Hshown, He. now destruct (click_listeners s0).
  - apply IH; [|exact Hshown]. now apply signal_keeps_shown_captured.
Qed.

Lemma shown_install_button_holds_a_prompt_witness :
  is_Some (deferredPrompt
             (after [BeforeInstallPrompt 1; ButtonClick; UserChoice "dismissed";
                     BeforeInstallPrompt 2]
                (mkInstall None (Some "none"%string) 0 0 [] [] []))) /\
  fst (signal ButtonClick
         (after [BeforeInstallPrompt 1; ButtonClick; UserChoice "dismissed";
                 BeforeInstallPrompt 2]
            (mkInstall None (Some "none"%string) 0 0 [] [] []))) = Ok tt.
Proof.
  apply shown_install_button_holds_a_prompt.
  - discriminate.
  - reflexivity.
Defined.

Lemma after_app sigs1 sigs2 s : after (sigs1 ++ sigs2) s = after sigs2 (after sigs1 s).
Proof. revert s. induction sigs1 as [|sig rest IH]; intros s; [reflexivity|apply IH]. Qed.

Lemma after_keeps_the_button sigs s :
  is_Some (installBtn (after sigs s)) <-> is_Some (installBtn s).
Proof.
  revert s. induction sigs as [|sig rest IH]; intros s; [reflexivity|].
  simpl. rewrite IH. apply signal_keeps_the_button.
Qed.

Lemma resolved_stays_resolved sigs s :
  offered sigs = [] ->
  deferredPrompt s = None ->
  installBtn s = None \/ installBtn s = Some "none"%string ->
  deferredPrompt (after sigs s) = None /\ installBtn (after sigs s) = installBtn s.
Proof.
  revert s. induction sigs as [|sig rest IH]; intros s Hoff Hd Hb; [now split|].
  destruct sig as [e| | |outcome]; simpl in *; try discriminate.
  - destruct (IH (on_appinstalled s) Hoff) as [H1 H2]; [reflexivity| |].
    + simpl. destruct (installBtn s); auto.
    + split; [exact H1|]. rewrite H2. simpl. destruct Hb as [->| ->]; reflexivity.
  - assert (E : snd (on_button_click s) = s).
    { unfold on_button_click. rewrite Hd.
      now destruct (installBtn s), (click_listeners s). }
    rewrite E. now apply IH.
  - unfold on_user_choice. destruct (suspended s) as [|waiting]; [now apply IH|].
    destruct (IH (mkInstall None
                    (match installBtn s with Some _ => Some "none"%string | None => None end)
                    (click_listeners s) waiting (prevented s) (prompted s)
                    (install_log s ++ ["User response to the install prompt: " +:+ outcome]))
                Hoff) as [H1 H2]; [reflexivity| |].
    + simpl. destruct (installBtn s); auto.
    + split; [exact H1|]. rewrite H2. simpl. destruct Hb as [->| ->]; reflexivity.
Qed.

(** X18: [appinstalled] settles the prompt whatever happened before it:
    the reference to the event is dropped and the button, when the page
    has one, is hidden, and they stay so through every later click and
    user choice until the browser offers the installation again. *)
Theorem appinstalled_settles_the_prompt before later s0 :
  offered later = [] ->
  deferredPrompt (after (before ++ AppInstalled :: later) s0) = None /\
  installBtn (after (before ++ AppInstalled :: later) s0)
  = match installBtn s0 with Some _ => Some "none"%string | None => None end.
Proof.
  intros Hoff. rewrite after_app. cbn [after signal snd].
  set (s := after before s0).
  destruct (resolved_stays_resolved later (on_appinstalled s) Hoff) as [H1 H2].
  - reflexivity.
  - simpl. destruct (installBtn s); auto.
  - split; [exact H1|]. rewrite H2. simpl.
    pose proof (after_keeps_the_button before s0) as Hb. fold s in Hb.
    destruct (installBtn s), (installBtn s0); try reflexivity.
    + destruct Hb as [Hb _]. destruct Hb as [x Hx]; [eauto|discriminate].
    + destruct Hb as [_ Hb]. destruct Hb as [x Hx]; [eauto|discriminate].
Qed.

Lemma appinstalled_settles_the_prompt_witness :
  deferredPrompt
    (after ([BeforeInstallPrompt 1; ButtonClick] ++ AppInstalled :: [UserChoice "accepted"; ButtonClick])
       (mkInstall None (Some "none"%string) 0 0 [] [] [])) = None /\
  installBtn
    (after ([BeforeInstallPrompt 1; ButtonClick] ++ AppInstalled :: [UserChoice "accepted"; ButtonClick])
       (mkInstall None (Some "none"%string) 0 0 [] [] []))
  = match installBtn (mkInstall None (Some "none"%string) 0 0 [] [] []) with
    | Some _ => Some "none"%string
    | None => None
    end.
Proof. apply appinstalled_settles_the_prompt. reflexivity. Defined.

Lemma signal_accounts sig s :
  prevented (snd (signal sig s)) = prevented s ++ offered [sig] /\
  click_listeners (snd (signal sig s))
  = (click_listeners s
     + match installBtn s with Some _ => length (offered [sig]) | None => 0 end)%nat.
Proof.
  destruct sig as [e| | |outcome]; simpl.
  - unfold on_beforeinstallprompt. destruct (installBtn s); simpl; split; auto; lia.
  - rewrite app_nil_r. destruct (installBtn s); split; auto; lia.
  - unfold on_button_click.
    destruct (installBtn s) eqn:Eb, (click_listeners s) eqn:Ec, (deferredPrompt s) eqn:Ed;
      simpl; rewrite ?Ec, app_nil_r; split; auto; lia.
  - unfold on_user_choice. destruct (suspended s); simpl; rewrite app_nil_r;
      destruct (installBtn s); split; auto; lia.
Qed.

(** X19: every [beforeinstallprompt] event has its default prevented,
    also on a page without the install button, and on a page with the
    button each of these events adds one more click listener: a click then
    calls [prompt()] on the held event once for every event received so
    far. *)
Theorem every_offer_is_prevented_and_adds_a_listener sigs s0 :
  prevented (after sigs s0) = prevented s0 ++ offered sigs /\
  click_listeners (after sigs s0)
  = (click_listeners s0
     + match installBtn s0 with Some _ => length (offered sigs) | None => 0 end)%nat /\
  (forall e,
      deferredPrompt (after sigs s0) = Some e ->
      is_Some (installBtn s0) ->
      prompted (snd (signal ButtonClick (after sigs s0)))
      = prompted (after sigs s0) ++ repeat e (click_listeners (after sigs s0))).
Proof.
  split; [|split].
  - revert s0. induction sigs as [|sig rest IH]; intros s0; simpl; [now rewrite app_nil_r|].
    rewrite IH. destruct (signal_accounts sig s0) as [-> _].
    rewrite <- app_assoc. f_equal. now destruct sig.
  - revert s0. induction sigs as [|sig rest IH]; intros s0; simpl.
    + destruct (installBtn s0); lia.
    + rewrite IH. destruct (signal_accounts sig s0) as [_ ->].
      pose proof (signal_keeps_the_button sig s0) as Hb.
      destruct (installBtn (snd (signal sig s0))) eqn:E1, (installBtn s0) eqn:E0.
      * destruct sig; simpl; lia.
      * destruct Hb as [Hb _]. destruct Hb as [x Hx]; [eauto|discriminate].
      * destruct Hb as [_ Hb]. destruct Hb as [x Hx]; [eauto|discriminate].
      * lia.
  - intros e He Hb. apply (after_keeps_the_button sigs s0) in Hb. destruct Hb as [display Hb].
    simpl. unfold on_button_click. rewrite Hb, He.
    destruct (click_listeners (after sigs s0)); simpl; [now rewrite app_nil_r|reflexivity].
Qed.

(** ** Startup *)

Lemma loadData_rejects_without_a_list_target env w :
  elements w !! "today-schedule" = None \/ elements w !! "on-call-today" = None ->
  exists w', loadData env Home w = (Throw (cannot_set "innerHTML"), w').
Proof.
  intros [Hts|Hoc]; [now apply loadData_rejects_without_schedule_target|].
  unfold loadData. cbn [Promise_all].
  destruct (loadStats_total env w) as [w1 E1].
  pose proof (keeps_absent_loadStats env w _ Hoc) as Hoc1. rewrite E1 in Hoc1. simpl in Hoc1.
  unfold bind at 1. rewrite E1.
  destruct (elements w1 !! "today-schedule") as [c|] eqn:Ets.
  - destruct (loadTodaySchedule_present env w1 c Ets) as (w2 & html & E2 & Hel2).
    assert (Hoc2 : elements w2 !! "on-call-today" = None)
      by (rewrite Hel2; now rewrite lookup_insert_ne by discriminate).
    destruct (loadOnCallToday_absent env w2 Hoc2) as [w3 E3].
    rewrite E2, E3. eauto.
  - destruct (loadTodaySchedule_absent env w1 Ets) as [w2 E2]. rewrite E2.
    destruct (loadOnCallToday env w2) as [r3 w3]. destruct r3; eauto.
Qed.

(** X20: with the two list targets on the page the startup of the home
    page runs to its end, whatever the service answers: it registers the
    listeners for clicks, for [load] when the browser has service
    workers, for [beforeinstallprompt] and [appinstalled], in this order,
    and writes the timestamp when its element exists. *)
Theorem startup_of_the_home_page_completes env serviceWorker b :
  is_Some (elements (page b) !! "today-schedule") ->
  is_Some (elements (page b) !! "on-call-today") ->
  exists w',
    init env serviceWorker Home b
    = (Ok tt,
       mkBoot w'
         (registered b ++ ["click"%string]
          ++ (if serviceWorker then ["load"%string] else [])
          ++ ["beforeinstallprompt"; "appinstalled"]%string)) /\
    (is_Some (elements (page b) !! "last-updated") ->
     elements w' !! "last-updated"
     = Some (TextContent (toLocaleString env (clock (page b))))).
Proof.
  intros Hts Hoc.
  destruct (loadData_home_resolves env (page b) Hts Hoc) as [w1 E1].
  destruct (frames_loadData env Home) as [F]. specialize (F (page b)). rewrite E1 in F.
  destruct F as (Hc & He & Hp & _). simpl in Hc, He, Hp.
  unfold init, register. cbn [page registered]. rewrite E1. cbn [page registered].
  rewrite (updateLastUpdated_run env w1).
  eexists. split.
  - f_equal. f_equal. now rewrite <- !app_assoc.
  - intros Hlu. destruct (Hp _ Hlu) as [c Hc1]. rewrite Hc1. simpl.
    rewrite Hc. apply lookup_insert_eq.
Qed.

Lemma startup_of_the_home_page_completes_witness :
  exists w',
    init (service 60 (NetworkFailure "offline")) true Home (mkBoot (dashboard late_evening) [])
    = (Ok tt,
       mkBoot w'
         ([] ++ ["click"%string] ++ ["load"%string]
          ++ ["beforeinstallprompt"; "appinstalled"]%string)) /\
    (is_Some (elements (page (mkBoot (dashboard late_evening) [])) !! "last-updated") ->
     elements w' !! "last-updated"
     = Some (TextContent
               (toLocaleString (service 60 (NetworkFailure "offline"))
                  (clock (page (mkBoot (dashboard late_evening) [])))))).
Proof.
  apply (startup_of_the_home_page_completes (service 60 (NetworkFailure "offline")) true
           (mkBoot (dashboard late_evening) [])); vm_compute; eauto.
Defined.

(** X21: when one of the two list targets is missing, the startup of the
    home page stops at [loadData]: [init] rejects, only the click
    listeners are registered (the service worker and the install prompt
    are never set up), and the timestamp is left as it was. *)
Theorem startup_stops_without_a_list_target env serviceWorker b :
  elements (page b) !! "today-schedule" = None \/
  elements (page b) !! "on-call-today" = None ->
  exists w',
    init env serviceWorker Home b
    = (Throw (cannot_set "innerHTML"), mkBoot w' (registered b ++ ["click"%string])) /\
    elements w' !! "last-updated" = elements (page b) !! "last-updated".
Proof.
  intros Hmissing.
  destruct (loadData_rejects_without_a_list_target env (page b) Hmissing) as [w1 E1].
  destruct (frames_loadData env Home) as [F]. specialize (F (page b)). rewrite E1 in F.
  destruct F as (_ & He & _). simpl in He.
  exists w1. unfold init, register. cbn [page registered]. rewrite E1.
  split; [reflexivity|].
  apply He. unfold counters. simpl. intros H.
  repeat (destruct H as [H|H]; [discriminate H|]). exact H.
Qed.

Lemma startup_stops_without_a_list_target_witness :
  exists w',
    init (clinic_service 60 ent_roster (VArr two_day_roster) (VArr [])) true Home
      (mkBoot (dashboard_without_schedule late_evening) [])
    = (Throw (cannot_set "innerHTML"), mkBoot w' ([] ++ ["click"%string])) /\
    elements w' !! "last-updated"
    = elements (page (mkBoot (dashboard_without_schedule late_evening) [])) !! "last-updated".
Proof.
  apply (startup_stops_without_a_list_target _ true
           (mkBoot (dashboard_without_schedule late_evening) [])).
  left. vm_compute. reflexivity.
Defined.

Lemma controller_for_other_paths path :
  path <> "/"%string -> path <> "/index.html"%string -> controller_for path = GenericPage.
Proof.
  intros H1 H2. unfold controller_for.
  apply String.eqb_neq in H1. apply String.eqb_neq in H2. now rewrite H1, H2.
Qed.

(** X22: on every path other than [/] and [/index.html] the page gets
    the base controller, whose startup asks the service nothing and
    always completes: it registers all its listeners, logs one line,
    updates the timestamp when its element exists, and leaves the other
    elements, the toasts and the timers as they were. *)
Theorem startup_on_other_paths_asks_nothing path env serviceWorker b :
  path <> "/"%string -> path <> "/index.html"%string ->
  exists w',
    init env serviceWorker (controller_for path) b
    = (Ok tt,
       mkBoot w'
         (registered b ++ ["click"%string]
          ++ (if serviceWorker then ["load"%string] else [])
          ++ ["beforeinstallprompt"; "appinstalled"]%string)) /\
    console w' = console (page b) ++ ["Loading data..."%string] /\
    body w' = body (page b) /\ timers w' = timers (page b) /\
    elements w' !! "last-updated"
    = (fun _ => TextContent (toLocaleString env (clock (page b))))
        <$> elements (page b) !! "last-updated" /\
    (forall id, id <> "last-updated"%string -> elements w' !! id = elements (page b) !! id).
Proof.
  intros H1 H2. rewrite (controller_for_other_paths path H1 H2).
  unfold init, loadData. simpl.
  rewrite updateLastUpdated_run. simpl.
  eexists. split; [f_equal; f_equal; now rewrite <- !app_assoc|].
  destruct (elements (page b) !! "last-updated") eqn:E; simpl.
  - repeat split; try reflexivity.
    + now rewrite lookup_insert_eq.
    + intros id Hid. now apply lookup_insert_ne.
  - repeat split; try reflexivity. now rewrite E.
Qed.

Lemma startup_on_other_paths_asks_nothing_witness :
  exists w',
    init (service 60 (NetworkFailure "offline")) false (controller_for "/clinics.html")
      (mkBoot (dashboard late_evening) [])
    = (Ok tt,
       mkBoot w' ([] ++ ["click"%string] ++ [] ++ ["beforeinstallprompt"; "appinstalled"]%string)) /\
    console w' = console (page (mkBoot (dashboard late_evening) [])) ++ ["Loading data..."%string] /\
    body w' = body (page (mkBoot (dashboard late_evening) [])) /\
    timers w' = timers (page (mkBoot (dashboard late_evening) [])) /\
    elements w' !! "last-updated"
    = (fun _ => TextContent
                  (toLocaleString (service 60 (NetworkFailure "offline"))
                     (clock (page (mkBoot (dashboard late_evening) [])))))
        <$> elements (page (mkBoot (dashboard late_evening) [])) !! "last-updated" /\
    (forall id, id <> "last-updated"%string ->
       elements w' !! id = elements (page (mkBoot (dashboard late_evening) [])) !! id).
Proof.
  apply (startup_on_other_paths_asks_nothing "/clinics.html"
           (service 60 (NetworkFailure "offline")) false (mkBoot (dashboard late_evening) []));
    discriminate.
Defined.
